(** * Deal analytics dashboard: filtering, sorting and aggregation

    A shallow embedding of the data pipeline of
    [src/DealAnalyticsDashboard.jsx] (the full dashboard) and of the
    simplified dashboard variant shipped next to it: the [filteredDeals]
    predicate, the [sortedDeals] comparator, [summaryStats] and the chart
    aggregations.

    The code is JavaScript, so the first part of the file fixes the
    fragment of the language the pipeline relies on: dynamically typed
    cell values, IEEE-754 numbers (Rocq's primitive binary64 floats),
    truthiness, the relational operators, string/number conversions and
    the [Date] constructor.  Strings are sequences of 8-bit characters
    with ASCII case mapping and ASCII white space; the embedding is exact
    on ASCII text. *)

From Stdlib Require Import ZArith QArith Floats Ascii String List Bool Lia.
From Stdlib Require Import Sorting.Permutation Sorting.Sorted.
From stdpp Require Import gmap strings list.

Local Open Scope string_scope.
Local Open Scope Z_scope.

(* ===================================================================== *)
(** * The JavaScript fragment                                             *)
(* ===================================================================== *)

Module JS.

(** A CSV cell after [Papa.parse] with [dynamicTyping]: a number, a
    boolean, a string, [null] for an empty cell, and [undefined] when the
    row has no such column.  (Cells that the parser turns into [Date]
    objects, those written as ISO timestamps, are not covered.) *)
Inductive value : Type :=
| VUndefined
| VNull
| VBool (b : bool)
| VNum (n : float)
| VStr (s : string).

(** A row object: field name to cell; a missing key reads [undefined]. *)
Abbreviation record := (gmap string value).

Definition get (o : record) (k : string) : value :=
  match o !! k with
  | Some v => v
  | None => VUndefined
  end.

(** ** Numbers *)

Definition isNaN (x : float) : bool := negb (PrimFloat.eqb x x).

(** The number nearest to an integer (round to nearest, ties to even). *)
Definition Z2F (z : Z) : float :=
  SF2Prim (binary_normalize prec emax z 0 false).

(** The number nearest to the fraction [n / d], with the sign [neg]. *)
Definition ratio2F (neg : bool) (n d : positive) : float :=
  SF2Prim (SFdiv prec emax (S754_finite neg n 0) (S754_finite false d 0)).

(** The number nearest to [m * 10 ^ e10] for [0 <= m]; the two guards cut
    off exponents whose value is an overflow or an underflow whatever the
    digits are, so that no astronomically large power is ever built. *)
Definition decToFloat (neg : bool) (m e10 : Z) : float :=
  let signed (x : float) := if neg then PrimFloat.opp x else x in
  match m with
  | Zpos p =>
      if 0 <=? e10 then
        if 310 <? e10 then signed PrimFloat.infinity
        else signed (Z2F (m * 10 ^ e10))
      else if Z.log2 m + 1 <? 3 * (- e10) - 1100 then signed PrimFloat.zero
      else ratio2F neg p (Z.to_pos (10 ^ (- e10)))
  | _ => signed PrimFloat.zero
  end.

(** ** Characters and strings *)

Definition code (c : ascii) : Z := Z.of_nat (nat_of_ascii c).

Definition isDigit (c : ascii) : bool := (48 <=? code c) && (code c <=? 57).

Definition digitVal (c : ascii) : Z := code c - 48.

Definition hexVal (c : ascii) : option Z :=
  let n := code c in
  if (48 <=? n) && (n <=? 57) then Some (n - 48)
  else if (65 <=? n) && (n <=? 70) then Some (n - 55)
  else if (97 <=? n) && (n <=? 102) then Some (n - 87)
  else None.

(** White space and line terminators (TAB, LF, VT, FF, CR, SP). *)
Definition isWhite (c : ascii) : bool :=
  let n := code c in ((9 <=? n) && (n <=? 13)) || (n =? 32).

Definition lowerChar (c : ascii) : ascii :=
  let n := code c in
  if (65 <=? n) && (n <=? 90) then ascii_of_nat (Z.to_nat (n + 32)) else c.

Definition upperChar (c : ascii) : ascii :=
  let n := code c in
  if (97 <=? n) && (n <=? 122) then ascii_of_nat (Z.to_nat (n - 32)) else c.

Fixpoint mapString (f : ascii -> ascii) (s : string) : string :=
  match s with
  | EmptyString => EmptyString
  | String c r => String (f c) (mapString f r)
  end.

Definition toLowerCase (s : string) : string := mapString lowerChar s.
Definition toUpperCase (s : string) : string := mapString upperChar s.

Definition chars (s : string) : list ascii := list_ascii_of_string s.
Definition ofChars (cs : list ascii) : string := string_of_list_ascii cs.

(** [s.includes(t)]: [t] occurs in [s] as a contiguous substring. *)
Fixpoint includes (s t : string) : bool :=
  if String.prefix t s then true
  else match s with
       | EmptyString => false
       | String _ r => includes r t
       end.

(** [s.split(sep)] for a one-character separator. *)
Fixpoint splitChars (sep : ascii) (cs : list ascii) (cur : list ascii)
  : list string :=
  match cs with
  | [] => [ofChars (rev cur)]
  | c :: r =>
      if Ascii.eqb c sep then ofChars (rev cur) :: splitChars sep r []
      else splitChars sep r (c :: cur)
  end.

Definition split (sep : ascii) (s : string) : list string :=
  splitChars sep (chars s) [].

(** [s.replace(/[^0-9.-]/g, '')]: keep digits, dots and minus signs. *)
Definition isNumericChar (c : ascii) : bool :=
  isDigit c || (code c =? 46) || (code c =? 45).

Definition stripNonNumeric (s : string) : string :=
  ofChars (List.filter isNumericChar (chars s)).

Fixpoint dropWhite (cs : list ascii) : list ascii :=
  match cs with
  | c :: r => if isWhite c then dropWhite r else cs
  | [] => []
  end.

Definition trimChars (cs : list ascii) : list ascii :=
  rev (dropWhite (rev (dropWhite cs))).

(** ** Reading numbers out of strings *)

Fixpoint spanDigits (cs : list ascii) : list ascii * list ascii :=
  match cs with
  | c :: r =>
      if isDigit c then let (ds, rest) := spanDigits r in (c :: ds, rest)
      else ([], cs)
  | [] => ([], [])
  end.

Definition digitsValue (ds : list ascii) : Z :=
  fold_left (fun acc d => 10 * acc + digitVal d) ds 0.

Fixpoint spanRadix (radix : Z) (cs : list ascii) : list Z * list ascii :=
  match cs with
  | c :: r =>
      match hexVal c with
      | Some d =>
          if d <? radix then
            let (ds, rest) := spanRadix radix r in (d :: ds, rest)
          else ([], cs)
      | None => ([], cs)
      end
  | [] => ([], [])
  end.

Definition radixValue (radix : Z) (ds : list Z) : Z :=
  fold_left (fun acc d => radix * acc + d) ds 0.

Definition isE (c : ascii) : bool := (code c =? 101) || (code c =? 69).

(** An exponent part is consumed only when it has at least one digit. *)
Definition scanExponent (cs : list ascii) : Z * list ascii :=
  match cs with
  | c :: r =>
      if isE c then
        let '(sgn, r1) :=
          match r with
          | s :: r' =>
              if code s =? 43 then (1, r')
              else if code s =? 45 then (-1, r')
              else (1, r)
          | [] => (1, r)
          end in
        let (ds, r2) := spanDigits r1 in
        match ds with
        | [] => (0, cs)
        | _ => (sgn * digitsValue ds, r2)
        end
      else (0, cs)
  | [] => (0, cs)
  end.

(** The longest prefix that is an unsigned decimal literal
    ([digits], [digits.], [digits.digits] or [.digits], then an optional
    exponent): its digits, its power of ten and what follows it. *)
Definition scanUnsignedDecimal (cs : list ascii)
  : option (Z * Z * list ascii) :=
  let (ip, r1) := spanDigits cs in
  let '(fp, r2, ok) :=
    match r1 with
    | c :: r =>
        if code c =? 46 then
          let (fp, r') := spanDigits r in
          match ip, fp with
          | [], [] => ([], r1, false)
          | _, _ => (fp, r', true)
          end
        else ([], r1, match ip with [] => false | _ => true end)
    | [] => ([], r1, match ip with [] => false | _ => true end)
    end in
  if ok then
    let (e, r3) := scanExponent r2 in
    Some (digitsValue (ip ++ fp), e - Z.of_nat (length fp), r3)
  else None.

Definition stripSign (cs : list ascii) : bool * list ascii :=
  match cs with
  | c :: r =>
      if code c =? 45 then (true, r)
      else if code c =? 43 then (false, r)
      else (false, cs)
  | [] => (false, cs)
  end.

Definition isInfinityPrefix (cs : list ascii) : bool :=
  String.prefix "Infinity" (ofChars cs).

(** Global [parseFloat]: leading white space is skipped and the longest
    numeric prefix is read; [NaN] when there is none. *)
Definition parseFloat (s : string) : float :=
  let (neg, body) := stripSign (dropWhite (chars s)) in
  if isInfinityPrefix body then
    (if neg then PrimFloat.neg_infinity else PrimFloat.infinity)
  else
    match scanUnsignedDecimal body with
    | Some (m, e, _) => decToFloat neg m e
    | None => PrimFloat.nan
    end.

(** Global [parseInt] without a radix: the integer read, [None] for
    [NaN].  Read exactly; the host rounds it to a number, which is the
    same integer up to [2^53]. *)
Definition parseInt (s : string) : option Z :=
  let (neg, body) := stripSign (dropWhite (chars s)) in
  let '(radix, body) :=
    match body with
    | z :: x :: r =>
        if (code z =? 48) && ((code x =? 120) || (code x =? 88))
        then (16, r) else (10, body)
    | _ => (10, body)
    end in
  let (ds, _) := spanRadix radix body in
  match ds with
  | [] => None
  | _ => Some (if neg then - radixValue radix ds else radixValue radix ds)
  end.

Definition radixLiteral (cs : list ascii) : option float :=
  match cs with
  | z :: x :: r =>
      if code z =? 48 then
        let radix :=
          if (code x =? 120) || (code x =? 88) then Some 16
          else if (code x =? 111) || (code x =? 79) then Some 8
          else if (code x =? 98) || (code x =? 66) then Some 2
          else None in
        match radix with
        | Some b =>
            match spanRadix b r with
            | (d :: ds, []) => Some (Z2F (radixValue b (d :: ds)))
            | _ => None
            end
        | None => None
        end
      else None
  | _ => None
  end.

(** [ToNumber] on a string: the whole trimmed string must be a numeric
    literal; the empty string is [0]. *)
Definition StringToNumber (s : string) : float :=
  let cs := trimChars (chars s) in
  match cs with
  | [] => PrimFloat.zero
  | _ =>
      match radixLiteral cs with
      | Some x => x
      | None =>
          let (neg, body) := stripSign cs in
          if String.eqb (ofChars body) "Infinity" then
            (if neg then PrimFloat.neg_infinity else PrimFloat.infinity)
          else
            match scanUnsignedDecimal body with
            | Some (m, e, []) => decToFloat neg m e
            | _ => PrimFloat.nan
            end
      end
  end.

(** ** Writing numbers as strings *)

Definition digitChar (d : Z) : ascii := ascii_of_nat (Z.to_nat (48 + d)).

Fixpoint digitsAcc (fuel : nat) (z : Z) (acc : list ascii) : list ascii :=
  match fuel with
  | O => acc
  | S f =>
      if z <? 10 then digitChar z :: acc
      else digitsAcc f (z / 10) (digitChar (z mod 10) :: acc)
  end.

(** The decimal digits of a non-negative integer. *)
Definition decimalDigits (z : Z) : list ascii :=
  digitsAcc (S (Z.to_nat (Z.log2 z))) z [].

(** [s * 10 ^ p] against the fraction [a / b] (with [0 < b]). *)
Definition cmpDec (s p a b : Z) : comparison :=
  if 0 <=? p then (s * 10 ^ p * b ?= a) else (s * b ?= a * 10 ^ (- p)).

(** The least [n], searching upwards from [n0], with [a / b < 10 ^ n]. *)
Fixpoint findN (fuel : nat) (n0 a b : Z) : Z :=
  match fuel with
  | O => n0
  | S f =>
      match cmpDec 1 n0 a b with
      | Gt => n0
      | _ => findN f (n0 + 1) a b
      end
  end.

(** One round of the shortest-digits search with [k] digits: the
    candidates are the two [k]-digit decimals around the number; a
    candidate is accepted when it reads back as the same number, that is,
    when it lies in the rounding interval [lo, hi] (end points included
    exactly when the mantissa is even); of two accepted candidates the
    nearer wins, the even one on a tie. *)
Definition shortestAt (even : bool) (ax alo ahi b n k : Z) : option (Z * Z) :=
  let p := n - k in
  let slo := if 0 <=? p then ax / (b * 10 ^ p) else (ax * 10 ^ (- p)) / b in
  let shi := slo + 1 in
  let okLo :=
    match cmpDec slo p alo b with
    | Gt => true
    | Eq => even
    | Lt => false
    end in
  let okHi :=
    match cmpDec shi p ahi b with
    | Lt => true
    | Eq => even
    | Gt => false
    end in
  let norm (s : Z) := if s =? 10 ^ k then (10 ^ (k - 1), n + 1) else (s, n) in
  match okLo, okHi with
  | true, true =>
      match cmpDec (2 * slo + 1) p (2 * ax) b with
      | Gt => Some (norm slo)
      | Lt => Some (norm shi)
      | Eq => Some (norm (if Z.even slo then slo else shi))
      end
  | true, false => Some (norm slo)
  | false, true => Some (norm shi)
  | false, false => None
  end.

Fixpoint shortestFrom (fuel : nat) (even : bool) (ax alo ahi b n k : Z)
  : Z * Z * Z :=
  match fuel with
  | O => (ax / b, k, n)
  | S f =>
      match shortestAt even ax alo ahi b n k with
      | Some (s, n') => (s, k, n')
      | None => shortestFrom f even ax alo ahi b n (k + 1)
      end
  end.

Fixpoint stripZeros (fuel : nat) (s k : Z) : Z * Z :=
  match fuel with
  | O => (s, k)
  | S f =>
      if (1 <? k) && (s mod 10 =? 0) then stripZeros f (s / 10) (k - 1)
      else (s, k)
  end.

(** The shortest decimal [s * 10 ^ (n - k)], with [k] digits in [s], that
    reads back as the positive number [m * 2 ^ e]. *)
Definition shortestDigits (m : positive) (e : Z) : Z * Z * Z :=
  let u := e - 2 in
  let scale (q : Z) := if 0 <=? u then q * 2 ^ u else q in
  let b := if 0 <=? u then 1 else 2 ^ (- u) in
  let mz := Zpos m in
  let lowGap :=
    if (mz =? 2 ^ 52) && (-1074 <? e) then 1 else 2 in
  let ax := scale (4 * mz) in
  let alo := scale (4 * mz - lowGap) in
  let ahi := scale (4 * mz + 2) in
  let est := ((Z.log2 mz + e) * 30103) / 100000 in
  let n := findN 4 est ax b in
  let '(s, k, n') := shortestFrom 17 (Z.even mz) ax alo ahi b n 1 in
  let (s', k') := stripZeros 17 s k in
  (s', k', n').

Definition zeros (n : Z) : list ascii := repeat "0"%char (Z.to_nat n).

(** The layout rules of [Number.prototype.toString] for radix 10. *)
Definition layoutDigits (s k n : Z) : list ascii :=
  let ds := decimalDigits s in
  if (k <=? n) && (n <=? 21) then ds ++ zeros (n - k)
  else if (0 <? n) && (n <=? 21) then
    firstn (Z.to_nat n) ds ++ "."%char :: skipn (Z.to_nat n) ds
  else if (-6 <? n) && (n <=? 0) then
    "0"%char :: "."%char :: zeros (- n) ++ ds
  else
    let ex := n - 1 in
    let sign := if 0 <=? ex then "+"%char else "-"%char in
    let expo := "e"%char :: sign :: decimalDigits (Z.abs ex) in
    match ds with
    | d :: (_ :: _) as r => d :: "."%char :: r ++ expo
    | _ => ds ++ expo
    end.

Definition Number_toString (x : float) : string :=
  match Prim2SF x with
  | S754_nan => "NaN"
  | S754_zero _ => "0"
  | S754_infinity neg => if neg then "-Infinity" else "Infinity"
  | S754_finite neg m e =>
      let '(s, k, n) := shortestDigits m e in
      ofChars ((if neg then ["-"%char] else []) ++ layoutDigits s k n)
  end.

(** ** Conversions and operators on values *)

(** [ToBoolean]. *)
Definition truthy (v : value) : bool :=
  match v with
  | VUndefined | VNull => false
  | VBool b => b
  | VNum n => negb (PrimFloat.eqb n 0 || isNaN n)
  | VStr s => negb (String.eqb s "")
  end.

(** [a || b]. *)
Definition orElse (a b : value) : value := if truthy a then a else b.

(** [ToNumber]. *)
Definition ToNumber (v : value) : float :=
  match v with
  | VUndefined => PrimFloat.nan
  | VNull => PrimFloat.zero
  | VBool b => if b then PrimFloat.one else PrimFloat.zero
  | VNum n => n
  | VStr s => StringToNumber s
  end.

(** [String(v)]; also [v.toString()] wherever [v] is not nullish. *)
Definition ToString (v : value) : string :=
  match v with
  | VUndefined => "undefined"
  | VNull => "null"
  | VBool b => if b then "true" else "false"
  | VNum n => Number_toString n
  | VStr s => s
  end.

(** [a < b]: two strings compare by code units, anything else by
    number, and a comparison with [NaN] is false. *)
Definition lt (a b : value) : bool :=
  match a, b with
  | VStr s, VStr t => String.ltb s t
  | _, _ => PrimFloat.ltb (ToNumber a) (ToNumber b)
  end.

(** [a > b] is [b < a]. *)
Definition gt (a b : value) : bool := lt b a.

(** [a === b]. *)
Definition strictEq (a b : value) : bool :=
  match a, b with
  | VUndefined, VUndefined => true
  | VNull, VNull => true
  | VBool x, VBool y => Bool.eqb x y
  | VNum x, VNum y => PrimFloat.eqb x y
  | VStr s, VStr t => String.eqb s t
  | _, _ => false
  end.

(** [SameValueZero], the equality of [Array.prototype.includes]. *)
Definition sameValueZero (a b : value) : bool :=
  match a, b with
  | VNum x, VNum y => PrimFloat.eqb x y || (isNaN x && isNaN y)
  | _, _ => strictEq a b
  end.

Definition arrayIncludes (l : list value) (v : value) : bool :=
  existsb (fun x => sameValueZero x v) l.

(** [v.toLowerCase()] for a value of any type.  Only a string has the
    method: on a number or a boolean [v.toLowerCase] is [undefined], and
    on [undefined] and [null] the property access itself fails; either
    way the call raises a [TypeError], which is [None]. *)
Definition callToLowerCase (v : value) : option string :=
  match v with
  | VStr s => Some (toLowerCase s)
  | _ => None
  end.

(** [l.some(p)] for a callback that may raise an exception ([None]): the
    elements are tried in order up to the first for which [p] returns
    [true]; an exception raised on the way is the outcome. *)
Fixpoint arraySome {A : Type} (p : A -> option bool) (l : list A)
  : option bool :=
  match l with
  | [] => Some false
  | x :: r =>
      match p x with
      | None => None
      | Some true => Some true
      | Some false => arraySome p r
      end
  end.

(** [l.filter(p)] for a callback that may raise an exception: every
    element is tried in order, and the first exception ends the call. *)
Fixpoint arrayFilter {A : Type} (p : A -> option bool) (l : list A)
  : option (list A) :=
  match l with
  | [] => Some []
  | x :: r =>
      match p x with
      | None => None
      | Some keep =>
          match arrayFilter p r with
          | None => None
          | Some kept => Some (if keep then x :: kept else kept)
          end
      end
  end.

(** [a + b]: concatenation as soon as one side is a string, the sum of
    the two numbers otherwise. *)
Definition add (a b : value) : value :=
  match a, b with
  | VStr _, _ | _, VStr _ => VStr (ToString a ++ ToString b)
  | _, _ => VNum (ToNumber a + ToNumber b)
  end.

(** ** More of the standard library *)

(** The digits of the integer [n] with a decimal point before the last
    [f] of them, padded with zeros to at least one digit before the
    point. *)
Definition fixedDigits (f n : Z) : list ascii :=
  let ds := decimalDigits n in
  if f <=? 0 then ds
  else
    let width := (Z.to_nat f + 1)%nat in
    let padded := (repeat "0"%char (width - length ds)%nat ++ ds)%list in
    let k := (length padded - Z.to_nat f)%nat in
    firstn k padded ++ "."%char :: skipn k padded.

(** [x.toFixed(f)] for [0 <= f]: the decimal with [f] fraction digits
    nearest to [x], the larger one on a tie; numbers that are not finite
    or are at least [10^21] in magnitude print as [String(x)]. *)
Definition toFixed (f : Z) (x : float) : string :=
  match Prim2SF x with
  | S754_finite neg m e =>
      let big :=
        if 0 <=? e then 10 ^ 21 <=? Zpos m * 2 ^ e
        else 10 ^ 21 * 2 ^ (- e) <=? Zpos m in
      if big then Number_toString x
      else
        let n :=
          if 0 <=? e then Zpos m * 2 ^ e * 10 ^ f
          else (2 * Zpos m * 10 ^ f + 2 ^ (- e)) / (2 * 2 ^ (- e)) in
        ofChars ((if neg then ["-"%char] else []) ++ fixedDigits f n)
  | S754_zero _ => ofChars (fixedDigits f 0)
  | _ => Number_toString x
  end.

(** The text of an array element inside [join]: nothing for [undefined]
    and [null]. *)
Definition joinText (v : value) : string :=
  match v with
  | VUndefined | VNull => ""
  | _ => ToString v
  end.

(** [l.join(sep)] *)
Fixpoint join (sep : string) (l : list value) : string :=
  match l with
  | [] => ""
  | [x] => joinText x
  | x :: r => joinText x ++ sep ++ join sep r
  end.

Definition isNegZero (x : float) : bool :=
  match Prim2SF x with
  | S754_zero true => true
  | _ => false
  end.

Definition isPosZero (x : float) : bool :=
  match Prim2SF x with
  | S754_zero false => true
  | _ => false
  end.

(** One step of [Math.max]: [+0] replaces [-0], a larger number replaces
    the highest so far. *)
Definition maxStep (highest x : float) : float :=
  if isPosZero x && isNegZero highest then x
  else if PrimFloat.ltb highest x then x
  else highest.

(** [Math.max(...xs)]: [NaN] as soon as one argument is [NaN],
    [-Infinity] for no argument. *)
Definition mathMax (xs : list float) : float :=
  if existsb isNaN xs then PrimFloat.nan
  else fold_left maxStep xs PrimFloat.neg_infinity.

(** What [Set.prototype.add] stores for [v]: [-0] is stored as [+0]. *)
Definition setEntry (v : value) : value :=
  match v with
  | VNum x => if isNegZero x then VNum 0 else v
  | _ => v
  end.

(** [[...new Set(l)]]: the values of [l] without repetition
    ([SameValueZero]), each at its first occurrence.  [seen] holds the
    values kept so far, latest first. *)
Fixpoint distinctFrom (seen : list value) (l : list value) : list value :=
  match l with
  | [] => []
  | v :: r =>
      if arrayIncludes seen v then distinctFrom seen r
      else setEntry v :: distinctFrom (setEntry v :: seen) r
  end.

Definition distinct (l : list value) : list value := distinctFrom [] l.

End JS.

(* ===================================================================== *)
(** * Dates                                                               *)
(* ===================================================================== *)

(** Time values are milliseconds since 1 January 1970 UTC; [None] is the
    time value [NaN] of an invalid [Date].  Calendar arithmetic is done on
    exact integers. *)
Module JSDate.

Definition msPerDay : Z := 86400000.

(** Day number of the civil date [y]-[m]-[d] (months 1 to 12) in the
    proleptic Gregorian calendar, day 0 being 1 January 1970. *)
Definition daysFromCivil (y m d : Z) : Z :=
  let y' := if m <=? 2 then y - 1 else y in
  let era := y' / 400 in
  let yoe := y' - era * 400 in
  let mp := if 2 <? m then m - 3 else m + 9 in
  let doy := (153 * mp + 2) / 5 + d - 1 in
  let doe := yoe * 365 + yoe / 4 - yoe / 100 + doy in
  era * 146097 + doe - 719468.

(** [MakeDay]: months outside 0..11 carry into the year and days outside
    the month carry into the neighbouring months. *)
Definition MakeDay (year month date : Z) : Z :=
  let ym := year + month / 12 in
  let mn := month mod 12 in
  daysFromCivil ym (mn + 1) 1 + date - 1.

Definition TimeClip (t : Z) : option Z :=
  if Z.abs t <=? 8640000000000000 then Some t else None.

Definition isLeap (y : Z) : bool :=
  ((y mod 4 =? 0) && negb (y mod 100 =? 0)) || (y mod 400 =? 0).

Definition daysInMonth (y m : Z) : Z :=
  if m =? 2 then (if isLeap y then 29 else 28)
  else if (m =? 4) || (m =? 6) || (m =? 9) || (m =? 11) then 30
  else 31.

Definition allDigits (s : string) : bool := forallb JS.isDigit (JS.chars s).

(** [new Date(s)] for the strings a date input holds: ["YYYY-MM-DD"] is
    midnight UTC of that day, anything else (the empty string of a cleared
    input in particular) is an invalid date. *)
Definition parse (s : string) : option Z :=
  match JS.split "-"%char s with
  | [ys; ms; ds] =>
      if allDigits ys && allDigits ms && allDigits ds
         && (String.length ys =? 4)%nat && (String.length ms =? 2)%nat
         && (String.length ds =? 2)%nat
      then
        let y := JS.digitsValue (JS.chars ys) in
        let m := JS.digitsValue (JS.chars ms) in
        let d := JS.digitsValue (JS.chars ds) in
        if (1 <=? m) && (m <=? 12) && (1 <=? d) && (d <=? daysInMonth y m)
        then TimeClip (daysFromCivil y m d * msPerDay)
        else None
      else None
  | _ => None
  end.

(** [d1 < d2] on dates: a comparison of time values, false when either
    date is invalid. *)
Definition before (d1 d2 : option Z) : bool :=
  match d1, d2 with
  | Some t1, Some t2 => t1 <? t2
  | _, _ => false
  end.

Section LocalTime.

(** The offset of local time from UTC, in milliseconds, in force at a
    given local time: the host's time zone. *)
Variable localTZA : Z -> Z.

Definition UTC (t : Z) : Z := t - localTZA t.

(** [new Date(year, month, day)]: local midnight of that day; a [NaN]
    field makes the date invalid, years 0 to 99 mean 1900 to 1999. *)
Definition fromFields (year month day : option Z) : option Z :=
  match year, month, day with
  | Some y, Some m, Some d =>
      let yr := if (0 <=? y) && (y <=? 99) then 1900 + y else y in
      TimeClip (UTC (MakeDay yr m d * msPerDay))
  | _, _, _ => None
  end.

(** The date the dashboard reads out of the three parts of an
    ["M/D/YYYY"] string:
    [new Date(parseInt(p[2]), parseInt(p[0]) - 1, parseInt(p[1]))]. *)
Definition fromParts (p0 p1 p2 : string) : option Z :=
  fromFields (JS.parseInt p2)
             (option_map (fun m => m - 1) (JS.parseInt p0))
             (JS.parseInt p1).

End LocalTime.

End JSDate.

(* ===================================================================== *)
(** * The dashboard pipeline ([src/DealAnalyticsDashboard.jsx])           *)
(* ===================================================================== *)

Module Dashboard.

Import JS.

(** The [filters] state.  A range is [None] when the property is absent
    (the code guards every use with [filters.revenueRange && ...]); an
    absent list behaves as the empty one.  The lists hold the option
    cells that were ticked, values of any type (the status and type
    lists too: the check boxes add the cell as it is).  The two flag
    filters are [true], [false] or [null]. *)
Record filters : Type := {
  revenueRange : option (float * float);
  ebitdaRange : option (float * float);
  pursuitsRange : option (float * float);
  verticals : list value;
  activities : list value;
  regions : list value;
  states : list value;
  dateRange : option (string * string);
  includeBrokers : bool;
  includeSmartshareEnabled : option bool;
  includeInboundInquiryEnabled : option bool;
  dealIntentStatuses : list value;
  dealIntentTypes : list value
}.

(** [sortConfig.direction]: ['asc'], or anything else. *)
Inductive sortDirection : Type := asc | desc.

Record sortConfig : Type := { key : string; direction : sortDirection }.

(** ** The predicates of the [filteredDeals] callback, in source order *)

(** [range && (v < range[0] || v > range[1])] *)
Definition outOfRange (v : value) (range : option (float * float)) : bool :=
  match range with
  | Some (lo, hi) => lt v (VNum lo) || gt v (VNum hi)
  | None => false
  end.

(** [list.length > 0 && !list.includes(v)] *)
Definition notListed (allowed : list value) (v : value) : bool :=
  match allowed with
  | [] => false
  | _ => negb (arrayIncludes allowed v)
  end.

Definition brokerExcluded (f : filters) (deal : record) : bool :=
  let owner := get deal "Account Owner" in
  negb (includeBrokers f)
  && truthy owner
  && String.eqb (toLowerCase (ToString owner)) "broker".

(** The coercion applied to ['SmartShare Enabled?'] and to
    ['Inbound Inquiry Enabled?']. *)
Definition flagEnabled (v : value) : bool :=
  strictEq v (VNum 1)
  || strictEq v (VStr "1")
  || strictEq v (VBool true)
  || match v with
     | VStr s => String.eqb (toUpperCase s) "TRUE"
     | _ => false
     end.

(** [flag !== null && enabled !== flag] *)
Definition flagMismatch (flag : option bool) (enabled : bool) : bool :=
  match flag with
  | Some b => negb (Bool.eqb enabled b)
  | None => false
  end.

Definition flagsExcluded (f : filters) (deal : record) : bool :=
  let smartshareEnabled := flagEnabled (get deal "SmartShare Enabled?") in
  let inboundEnabled := flagEnabled (get deal "Inbound Inquiry Enabled?") in
  match includeSmartshareEnabled f, includeInboundInquiryEnabled f with
  | Some true, Some true => negb smartshareEnabled && negb inboundEnabled
  | ss, ib => flagMismatch ss smartshareEnabled || flagMismatch ib inboundEnabled
  end.

Definition statusField (deal : record) : value :=
  orElse (orElse (get deal "Deal Intent Status") (get deal "Deal Intent"))
         (VStr "").

(** [statusField.toString().toLowerCase() === s.toLowerCase()] for one
    listed value [s]; [None] is the [TypeError] of [s.toLowerCase()] on a
    listed value that is not a string. *)
Definition statusMatches (deal : record) (s : value) : option bool :=
  option_map (String.eqb (toLowerCase (ToString (statusField deal))))
             (callToLowerCase s).

(** The deal-intent-status test: [Some true] excludes the record, [None]
    is a [TypeError] raised inside the callback of [some] (nothing
    catches it). *)
Definition statusExcluded (f : filters) (deal : record) : option bool :=
  match dealIntentStatuses f with
  | [] => Some false
  | statuses => option_map negb (arraySome (statusMatches deal) statuses)
  end.

(** [typeField.toString().toLowerCase().includes(t.toLowerCase())] for one
    listed value [t]. *)
Definition typeMatches (deal : record) (t : value) : option bool :=
  let typeField := orElse (get deal "Deal Intent") (VStr "") in
  option_map (includes (toLowerCase (ToString typeField)))
             (callToLowerCase t).

Definition typeExcluded (f : filters) (deal : record) : option bool :=
  match dealIntentTypes f with
  | [] => Some false
  | types => option_map negb (arraySome (typeMatches deal) types)
  end.

Section LocalTime.

Variable localTZA : Z -> Z.

(** The date filter.  A truthy date that is not a string has no [split]
    method: the [TypeError] is caught and logged, and the record is kept. *)
Definition dateExcluded (f : filters) (deal : record) : bool :=
  let dateStr :=
    orElse (get deal "Market Date") (get deal "Market Date (Date)") in
  match dateRange f with
  | Some (start, stop) =>
      if truthy dateStr then
        match dateStr with
        | VStr s =>
            match split "/"%char s with
            | [p0; p1; p2] =>
                match JSDate.fromParts localTZA p0 p1 p2 with
                | Some t =>
                    let dealDate := Some t in
                    let startDate := JSDate.parse start in
                    let endDate := JSDate.parse stop in
                    JSDate.before dealDate startDate
                    || JSDate.before endDate dealDate
                | None => false
                end
            | _ => false
            end
        | _ => false
        end
      else false
  | None => false
  end.

(** The callback of [deals.filter]: [Some true] keeps the record,
    [Some false] drops it, and [None] is the [TypeError] of the status or
    the type test, reached only by a record that none of the earlier
    tests has dropped. *)
Definition dealPasses (f : filters) (deal : record) : option bool :=
  if outOfRange (get deal "Revenue") (revenueRange f) then Some false
  else if outOfRange (get deal "EBITDA") (ebitdaRange f) then Some false
  else if outOfRange (get deal "Total Pursuits") (pursuitsRange f)
  then Some false
  else if notListed (verticals f) (get deal "Primary Supply Vertical")
  then Some false
  else if notListed (activities f) (get deal "Primary Supply Activity")
  then Some false
  else if notListed (regions f) (get deal "Region") then Some false
  else if notListed (states f) (get deal "State/Province") then Some false
  else if brokerExcluded f deal then Some false
  else if flagsExcluded f deal then Some false
  else
    match statusExcluded f deal with
    | None => None
    | Some true => Some false
    | Some false =>
        match typeExcluded f deal with
        | None => None
        | Some true => Some false
        | Some false =>
            if dateExcluded f deal then Some false else Some true
        end
    end.

(** [deals.filter(callback)]; [None] when the callback raises on some
    record, which ends the computation of the memoised list. *)
Definition filteredDeals (f : filters) (deals : list record)
  : option (list record) :=
  arrayFilter (dealPasses f) deals.

(** ** Sorting *)

Definition directed (d : sortDirection) (x y : float) : float :=
  match d with
  | asc => (x - y)%float
  | desc => (y - x)%float
  end.

(** The date branch of the comparator: [Some] of the returned number when
    it returns, [None] when control falls through to the numeric branch. *)
Definition compareAsDates (cfg : sortConfig) (valA valB : value)
  : option float :=
  if includes (toLowerCase (key cfg)) "date" && truthy valA && truthy valB
  then
    match split "/"%char (ToString valA), split "/"%char (ToString valB) with
    | [a0; a1; a2], [b0; b1; b2] =>
        match JSDate.fromParts localTZA a0 a1 a2,
              JSDate.fromParts localTZA b0 b1 b2 with
        | Some dateA, Some dateB =>
            Some (directed (direction cfg) (Z2F dateA) (Z2F dateB))
        | _, _ => None
        end
    | _, _ => None
    end
  else None.

(** The comparator passed to [sorted.sort]. *)
Definition compareDeals (cfg : sortConfig) (a b : record) : float :=
  if String.eqb (key cfg) "" then 0%float
  else
    let valA := get a (key cfg) in
    let valB := get b (key cfg) in
    match compareAsDates cfg valA valB with
    | Some r => r
    | None =>
        let numA := parseFloat (stripNonNumeric (ToString valA)) in
        let numB := parseFloat (stripNonNumeric (ToString valB)) in
        if negb (isNaN numA) && negb (isNaN numB)
        then directed (direction cfg) numA numB
        else if lt valA valB
        then match direction cfg with asc => (-1)%float | desc => 1%float end
        else if gt valA valB
        then match direction cfg with asc => 1%float | desc => (-1)%float end
        else 0%float
    end.

End LocalTime.

(** [Array.prototype.sort] with a comparator.  The sort is stable and uses
    only the sign of the comparator (a [NaN] result counts as 0).  For a
    comparator that is a consistent ordering every stable sort returns the
    same array, which this insertion sort computes; for other comparators
    the order is left to the host. *)
Section ArraySort.

Context {A : Type}.
Variable comparefn : A -> A -> float.

Fixpoint insertSorted (x : A) (l : list A) : list A :=
  match l with
  | [] => [x]
  | y :: r =>
      if PrimFloat.ltb 0 (comparefn x y) then y :: insertSorted x r
      else x :: y :: r
  end.

Definition arraySort (l : list A) : list A := fold_right insertSorted [] l.

End ArraySort.

Definition sortedDeals (localTZA : Z -> Z) (cfg : sortConfig)
    (filtered : list record) : list record :=
  arraySort (compareDeals localTZA cfg) filtered.

(** ** Summary statistics *)

Record summary : Type := {
  totalDeals : nat;
  totalRevenue : JS.value;
  avgRevenue : float;
  totalEBITDA : JS.value;
  avgEBITDA : float
}.

(** [filteredDeals.reduce((sum, deal) => sum + (deal[field] || 0), 0)] *)
Definition total (field : string) (filtered : list record) : JS.value :=
  fold_left (fun sum deal => add sum (orElse (get deal field) (VNum 0)))
            filtered (VNum 0).

(** [reduce(...) / filteredDeals.length] *)
Definition average (field : string) (filtered : list record) : float :=
  (ToNumber (total field filtered) / Z2F (Z.of_nat (length filtered)))%float.

(** [None] is the [null] the code returns for an empty list. *)
Definition summaryStats (filtered : list record) : option summary :=
  match filtered with
  | [] => None
  | _ =>
      Some {| totalDeals := length filtered;
              totalRevenue := total "Revenue" filtered;
              avgRevenue := average "Revenue" filtered;
              totalEBITDA := total "EBITDA" filtered;
              avgEBITDA := average "EBITDA" filtered |}
  end.

(** ** Chart data *)

(** What a property of the [counts] object holds: a count, or the text
    that results from adding 1 to a member inherited from
    [Object.prototype] (text that reads as [NaN]). *)
Inductive tally : Type :=
| Tally (n : nat)
| Junk.

(** The [counts] object: own properties in creation order.  Counts are
    natural numbers (the code holds them as numbers, exact far beyond any
    list length). *)
Abbreviation counts := (list (string * tally)).

Definition objectPrototypeKeys : list string :=
  ["constructor"; "hasOwnProperty"; "isPrototypeOf"; "propertyIsEnumerable";
   "toLocaleString"; "toString"; "valueOf"; "__defineGetter__";
   "__defineSetter__"; "__lookupGetter__"; "__lookupSetter__"; "__proto__"].

Definition inherited (k : string) : bool :=
  existsb (String.eqb k) objectPrototypeKeys.

Fixpoint lookupOwn (k : string) (c : counts) : option tally :=
  match c with
  | [] => None
  | (k', t) :: r => if String.eqb k k' then Some t else lookupOwn k r
  end.

Fixpoint setOwn (k : string) (t : tally) (c : counts) : counts :=
  match c with
  | [] => [(k, t)]
  | (k', t') :: r =>
      if String.eqb k k' then (k, t) :: r else (k', t') :: setOwn k t r
  end.

(** [(counts[k] || 0) + 1] *)
Definition nextTally (c : counts) (k : string) : tally :=
  match lookupOwn k c with
  | Some (Tally n) => Tally (S n)
  | Some Junk => Junk
  | None => if inherited k then Junk else Tally 1
  end.

(** [counts[k] = (counts[k] || 0) + 1]; writing a string to [__proto__]
    does nothing. *)
Definition bump (c : counts) (k : string) : counts :=
  if String.eqb k "__proto__" then c else setOwn k (nextTally c k) c.

Definition countBy (field : string) (filtered : list record) : counts :=
  fold_left
    (fun c deal =>
       let v := get deal field in
       if truthy v then bump c (ToString v) else c)
    filtered [].

(** The integer a property key denotes when it is an array index
    (canonical decimal below [2^32 - 1]). *)
Definition arrayIndex (k : string) : option Z :=
  let cs := chars k in
  match cs with
  | [] => None
  | c :: r =>
      if forallb isDigit cs
         && (negb (code c =? 48) || match r with [] => true | _ => false end)
         && (digitsValue cs <=? 4294967294)
      then Some (digitsValue cs) else None
  end.

Definition indexOf (e : string * tally) : Z :=
  match arrayIndex (fst e) with
  | Some i => i
  | None => 0
  end.

Definition isIndexEntry (e : string * tally) : bool :=
  match arrayIndex (fst e) with
  | Some _ => true
  | None => false
  end.

(** [Object.entries(counts)]: array-index keys in ascending order, then
    the other keys in creation order. *)
Definition entries (c : counts) : counts :=
  arraySort (fun a b => (Z2F (indexOf a) - Z2F (indexOf b))%float)
            (List.filter isIndexEntry c)
  ++ List.filter (fun e => negb (isIndexEntry e)) c.

Record chartItem : Type := {
  name : string;
  value : tally;
  percentage : float
}.

Definition tallyNumber (t : tally) : float :=
  match t with
  | Tally n => Z2F (Z.of_nat n)
  | Junk => PrimFloat.nan
  end.

(** [(value / filteredDeals.length) * 100] *)
Definition percentOf (t : tally) (len : nat) : float :=
  (tallyNumber t / Z2F (Z.of_nat len) * 100)%float.

Definition chartData (field : string) (filtered : list record)
  : list chartItem :=
  match filtered with
  | [] => []
  | _ =>
      arraySort
        (fun a b => (tallyNumber (value b) - tallyNumber (value a))%float)
        (map (fun e => {| name := fst e;
                          value := snd e;
                          percentage := percentOf (snd e) (length filtered) |})
             (entries (countBy field filtered)))
  end.

Definition verticalChartData : list record -> list chartItem :=
  chartData "Primary Supply Vertical".

Definition activityChartData : list record -> list chartItem :=
  chartData "Primary Supply Activity".

(** ** Filter options and range bounds computed when data arrives
       ([fetchData]) *)

(** [[...new Set(dealsData.map(cellOf))].filter(Boolean)] *)
Definition optionsOf (cellOf : record -> JS.value) (dealsData : list record)
  : list JS.value :=
  List.filter truthy (distinct (map cellOf dealsData)).

(** The options for the vertical, activity, region, state and deal-intent
    lists: the distinct non-empty cells of one column. *)
Definition fieldOptions (field : string) (dealsData : list record)
  : list JS.value :=
  optionsOf (fun d => get d field) dealsData.


(** [Math.max(...dealsData.map(d => d[field] || 0))], the upper bound the
    revenue, EBITDA and pursuits ranges are given on every load. *)
Definition maxField (field : string) (dealsData : list record) : float :=
  mathMax (map (fun d => ToNumber (orElse (get d field) (VNum 0))) dealsData).

(** ** Column sort *)

Definition handleSort (cfg : sortConfig) (k : string) : sortConfig :=
  {| key := k;
     direction :=
       if String.eqb (key cfg) k
          && match direction cfg with asc => true | desc => false end
       then desc else asc |}.

(** ** Selection *)

(** [deal["Sellside Project: ID"] || deal["ID"] || deal["Deal ID"]] *)
Definition dealId (deal : record) : JS.value :=
  orElse (orElse (get deal "Sellside Project: ID") (get deal "ID"))
         (get deal "Deal ID").

(** [prev.some(d => dealId(d) === dealId)] *)
Definition isSelected (prev : list record) (deal : record) : bool :=
  existsb (fun d => strictEq (dealId d) (dealId deal)) prev.

Definition toggleDealSelection (prev : list record) (deal : record)
  : list record :=
  if isSelected prev deal
  then List.filter (fun d => negb (strictEq (dealId d) (dealId deal))) prev
  else prev ++ [deal].

(** What changes the selection: the check box of a row, and the buttons
    that empty it ([resetFilters], "Clear Selection"). *)
Inductive selectionEvent : Type :=
| Toggled (deal : record)
| Cleared.

Definition selectionStep (selected : list record) (e : selectionEvent)
  : list record :=
  match e with
  | Toggled deal => toggleDealSelection selected deal
  | Cleared => []
  end.

(** The selection after a run of events, from the initial empty one. *)
Definition selectionAfter (events : list selectionEvent) : list record :=
  fold_left selectionStep events [].

(** The key of a table row, [dealId || index], and whether the row is
    drawn as selected. *)
Definition rowId (deal : record) (index : nat) : JS.value :=
  orElse (dealId deal) (VNum (Z2F (Z.of_nat index))).

Definition rowIsSelected (selectedDeals : list record) (deal : record)
    (index : nat) : bool :=
  existsb (fun d => strictEq (dealId d) (rowId deal index)) selectedDeals.

(** ** Check-box lists of the filter panel *)

(** [checked ? [...list, x] : list.filter(v => v !== x)] *)
Definition toggleListed (checked : bool) (l : list JS.value) (x : JS.value)
  : list JS.value :=
  if checked then l ++ [x]
  else List.filter (fun v => negb (strictEq v x)) l.

(** ** Table cells *)

(** What a cell of the deals table shows: a link (its address and the
    value it displays) or text, dimmed when the cell is falsy. *)
Inductive cellView : Type :=
| LinkView (href : string) (shown : JS.value)
| TextView (text : string) (dimmed : bool).

(** [`$${(v / 1000000).toFixed(1)}M`] *)
Definition inMillions (v : JS.value) : string :=
  "$" ++ toFixed 1 (ToNumber v / 1000000)%float ++ "M".

(** The body of the inner [columns.map] of the table.  [None] is the
    [TypeError] raised by [deal[col].toString()] on [null]. *)
Definition renderCell (col : string) (deal : record) : option cellView :=
  let v := get deal col in
  if String.eqb col "Sellside Project: ID" && truthy v then
    Some (LinkView
            ("https://axialinc.lightning.force.com/lightning/r/Sellside_Project__c/"
             ++ ToString v ++ "/view")
            v)
  else if String.eqb col "Revenue" && truthy v then
    Some (TextView (inMillions v) false)
  else if String.eqb col "EBITDA" && truthy v then
    Some (TextView (inMillions v) false)
  else if String.eqb col "EBITDA Margin" && truthy v then
    Some (TextView (toFixed 1 (ToNumber v * 100)%float ++ "%") false)
  else
    match v with
    | VUndefined => Some (TextView "-" true)
    | VNull => None
    | _ => Some (TextView (ToString v) (negb (truthy v)))
    end.

(** ** Copying the selection ([copyFormattedDeals]) *)

Definition tab : string := String (ascii_of_nat 9) "".
Definition newline : string := String (ascii_of_nat 10) "".

Definition dealName (deal : record) : JS.value :=
  orElse (orElse (get deal "Sellside Project: Axial Opportunity")
                 (get deal "Deal Name"))
         (get deal "Opportunity").

(** [v ? (v / 1000000).toFixed(1) : 'N/A'] *)
Definition millionsOrNA (v : JS.value) : string :=
  if truthy v then toFixed 1 (ToNumber v / 1000000)%float else "N/A".

Definition tsvHeaders : list JS.value :=
  [VStr "Deal"; VStr "Revenue ($M)"; VStr "EBITDA ($M)"; VStr "ID"].

Definition tsvCells (deal : record) : list JS.value :=
  [dealName deal;
   VStr (millionsOrNA (get deal "Revenue"));
   VStr (millionsOrNA (get deal "EBITDA"));
   dealId deal].

(** The text handed to the clipboard; [None] when the selection is empty
    and the function returns without copying. *)
Definition tsvContent (selectedDeals : list record) : option string :=
  match selectedDeals with
  | [] => None
  | _ =>
      Some (join newline
              (VStr (join tab tsvHeaders)
               :: map (fun deal => VStr (join tab (tsvCells deal)))
                      selectedDeals))
  end.

End Dashboard.

(* ===================================================================== *)
(** * The simplified dashboard variant                                    *)
(* ===================================================================== *)

Module SimplifiedDashboard.

Import JS.

Record filters : Type := {
  verticals : list value;
  ebitdaRange : float * float;
  includeSmartshareEnabled : option bool
}.

(** [val === 1 || val === "1" || val === true] *)
Definition smartshareEnabled (val : value) : bool :=
  strictEq val (VNum 1) || strictEq val (VStr "1") || strictEq val (VBool true).

Definition dealPasses (f : filters) (d : record) : bool :=
  if match verticals f with
     | [] => false
     | _ => negb (arrayIncludes (verticals f) (get d "Primary Supply Vertical"))
     end
  then false
  else if lt (get d "EBITDA") (VNum (fst (ebitdaRange f)))
          || gt (get d "EBITDA") (VNum (snd (ebitdaRange f)))
  then false
  else
    match includeSmartshareEnabled f with
    | Some wanted =>
        let enabled := smartshareEnabled (get d "SmartShare Enabled?") in
        if negb (Bool.eqb wanted enabled) then false else true
    | None => true
    end.

Definition filteredDeals (f : filters) (deals : list record) : list record :=
  List.filter (dealPasses f) deals.

(** [Object.entries(counts).map(...)]: the groups in the order of the
    [counts] object, unsorted. *)
Definition verticalChartData (filtered : list record)
  : list Dashboard.chartItem :=
  map (fun e => {| Dashboard.name := fst e;
                   Dashboard.value := snd e;
                   Dashboard.percentage :=
                     Dashboard.percentOf (snd e) (length filtered) |})
      (Dashboard.entries
         (Dashboard.countBy "Primary Supply Vertical" filtered)).

Record summary : Type := {
  totalDeals : nat;
  avgEBITDA : float
}.

Definition summaryStats (filtered : list record) : option summary :=
  match filtered with
  | [] => None
  | _ =>
      Some {| totalDeals := length filtered;
              avgEBITDA :=
                (ToNumber
                   (fold_left
                      (fun sum d => add sum (orElse (get d "EBITDA") (VNum 0)))
                      filtered (VNum 0))
                 / Z2F (Z.of_nat (length filtered)))%float |}
  end.

(** The three query parameters the variant keeps in the address bar, as
    [URLSearchParams.get] returns them ([None] is [null]). *)
Record params : Type := {
  vertical : option string;
  minEBITDA : option string;
  smartshare : option string
}.

(** The effect that writes the filters into the query string. *)
Definition writeParams (f : filters) : params :=
  {| vertical :=
       match verticals f with
       | v :: _ => Some (ToString v)
       | [] => None
       end;
     minEBITDA :=
       if PrimFloat.ltb 0 (fst (ebitdaRange f))
       then Some (Number_toString (fst (ebitdaRange f))) else None;
     smartshare :=
       match includeSmartshareEnabled f with
       | Some b => Some (if b then "true" else "false")
       | None => None
       end |}.

Definition present (p : option string) : bool :=
  match p with
  | Some s => negb (String.eqb s "")
  | None => false
  end.

(** The effect that reads the query string on start-up, applied to the
    filters in force. *)
Definition readParams (prev : filters) (p : params) : filters :=
  if present (vertical p) || present (minEBITDA p) || present (smartshare p)
  then
    {| verticals :=
         match vertical p with
         | Some s => if present (vertical p) then [VStr s] else []
         | None => []
         end;
       ebitdaRange :=
         match minEBITDA p with
         | Some s =>
             if present (minEBITDA p)
             then (match parseInt s with
                   | Some z => Z2F z
                   | None => PrimFloat.nan
                   end, 40000000%float)
             else ebitdaRange prev
         | None => ebitdaRange prev
         end;
       includeSmartshareEnabled :=
         match smartshare p with
         | Some s =>
             if String.eqb s "true" then Some true
             else if String.eqb s "false" then Some false
             else None
         | None => None
         end |}
  else prev.

(** The initial filter state of the variant. *)
Definition initialFilters : filters :=
  {| verticals := []; ebitdaRange := (0, 40000000)%float;
     includeSmartshareEnabled := None |}.

(** The filters of the full dashboard that restrict what the variant's
    filters restrict, and nothing else. *)
Definition asFullFilters (f : filters) : Dashboard.filters :=
  {| Dashboard.revenueRange := None;
     Dashboard.ebitdaRange := Some (ebitdaRange f);
     Dashboard.pursuitsRange := None;
     Dashboard.verticals := verticals f;
     Dashboard.activities := [];
     Dashboard.regions := [];
     Dashboard.states := [];
     Dashboard.dateRange := None;
     Dashboard.includeBrokers := true;
     Dashboard.includeSmartshareEnabled := includeSmartshareEnabled f;
     Dashboard.includeInboundInquiryEnabled := None;
     Dashboard.dealIntentStatuses := [];
     Dashboard.dealIntentTypes := [] |}.

End SimplifiedDashboard.

(* ===================================================================== *)
(** * Sample data                                                         *)
(* ===================================================================== *)

Module Fixtures.

Import JS.

(** A host whose local time is UTC. *)
Definition utc : Z -> Z := fun _ => 0.

Definition row (cells : list (string * value)) : record := list_to_map cells.

(** Filters that restrict only what is given: a revenue range, a date
    range, the broker switch, the two flag filters and the status set. *)
Definition filtersWith (revenue : option (float * float))
    (dates : option (string * string)) (brokers : bool)
    (smartshare inbound : option bool) (statuses : list value)
  : Dashboard.filters :=
  {| Dashboard.revenueRange := revenue;
     Dashboard.ebitdaRange := None;
     Dashboard.pursuitsRange := None;
     Dashboard.verticals := [];
     Dashboard.activities := [];
     Dashboard.regions := [];
     Dashboard.states := [];
     Dashboard.dateRange := dates;
     Dashboard.includeBrokers := brokers;
     Dashboard.includeSmartshareEnabled := smartshare;
     Dashboard.includeInboundInquiryEnabled := inbound;
     Dashboard.dealIntentStatuses := statuses;
     Dashboard.dealIntentTypes := [] |}.

(** Filters that restrict nothing. *)
Definition noFilters : Dashboard.filters :=
  filtersWith None None true None None [].

Definition withRevenueRange (lo hi : float) : Dashboard.filters :=
  filtersWith (Some (lo, hi)) None true None None [].

Definition withFlags (smartshare inbound : option bool) : Dashboard.filters :=
  filtersWith None None true smartshare inbound [].

Definition withDateRange (start stop : string) : Dashboard.filters :=
  filtersWith None (Some (start, stop)) true None None [].

Definition withBrokers (include : bool) : Dashboard.filters :=
  filtersWith None None include None None [].


(** A row of a sheet that has no revenue column. *)
Definition dealWithoutRevenue : record :=
  row [("Deal Name", VStr "Acme"); ("EBITDA", VNum 3000000)].

(** A row whose revenue cell holds text. *)
Definition dealWithTextRevenue : record :=
  row [("Deal Name", VStr "Bolt"); ("Revenue", VStr "N/A")].

(** A row whose revenue cell is empty. *)
Definition dealWithEmptyRevenue : record :=
  row [("Deal Name", VStr "Core"); ("Revenue", VNull)].

(** The records of scenarios B and C of the specification. *)
Definition dealB : record :=
  row [("SmartShare Enabled?", VStr "TRUE");
       ("Inbound Inquiry Enabled?", VNum 0)].

Definition dealC : record :=
  row [("SmartShare Enabled?", VBool false);
       ("Inbound Inquiry Enabled?", VBool false)].

(** The records of scenario D of the specification. *)
Definition dealJan5 : record := row [("Market Date", VStr "1/5/2024")].

Definition dealMonth13 : record := row [("Market Date", VStr "13/40/2024")].

Definition dealNoMonth : record := row [("Market Date", VStr "Q1/5/2024")].

(** Three deals with distinct revenues, and two that tie on revenue. *)
Definition dealLarge : record :=
  row [("Deal Name", VStr "Large"); ("Revenue", VNum 3000000)].

Definition dealSmall : record :=
  row [("Deal Name", VStr "Small"); ("Revenue", VNum 1000000)].

Definition dealMedium : record :=
  row [("Deal Name", VStr "Medium"); ("Revenue", VStr "$2,000,000")].

Definition dealTwin1 : record :=
  row [("Deal Name", VStr "Twin 1"); ("Revenue", VNum 5000000)].

Definition dealTwin2 : record :=
  row [("Deal Name", VStr "Twin 2"); ("Revenue", VNum 5000000)].

Definition byRevenue (d : Dashboard.sortDirection) : Dashboard.sortConfig :=
  {| Dashboard.key := "Revenue"; Dashboard.direction := d |}.

Definition names (deals : list record) : list value :=
  map (fun d => get d "Deal Name") deals.

(** Three rows whose market dates the comparator orders in a cycle: the
    first two compare as dates, each compares with the third as a
    number. *)
Definition dealEarly : record :=
  row [("Deal Name", VStr "Early"); ("Market Date", VStr "1/2/2024")].

Definition dealLate : record :=
  row [("Deal Name", VStr "Late"); ("Market Date", VStr "1/1/2025")].

Definition dealSerial : record :=
  row [("Deal Name", VStr "Serial"); ("Market Date", VNum 115000)].

Definition byMarketDate : Dashboard.sortConfig :=
  {| Dashboard.key := "Market Date"; Dashboard.direction := Dashboard.asc |}.

(** A row whose vertical is the name of a member of [Object.prototype]. *)
Definition dealConstructor : record :=
  row [("Deal Name", VStr "Lynx");
       ("Primary Supply Vertical", VStr "constructor")].

Definition dealRetail : record :=
  row [("Deal Name", VStr "Hill"); ("Primary Supply Vertical", VStr "Retail");
       ("Revenue", VNum 2500000)].

Definition dealIndustrial : record :=
  row [("Deal Name", VStr "Iris");
       ("Primary Supply Vertical", VStr "Industrial");
       ("Revenue", VNum 500000); ("EBITDA", VNum 100000)].

(** A deal whose vertical cell is empty. *)
Definition dealNoVertical : record :=
  row [("Deal Name", VStr "Jade"); ("Primary Supply Vertical", VNull);
       ("EBITDA", VNum 250000)].

(** A row whose SmartShare cell holds the text ["True"]. *)
Definition dealTrueText : record :=
  row [("Deal Name", VStr "Kite"); ("EBITDA", VNum 3000000);
       ("SmartShare Enabled?", VStr "True")].

Definition dealNoOwner : record :=
  row [("Deal Name", VStr "Dune"); ("Account Owner", VNull)].

Definition dealBroker : record :=
  row [("Deal Name", VStr "Echo"); ("Account Owner", VStr "Broker")].

Definition dealNoIntent : record := row [("Deal Name", VStr "Fern")].


(** A deal dated on the last day of the range 1 to 10 January 2024. *)
Definition dealJan10 : record := row [("Market Date", VStr "1/10/2024")].

(** A host five hours behind UTC, and one two hours ahead, all year. *)
Definition fiveHoursBehind : Z -> Z := fun _ => -18000000.
Definition twoHoursAhead : Z -> Z := fun _ => 7200000.

(** Rows with an identifier, and one without any. *)
Definition dealWithId (id : string) (name : string) : record :=
  row [("Sellside Project: ID", VStr id); ("Deal Name", VStr name)].

Definition dealNoId : record := row [("Deal Name", VStr "Nameless")].

(** A state of the simplified variant's filters, and rows it is applied
    to. *)
Definition retailOnly : SimplifiedDashboard.filters :=
  {| SimplifiedDashboard.verticals := [VStr "Retail"];
     SimplifiedDashboard.ebitdaRange := (2000000, 40000000)%float;
     SimplifiedDashboard.includeSmartshareEnabled := Some true |}.

Definition dealRetailShared : record :=
  row [("Deal Name", VStr "Pine"); ("Primary Supply Vertical", VStr "Retail");
       ("EBITDA", VNum 3000000); ("SmartShare Enabled?", VNum 1)].

Definition dealRetailUnshared : record :=
  row [("Deal Name", VStr "Yew"); ("Primary Supply Vertical", VStr "Retail");
       ("EBITDA", VNum 5000000); ("SmartShare Enabled?", VNum 0)].

(** A row with an identifier, a name and both amounts. *)
Definition dealComplete : record :=
  row [("Sellside Project: ID", VStr "a0X7"); ("Deal Name", VStr "Ash");
       ("Revenue", VNum 12500000); ("EBITDA", VNum 3000000)].





(** The type filter with options ticked as they are offered. *)
Definition withTypeOptions (ticked : list value) : Dashboard.filters :=
  {| Dashboard.revenueRange := None;
     Dashboard.ebitdaRange := None;
     Dashboard.pursuitsRange := None;
     Dashboard.verticals := [];
     Dashboard.activities := [];
     Dashboard.regions := [];
     Dashboard.states := [];
     Dashboard.dateRange := None;
     Dashboard.includeBrokers := true;
     Dashboard.includeSmartshareEnabled := None;
     Dashboard.includeInboundInquiryEnabled := None;
     Dashboard.dealIntentStatuses := [];
     Dashboard.dealIntentTypes := ticked |}.

(** Rows with a deal intent. *)
Definition dealSellSide : record :=
  row [("Deal Name", VStr "Ivy"); ("Deal Intent", VStr "Sell-side")].

Definition dealCapitalRaise : record :=
  row [("Deal Name", VStr "Juniper"); ("Deal Intent", VStr "Capital Raise")].

End Fixtures.

(* ===================================================================== *)
(** * Vocabulary of the properties                                        *)
(* ===================================================================== *)

Module Properties.

Import JS.

(** Text that is ["TRUE"] up to case. *)
Definition isTrueText (v : JS.value) : bool :=
  match v with
  | VStr s => String.eqb (toUpperCase s) "TRUE"
  | _ => false
  end.


(** The three integers read out of an ["M/D/YYYY"] string, as
    (year, month, day): [None] unless the string has exactly three
    slash-separated parts and [parseInt] reads an integer at the start of
    each. *)
Definition readableDate (s : string) : option (Z * Z * Z) :=
  match split "/"%char s with
  | [p0; p1; p2] =>
      match parseInt p2, parseInt p0, parseInt p1 with
      | Some y, Some m, Some d => Some (y, m, d)
      | _, _, _ => None
      end
  | _ => None
  end.

(** A time value lies outside the inclusive range of two dates; an
    invalid bound restricts nothing. *)
Definition outsideDates (t : Z) (start stop : option Z) : bool :=
  JSDate.before (Some t) start || JSDate.before stop (Some t).

(** [a] is moved behind [b] by the sort: the comparator is positive. *)
Definition sortsAfterBy {A : Type} (comparefn : A -> A -> float) (a b : A)
  : bool :=
  PrimFloat.ltb 0 (comparefn a b).

Definition sortsAfter (localTZA : Z -> Z) (cfg : Dashboard.sortConfig)
    (a b : record) : bool :=
  sortsAfterBy (Dashboard.compareDeals localTZA cfg) a b.

(** No two entries of the list tie: of any two, one sorts after the
    other. *)
Fixpoint noTies {A : Type} (after : A -> A -> bool) (l : list A) : bool :=
  match l with
  | [] => true
  | x :: r => forallb (fun y => after x y || after y x) r && noTies after r
  end.

(** The ordering is transitive on the entries of the list. *)
Definition transitiveOn {A : Type} (after : A -> A -> bool) (l : list A)
  : bool :=
  forallb (fun x =>
    forallb (fun y =>
      forallb (fun z => implb (after x y && after y z) (after x z)) l) l) l.

(** A record in which a missing (falsy) cell is replaced by the number
    0. *)
Definition zeroFilled (field : string) (deal : record) : record :=
  if truthy (get deal field) then deal else <[field := VNum 0]> deal.





(** No value to group by is the name of a member of
    [Object.prototype]. *)
Definition plainKeys (field : string) (deals : list record) : bool :=
  forallb (fun d => negb (truthy (get d field))
                    || negb (Dashboard.inherited (ToString (get d field))))
          deals.








(** Whenever [a] sorts after [c], any [b] of the list sorts before [a] or
    after [c]: ties are transitive on the list. *)
Definition comparableOn {A : Type} (after : A -> A -> bool) (l : list A)
  : bool :=
  forallb (fun a =>
    forallb (fun b =>
      forallb (fun c => implb (after a c) (after a b || after b c)) l) l) l.

(** No two records of the list have the same identifier. *)
Definition distinctIds (l : list record) : Prop :=
  ForallOrdPairs
    (fun a b => strictEq (Dashboard.dealId a) (Dashboard.dealId b) = false) l.

(** The other direction. *)
Definition flipped (d : Dashboard.sortDirection) : Dashboard.sortDirection :=
  match d with
  | Dashboard.asc => Dashboard.desc
  | Dashboard.desc => Dashboard.asc
  end.

(** How many records of the list have a non-empty cell that reads as
    [k]. *)
Definition occurrences (field k : string) (deals : list record) : nat :=
  length (List.filter
            (fun d => truthy (get d field)
                      && String.eqb (ToString (get d field)) k)
            deals).

(** What the two variants' summaries have in common. *)
Definition countAndAvgEBITDA (s : Dashboard.summary) : nat * float :=
  (Dashboard.totalDeals s, Dashboard.avgEBITDA s).

Definition countAndAvgEBITDA' (s : SimplifiedDashboard.summary)
  : nat * float :=
  (SimplifiedDashboard.totalDeals s, SimplifiedDashboard.avgEBITDA s).

(** No cell of a row of the copied table holds a tab or a line break. *)
Definition plainCells (cells : list JS.value) : bool :=
  forallb (fun v => negb (existsb (fun c => Ascii.eqb c (ascii_of_nat 9)
                                            || Ascii.eqb c (ascii_of_nat 10))
                                  (chars (joinText v))))
          cells.

(** [a] stands before an occurrence of [b] in the list. *)
Fixpoint appearsBefore {A : Type} (a b : A) (l : list A) : Prop :=
  match l with
  | [] => False
  | y :: r => (y = a /\ In b r) \/ appearsBefore a b r
  end.

(** The value is text. *)
Definition isText (v : JS.value) : bool :=
  match v with
  | VStr _ => true
  | _ => false
  end.

(** The callback of the filter returns [true] for the record. *)
Definition keeps (localTZA : Z -> Z) (f : Dashboard.filters)
    (deal : record) : bool :=
  match Dashboard.dealPasses localTZA f deal with
  | Some true => true
  | _ => false
  end.

(** Midnight UTC at the start of a civil date, as a time value. *)
Definition utcMidnight (y m d : Z) : Z :=
  JSDate.daysFromCivil y m d * JSDate.msPerDay.

End Properties.

(* ===================================================================== *)
(** * Facts about numbers                                                 *)
(* ===================================================================== *)

Module NumberFacts.

Import JS.

(** Sign tests on the specification side of a number. *)
Definition SFpositive (f : spec_float) : bool := SFltb (S754_zero false) f.
Definition SFnegative (f : spec_float) : bool := SFltb f (S754_zero false).

Lemma Prim2SF_zero : Prim2SF 0 = S754_zero false.
Proof. reflexivity. Qed.

Lemma ltb_zero_l (x : float) : PrimFloat.ltb 0 x = SFpositive (Prim2SF x).
Proof. now rewrite FloatAxioms.ltb_spec, Prim2SF_zero. Qed.

Lemma ltb_zero_r (x : float) : PrimFloat.ltb x 0 = SFnegative (Prim2SF x).
Proof. now rewrite FloatAxioms.ltb_spec, Prim2SF_zero. Qed.

Lemma SFcompare_refl_not_nan (f : spec_float) :
  f <> S754_nan -> SFcompare f f = Some Eq.
Proof.
  destruct f as [s | s | | s m e]; simpl; try congruence.
  - now destruct s.
  - intros _. rewrite Z.compare_refl, Pos.compare_cont_refl. now destruct s.
Qed.

(** [isNaN] recognises exactly the number [NaN]. *)
Lemma isNaN_spec (x : float) : isNaN x = true <-> Prim2SF x = S754_nan.
Proof.
  unfold isNaN. rewrite FloatAxioms.eqb_spec. unfold SFeqb. split.
  - intros H. destruct (Prim2SF x) eqn:E; try reflexivity;
      rewrite SFcompare_refl_not_nan in H by discriminate; discriminate.
  - intros ->. reflexivity.
Qed.

(** Every ordered comparison with [NaN] is false. *)
Lemma ltb_nan_l (x y : float) : isNaN x = true -> PrimFloat.ltb x y = false.
Proof.
  intros H. apply isNaN_spec in H. rewrite FloatAxioms.ltb_spec, H. reflexivity.
Qed.

Lemma ltb_nan_r (x y : float) : isNaN y = true -> PrimFloat.ltb x y = false.
Proof.
  intros H. apply isNaN_spec in H. rewrite FloatAxioms.ltb_spec, H.
  unfold SFltb. now destruct (Prim2SF x).
Qed.

(** No number is both below and above zero. *)
Lemma SF_sign_exclusive (f : spec_float) :
  SFnegative f && SFpositive f = false.
Proof. destruct f as [s | s | | s m e]; try reflexivity; now destruct s. Qed.

Lemma sign_exclusive (x : float) :
  PrimFloat.ltb x 0 && PrimFloat.ltb 0 x = false.
Proof. rewrite ltb_zero_l, ltb_zero_r. apply SF_sign_exclusive. Qed.

Section Rounding.

Variables prec emax : Z.

(** Rounding keeps the sign it is given. *)
Lemma round_aux_sign (m e : Z) (l : location) :
  SFpositive (binary_round_aux prec emax false m e l)
  = SFnegative (binary_round_aux prec emax true m e l)
  /\ SFnegative (binary_round_aux prec emax false m e l) = false
  /\ SFpositive (binary_round_aux prec emax true m e l) = false.
Proof.
  unfold binary_round_aux.
  destruct (shr_fexp prec emax m e l) as [mrs' e'].
  destruct (shr_fexp prec emax _ e' loc_Exact) as [mrs'' e''].
  destruct (shr_m mrs''); [| destruct (Z.leb _ _) |]; repeat split.
Qed.

Lemma normalize_sign (z e : Z) :
  SFpositive (binary_normalize prec emax (- z) e false)
  = SFnegative (binary_normalize prec emax z e false).
Proof.
  destruct z as [| p | p]; simpl; [reflexivity | |];
    unfold binary_round;
    destruct (shl_align _ _ _) as [mz ez];
    destruct (round_aux_sign (Zpos mz) ez loc_Exact) as (H1 & H2 & H3);
    congruence.
Qed.

(** Swapping the operands of a subtraction swaps the sign of the result. *)
Lemma SFsub_sign (x y : spec_float) :
  SFpositive (SFsub prec emax y x) = SFnegative (SFsub prec emax x y).
Proof.
  destruct x as [sx | sx | | sx mx ex], y as [sy | sy | | sy my ey];
    try reflexivity;
    try (destruct sx, sy; reflexivity);
    try (destruct sx; reflexivity);
    try (destruct sy; reflexivity).
  cbn [SFsub]. rewrite (Z.min_comm ey ex).
  set (zx := cond_Zopp sx _). set (zy := cond_Zopp sy _).
  rewrite <- normalize_sign.
  now replace (- (zx - zy)) with (zy - zx) by ring.
Qed.

End Rounding.

Lemma SFcompare_antisym (x y : spec_float) :
  SFcompare y x = option_map CompOpp (SFcompare x y).
Proof.
  destruct x as [sx | sx | | sx mx ex], y as [sy | sy | | sy my ey];
    try reflexivity;
    try (destruct sx; reflexivity);
    try (destruct sy; reflexivity);
    try (destruct sx, sy; reflexivity).
  simpl. rewrite (Z.compare_antisym ex ey).
  pose proof (Pos.compare_cont_antisym mx my Eq) as H. simpl in H.
  rewrite <- H.
  destruct sx, sy, (ex ?= ey); simpl; try reflexivity;
    now rewrite CompOpp_involutive.
Qed.

(** [<] on numbers is asymmetric. *)
Lemma ltb_asym (x y : float) :
  PrimFloat.ltb x y = true -> PrimFloat.ltb y x = false.
Proof.
  rewrite !FloatAxioms.ltb_spec. unfold SFltb.
  rewrite (SFcompare_antisym (Prim2SF x) (Prim2SF y)).
  now destruct (SFcompare (Prim2SF x) (Prim2SF y)) as [[| |] |].
Qed.

Lemma sub_sign_swap (x y : float) :
  PrimFloat.ltb 0 (y - x) = PrimFloat.ltb (x - y) 0.
Proof.
  rewrite ltb_zero_l, ltb_zero_r, !FloatAxioms.sub_spec. apply SFsub_sign.
Qed.

End NumberFacts.

(* ===================================================================== *)
(** * The filter predicates                                               *)
(* ===================================================================== *)

Section FilterFacts.

Import JS Dashboard.

Variable localTZA : Z -> Z.

(** The record is kept exactly when no predicate fires (and none
    raises). *)
Lemma dealPasses_true_iff (f : filters) (deal : record) :
  dealPasses localTZA f deal = Some true <->
  outOfRange (get deal "Revenue") (revenueRange f) = false
  /\ outOfRange (get deal "EBITDA") (ebitdaRange f) = false
  /\ outOfRange (get deal "Total Pursuits") (pursuitsRange f) = false
  /\ notListed (verticals f) (get deal "Primary Supply Vertical") = false
  /\ notListed (activities f) (get deal "Primary Supply Activity") = false
  /\ notListed (regions f) (get deal "Region") = false
  /\ notListed (states f) (get deal "State/Province") = false
  /\ brokerExcluded f deal = false
  /\ flagsExcluded f deal = false
  /\ statusExcluded f deal = Some false
  /\ typeExcluded f deal = Some false
  /\ dateExcluded localTZA f deal = false.
Proof.
  unfold dealPasses.
  repeat match goal with
         | |- context [if ?b then _ else _] => destruct b
         end;
    try (intuition congruence);
    destruct (statusExcluded f deal) as [[|] |];
    try (intuition congruence);
    destruct (typeExcluded f deal) as [[|] |];
    try (intuition congruence);
    destruct (dateExcluded localTZA f deal); intuition congruence.
Qed.

(** The callback raises exactly when a record that the tests before the
    status test keep reaches a listed status or type that raises. *)
Lemma dealPasses_None_iff (f : filters) (deal : record) :
  dealPasses localTZA f deal = None <->
  outOfRange (get deal "Revenue") (revenueRange f) = false
  /\ outOfRange (get deal "EBITDA") (ebitdaRange f) = false
  /\ outOfRange (get deal "Total Pursuits") (pursuitsRange f) = false
  /\ notListed (verticals f) (get deal "Primary Supply Vertical") = false
  /\ notListed (activities f) (get deal "Primary Supply Activity") = false
  /\ notListed (regions f) (get deal "Region") = false
  /\ notListed (states f) (get deal "State/Province") = false
  /\ brokerExcluded f deal = false
  /\ flagsExcluded f deal = false
  /\ (statusExcluded f deal = None
      \/ (statusExcluded f deal = Some false /\ typeExcluded f deal = None)).
Proof.
  unfold dealPasses.
  repeat match goal with
         | |- context [if ?b then _ else _] => destruct b
         end;
    try (intuition congruence);
    destruct (statusExcluded f deal) as [[|] |];
    try (intuition congruence);
    destruct (typeExcluded f deal) as [[|] |];
    try (intuition congruence);
    destruct (dateExcluded localTZA f deal); intuition congruence.
Qed.

(** A record outside any of the three ranges is dropped by the filter,
    before any later test is made. *)
Lemma out_of_range_drops (f : filters) (deal : record) :
  outOfRange (get deal "Revenue") (revenueRange f) = true
  \/ outOfRange (get deal "EBITDA") (ebitdaRange f) = true
  \/ outOfRange (get deal "Total Pursuits") (pursuitsRange f) = true ->
  dealPasses localTZA f deal = Some false.
Proof.
  unfold dealPasses. intros [H | [H | H]]; rewrite H;
    repeat match goal with
           | |- context [if ?b then _ else _] => destruct b
           end; reflexivity.
Qed.

(** On a range with numeric bounds the relational operators compare the
    field as a number. *)
Lemma outOfRange_numeric (v : JS.value) (lo hi : float) :
  outOfRange v (Some (lo, hi))
  = PrimFloat.ltb (ToNumber v) lo || PrimFloat.ltb hi (ToNumber v).
Proof. unfold outOfRange, gt, lt. now destruct v. Qed.

End FilterFacts.

(** C1 (as amended).  A range filter (revenue, EBITDA, pursuits) compares
    the field as a number with [<] and [>], and a record outside one of
    the three ranges is dropped.  A field that reads as [NaN] (the column
    is absent from the row, or the cell holds text that is not a numeric
    literal) fails both comparisons and is never excluded, whatever the
    range; an empty cell ([null]) reads as 0 and is excluded exactly when
    the minimum is above 0 or the maximum below 0. *)
Theorem range_filter_reads_field_as_number
    (deal : JS.record) (field : string) (lo hi : float) :
  Dashboard.outOfRange (JS.get deal field) (Some (lo, hi))
  = PrimFloat.ltb (JS.ToNumber (JS.get deal field)) lo
    || PrimFloat.ltb hi (JS.ToNumber (JS.get deal field))
  /\ (forall localTZA f,
        Dashboard.outOfRange (JS.get deal "Revenue")
                             (Dashboard.revenueRange f) = true
        \/ Dashboard.outOfRange (JS.get deal "EBITDA")
                                (Dashboard.ebitdaRange f) = true
        \/ Dashboard.outOfRange (JS.get deal "Total Pursuits")
                                (Dashboard.pursuitsRange f) = true ->
        Dashboard.dealPasses localTZA f deal = Some false)
  /\ (JS.isNaN (JS.ToNumber (JS.get deal field)) = true ->
      Dashboard.outOfRange (JS.get deal field) (Some (lo, hi)) = false)
  /\ (JS.get deal field = JS.VNull ->
      Dashboard.outOfRange (JS.get deal field) (Some (lo, hi))
      = PrimFloat.ltb 0 lo || PrimFloat.ltb hi 0).
Proof.
  split; [apply outOfRange_numeric |].
  split; [intros localTZA f; apply out_of_range_drops |].
  rewrite outOfRange_numeric. split.
  - intros H.
    now rewrite (NumberFacts.ltb_nan_l _ _ H), (NumberFacts.ltb_nan_r _ _ H).
  - now intros ->.
Qed.

Lemma range_filter_reads_field_as_number_witness :
  Dashboard.outOfRange (JS.get Fixtures.dealWithTextRevenue "Revenue")
                       (Some (2000000, 5000000)%float) = false
  /\ Dashboard.outOfRange (JS.get Fixtures.dealWithEmptyRevenue "Revenue")
                          (Some (2000000, 5000000)%float) = true
  /\ Dashboard.outOfRange (JS.get Fixtures.dealSmall "Revenue")
                          (Some (2000000, 5000000)%float) = true
  /\ Dashboard.dealPasses Fixtures.utc
       (Fixtures.withRevenueRange 2000000 5000000) Fixtures.dealSmall
     = Some false.
Proof.
  split; [| split; [| split]].
  - apply (proj1 (proj2 (proj2 (range_filter_reads_field_as_number
                                  Fixtures.dealWithTextRevenue "Revenue"
                                  2000000 5000000)))). reflexivity.
  - rewrite (proj2 (proj2 (proj2 (range_filter_reads_field_as_number
                                    Fixtures.dealWithEmptyRevenue "Revenue"
                                    _ _))));
      reflexivity.
  - rewrite (proj1 (range_filter_reads_field_as_number
                      Fixtures.dealSmall "Revenue" 2000000 5000000)).
    reflexivity.
  - apply (proj1 (proj2 (range_filter_reads_field_as_number
                           Fixtures.dealSmall "Revenue" 2000000 5000000))).
    left. reflexivity.
Defined.

(** C1 as stated fails: with a minimum of 2,000,000 a row without a
    revenue column and a row whose revenue is the text ["N/A"] are both
    kept by the range filter, and by the whole filter. *)
Lemma missing_revenue_passes_positive_minimum :
  JS.get Fixtures.dealWithoutRevenue "Revenue" = JS.VUndefined
  /\ PrimFloat.ltb 0 2000000 = true
  /\ Dashboard.outOfRange (JS.get Fixtures.dealWithoutRevenue "Revenue")
       (Dashboard.revenueRange (Fixtures.withRevenueRange 2000000 5000000))
     = false
  /\ Dashboard.dealPasses Fixtures.utc
       (Fixtures.withRevenueRange 2000000 5000000)
       Fixtures.dealWithoutRevenue = Some true
  /\ Dashboard.dealPasses Fixtures.utc
       (Fixtures.withRevenueRange 2000000 5000000)
       Fixtures.dealWithTextRevenue = Some true.
Proof. repeat split; vm_compute; reflexivity. Qed.

(** ** The flag coercion and the flag filters *)

Section FlagFacts.

Import JS.

Lemma strictEq_str (v : JS.value) (s : string) :
  strictEq v (VStr s) = true <-> v = VStr s.
Proof.
  destruct v; simpl; try (split; [discriminate | congruence]).
  rewrite String.eqb_eq. split; congruence.
Qed.

Lemma strictEq_true (v : JS.value) :
  strictEq v (VBool true) = true <-> v = VBool true.
Proof.
  destruct v as [| | [|] | |]; simpl; split; congruence.
Qed.

Lemma strictEq_num (v : JS.value) (x : float) :
  strictEq v (VNum x) = true
  <-> exists n, v = VNum n /\ PrimFloat.eqb n x = true.
Proof.
  destruct v; simpl; split; try discriminate;
    try (intros (m & H & _); discriminate).
  - intros H. now exists n.
  - intros (m & H & E). now injection H as ->.
Qed.

(** The simplified variant enables a flag for the number 1, the string
    ["1"] and [true]. *)
Lemma smartshareEnabled_spec (v : JS.value) :
  SimplifiedDashboard.smartshareEnabled v = true
  <-> (exists n, v = VNum n /\ PrimFloat.eqb n 1 = true)
      \/ v = VStr "1" \/ v = VBool true.
Proof.
  unfold SimplifiedDashboard.smartshareEnabled.
  rewrite !orb_true_iff, strictEq_num, strictEq_str, strictEq_true.
  tauto.
Qed.

Lemma isTrueText_spec (v : JS.value) :
  Properties.isTrueText v = true <-> exists s, v = VStr s /\ toUpperCase s = "TRUE".
Proof.
  destruct v; simpl; split; try discriminate;
    try (intros (t & H & _); discriminate).
  - intros H. apply String.eqb_eq in H. now exists s.
  - intros (t & H & E). injection H as ->. now apply String.eqb_eq.
Qed.

Lemma flagEnabled_split (v : JS.value) :
  Dashboard.flagEnabled v
  = SimplifiedDashboard.smartshareEnabled v || Properties.isTrueText v.
Proof. reflexivity. Qed.

(** The full dashboard also enables it for text that is ["TRUE"] up to
    case. *)
Lemma flagEnabled_spec (v : JS.value) :
  Dashboard.flagEnabled v = true
  <-> (exists n, v = VNum n /\ PrimFloat.eqb n 1 = true)
      \/ v = VStr "1" \/ v = VBool true
      \/ exists s, v = VStr s /\ toUpperCase s = "TRUE".
Proof.
  rewrite flagEnabled_split, orb_true_iff, smartshareEnabled_spec,
    isTrueText_spec. tauto.
Qed.

End FlagFacts.

(** C2.  When both flag filters are [true] a record passes the flag
    predicates exactly when at least one computed flag is enabled; in
    every other combination each filter that is not [null] must equal its
    computed flag, and a [null] filter imposes nothing. *)
Theorem flag_filters_or_coupling (f : Dashboard.filters) (deal : JS.record) :
  (Dashboard.includeSmartshareEnabled f = Some true
   /\ Dashboard.includeInboundInquiryEnabled f = Some true ->
   (Dashboard.flagsExcluded f deal = false
    <-> Dashboard.flagEnabled (JS.get deal "SmartShare Enabled?") = true
        \/ Dashboard.flagEnabled (JS.get deal "Inbound Inquiry Enabled?")
           = true))
  /\ (~ (Dashboard.includeSmartshareEnabled f = Some true
         /\ Dashboard.includeInboundInquiryEnabled f = Some true) ->
      (Dashboard.flagsExcluded f deal = false
       <-> (forall b, Dashboard.includeSmartshareEnabled f = Some b ->
                      Dashboard.flagEnabled
                        (JS.get deal "SmartShare Enabled?") = b)
           /\ (forall b, Dashboard.includeInboundInquiryEnabled f = Some b ->
                         Dashboard.flagEnabled
                           (JS.get deal "Inbound Inquiry Enabled?") = b))).
Proof.
  unfold Dashboard.flagsExcluded, Dashboard.flagMismatch.
  set (ss := Dashboard.flagEnabled (JS.get deal "SmartShare Enabled?")).
  set (ib := Dashboard.flagEnabled (JS.get deal "Inbound Inquiry Enabled?")).
  assert (Hsome : forall x y : bool,
             (forall b, Some x = Some b -> y = b) <-> y = x).
  { intros x y. split; [intros H; now apply H | intros -> b E; congruence]. }
  assert (Hnone : forall y : bool,
             (forall b, @None bool = Some b -> y = b) <-> True).
  { intros y. split; [trivial | discriminate]. }
  destruct (Dashboard.includeSmartshareEnabled f) as [[|] |],
           (Dashboard.includeInboundInquiryEnabled f) as [[|] |];
    (split; intros H;
     [ try (destruct H; discriminate)
     | try (exfalso; apply H; split; reflexivity) ]);
    rewrite ?Hsome, ?Hnone;
    destruct ss, ib; simpl; intuition congruence.
Qed.

(** Scenarios B and C of the specification. *)
Lemma flag_filters_or_coupling_witness :
  Dashboard.flagsExcluded (Fixtures.withFlags (Some true) (Some true))
                          Fixtures.dealB = false
  /\ Dashboard.flagsExcluded (Fixtures.withFlags (Some true) (Some true))
                             Fixtures.dealC <> false
  /\ Dashboard.flagsExcluded (Fixtures.withFlags (Some false) None)
                             Fixtures.dealC = false.
Proof.
  split; [| split].
  - apply (proj1 (flag_filters_or_coupling _ Fixtures.dealB)).
    + split; reflexivity.
    + left. reflexivity.
  - intros H.
    apply (proj1 (flag_filters_or_coupling _ Fixtures.dealC)) in H.
    + destruct H; discriminate.
    + split; reflexivity.
  - apply (proj2 (flag_filters_or_coupling _ Fixtures.dealC)).
    + intros [H _]. discriminate.
    + split; intros b H; [now injection H as <- | discriminate].
Defined.

(** C7 (as amended).  The two variants coerce the SmartShare cell
    differently.  The full dashboard enables the flag for the number 1,
    the string ["1"], [true] and text equal to ["TRUE"] up to case; the
    simplified variant only for the first three.  They agree on every
    value that is not such text, and on such text the full dashboard says
    enabled and the simplified variant says disabled. *)
Theorem smartshare_coercion_variants (v : JS.value) :
  (Dashboard.flagEnabled v = true
   <-> (exists n, v = JS.VNum n /\ PrimFloat.eqb n 1 = true)
       \/ v = JS.VStr "1" \/ v = JS.VBool true
       \/ exists s, v = JS.VStr s /\ JS.toUpperCase s = "TRUE")
  /\ (SimplifiedDashboard.smartshareEnabled v = true
      <-> (exists n, v = JS.VNum n /\ PrimFloat.eqb n 1 = true)
          \/ v = JS.VStr "1" \/ v = JS.VBool true)
  /\ ((forall s, v = JS.VStr s -> JS.toUpperCase s <> "TRUE") ->
      Dashboard.flagEnabled v = SimplifiedDashboard.smartshareEnabled v)
  /\ ((exists s, v = JS.VStr s /\ JS.toUpperCase s = "TRUE") ->
      Dashboard.flagEnabled v = true
      /\ SimplifiedDashboard.smartshareEnabled v = false).
Proof.
  split; [apply flagEnabled_spec |].
  split; [apply smartshareEnabled_spec |].
  rewrite flagEnabled_split. split.
  - intros H. destruct (Properties.isTrueText v) eqn:E;
      [| now rewrite orb_false_r].
    apply isTrueText_spec in E. destruct E as (s & -> & E).
    now destruct (H s eq_refl).
  - intros (s & -> & E). split.
    + apply orb_true_iff. right. now apply isTrueText_spec; exists s.
    + unfold SimplifiedDashboard.smartshareEnabled. simpl.
      rewrite orb_false_r. apply String.eqb_neq. intros ->. discriminate.
Qed.

Lemma smartshare_coercion_variants_witness :
  Dashboard.flagEnabled (JS.VNum 1)
  = SimplifiedDashboard.smartshareEnabled (JS.VNum 1)
  /\ Dashboard.flagEnabled (JS.VStr "tRuE") = true
  /\ SimplifiedDashboard.smartshareEnabled (JS.VStr "tRuE") = false.
Proof.
  split.
  - apply (proj1 (proj2 (proj2 (smartshare_coercion_variants (JS.VNum 1))))).
    intros s H. discriminate.
  - apply (proj2 (proj2 (proj2
             (smartshare_coercion_variants (JS.VStr "tRuE"))))).
    exists "tRuE". split; reflexivity.
Defined.

(** C7 as stated fails: the variants disagree on a cell holding the text
    ["True"] (text the CSV parser leaves as a string).  The full
    dashboard reads the flag as enabled and keeps the record under
    "SmartShare enabled only"; the simplified variant reads it as disabled
    and drops the record. *)
Lemma simplified_variant_rejects_True_text :
  JS.toUpperCase "True" = "TRUE"
  /\ Dashboard.flagEnabled (JS.VStr "True") = true
  /\ SimplifiedDashboard.smartshareEnabled (JS.VStr "True") = false
  /\ Dashboard.dealPasses Fixtures.utc
       (Fixtures.withFlags (Some true) None) Fixtures.dealTrueText
     = Some true
  /\ SimplifiedDashboard.dealPasses
       {| SimplifiedDashboard.verticals := [];
          SimplifiedDashboard.ebitdaRange := (0, 40000000)%float;
          SimplifiedDashboard.includeSmartshareEnabled := Some true |}
       Fixtures.dealTrueText = false.
Proof. repeat split; vm_compute; reflexivity. Qed.

(** ** The broker and status filters *)

Section OwnerAndStatusFacts.

Import JS.

(** The falsy cells: absent, empty, [false], the numbers 0 and [NaN], and
    the empty string. *)
Lemma falsy_spec (v : JS.value) :
  truthy v = false
  <-> v = VUndefined \/ v = VNull \/ v = VBool false
      \/ (exists n, v = VNum n
                    /\ (PrimFloat.eqb n 0 = true \/ isNaN n = true))
      \/ v = VStr "".
Proof.
  destruct v as [| | b | n | s]; simpl.
  - tauto.
  - tauto.
  - destruct b; split; try tauto; try discriminate.
    intros [H | [H | [H | [(n & H & _) | H]]]]; discriminate.
  - rewrite negb_false_iff, orb_true_iff. split.
    + intros H. right. right. right. left. now exists n.
    + intros [H | [H | [H | [(m & H & G) | H]]]]; try discriminate.
      now injection H as ->.
  - rewrite negb_false_iff, String.eqb_eq. split.
    + intros ->. tauto.
    + intros [H | [H | [H | [(m & H & G) | H]]]]; try discriminate.
      now injection H.
Qed.



(** ** Callbacks that may raise *)


Lemma arraySome_stops {A : Type} (p : A -> option bool) (l : list A)
    (o : option bool) :
  o <> Some false ->
  (arraySome p l = o
   <-> exists pre x post,
         l = (pre ++ x :: post)%list
         /\ Forall (fun y => p y = Some false) pre
         /\ p x = o).
Proof.
  intros Ho. induction l as [| x r IH]; simpl.
  - split; [congruence |].
    intros (pre & y & post & H & _). now destruct pre.
  - destruct (p x) as [[|] |] eqn:E.
    + split.
      * intros <-. exists [], x, r. repeat split; [constructor | exact E].
      * intros (pre & y & post & H & Hpre & Hy).
        destruct pre as [| z pre]; simpl in H; injection H as -> ->.
        -- congruence.
        -- inversion Hpre; congruence.
    + rewrite IH. split.
      * intros (pre & y & post & -> & Hpre & Hy).
        exists (x :: pre), y, post. repeat split; [now constructor | exact Hy].
      * intros (pre & y & post & H & Hpre & Hy).
        destruct pre as [| z pre]; simpl in H; injection H as -> ->.
        -- congruence.
        -- exists pre, y, post. repeat split; [now inversion Hpre | exact Hy].
    + split.
      * intros <-. exists [], x, r. repeat split; [constructor | exact E].
      * intros (pre & y & post & H & Hpre & Hy).
        destruct pre as [| z pre]; simpl in H; injection H as -> ->.
        -- congruence.
        -- inversion Hpre; congruence.
Qed.

Lemma arrayFilter_None {A : Type} (p : A -> option bool) (l : list A) :
  arrayFilter p l = None <-> exists x, In x l /\ p x = None.
Proof.
  induction l as [| x r IH]; simpl.
  - split; [discriminate | intros (x & [] & _)].
  - destruct (p x) as [keep |] eqn:E.
    + destruct (arrayFilter p r) as [kept |].
      * split; [discriminate |]. intros (y & [<- | Hy] & Hp); [congruence |].
        assert (H : Some kept = None) by (apply IH; now exists y).
        discriminate.
      * split; [| reflexivity]. intros _.
        destruct (proj1 IH eq_refl) as (y & Hy & Hp). exists y. tauto.
    + split; [| reflexivity]. intros _. exists x. tauto.
Qed.

Lemma arrayFilter_Some {A : Type} (p : A -> option bool) (l kept : list A) :
  arrayFilter p l = Some kept ->
  kept = List.filter (fun x => match p x with
                               | Some true => true
                               | _ => false
                               end) l.
Proof.
  revert kept. induction l as [| x r IH]; simpl; intros kept H.
  - now injection H as <-.
  - destruct (p x) as [keep |]; [| discriminate].
    destruct (arrayFilter p r) as [kept' |]; [| discriminate].
    injection H as <-. rewrite (IH kept' eq_refl). now destruct keep.
Qed.





End OwnerAndStatusFacts.

(** C9.  A record whose ['Account Owner'] cell is missing, empty or
    otherwise falsy is never excluded by the broker filter, even when
    [includeBrokers] is [false]; the filter excludes exactly when
    [includeBrokers] is [false] and the owner is present and reads
    ["broker"] up to case. *)
Theorem broker_filter_needs_an_owner (f : Dashboard.filters) (deal : JS.record) :
  (JS.truthy (JS.get deal "Account Owner") = false ->
   Dashboard.brokerExcluded f deal = false)
  /\ (Dashboard.brokerExcluded f deal = true
      <-> Dashboard.includeBrokers f = false
          /\ JS.truthy (JS.get deal "Account Owner") = true
          /\ JS.toLowerCase (JS.ToString (JS.get deal "Account Owner"))
             = "broker").
Proof.
  unfold Dashboard.brokerExcluded. split.
  - intros ->. now rewrite andb_false_r.
  - rewrite !andb_true_iff, negb_true_iff, String.eqb_eq. tauto.
Qed.

Lemma broker_filter_needs_an_owner_witness :
  Dashboard.brokerExcluded (Fixtures.withBrokers false) Fixtures.dealNoOwner
  = false
  /\ Dashboard.brokerExcluded (Fixtures.withBrokers false) Fixtures.dealBroker
     = true.
Proof.
  split.
  - apply (proj1 (broker_filter_needs_an_owner _ Fixtures.dealNoOwner)).
    reflexivity.
  - apply (proj2 (broker_filter_needs_an_owner _ Fixtures.dealBroker)).
    repeat split.
Defined.




(** ** The date filter *)

Section DateFacts.

Import JS.

Variable localTZA : Z -> Z.

Lemma readableDate_None (s : string) :
  Properties.readableDate s = None
  <-> length (split "/"%char s) <> 3%nat
      \/ Exists (fun p => parseInt p = None) (split "/"%char s).
Proof.
  unfold Properties.readableDate.
  destruct (split "/"%char s) as [| p0 [| p1 [| p2 [| p3 r]]]]; simpl;
    try (split; [intros _; left; discriminate | reflexivity]).
  split.
  - intros H. right.
    destruct (parseInt p0) eqn:E0; [| now apply Exists_cons_hd].
    destruct (parseInt p1) eqn:E1;
      [| now apply Exists_cons_tl, Exists_cons_hd].
    destruct (parseInt p2) eqn:E2;
      [discriminate | now apply Exists_cons_tl, Exists_cons_tl, Exists_cons_hd].
  - intros [H | H]; [congruence |].
    repeat match goal with
           | H : Exists _ (_ :: _) |- _ => apply Exists_cons in H; destruct H
           | H : Exists _ [] |- _ => apply Exists_nil in H; contradiction
           end;
      repeat match goal with
             | H : parseInt _ = None |- _ => rewrite H
             end;
      try reflexivity;
      repeat match goal with
             | |- context [match parseInt ?p with _ => _ end] =>
                 destruct (parseInt p)
             end; reflexivity.
Qed.

(** A date cell that is falsy, or truthy but not a string, restricts
    nothing. *)
Lemma dateExcluded_not_text (f : Dashboard.filters) (deal : record) :
  (forall s, orElse (get deal "Market Date") (get deal "Market Date (Date)")
             <> VStr s) ->
  Dashboard.dateExcluded localTZA f deal = false.
Proof.
  unfold Dashboard.dateExcluded. intros H.
  destruct (Dashboard.dateRange f) as [[start stop] |]; [| reflexivity].
  destruct (orElse _ _) as [| | b | n | s]; try reflexivity;
    [now destruct (truthy _) .. | now destruct (H s)].
Qed.

End DateFacts.

(** C3 (as amended).  The date filter reads the three slash-separated
    parts of the date text with [parseInt].  Text that does not have
    exactly three parts, or has a part that does not start with an
    integer, is unreadable and never excludes the record.  Three integers
    are always read as a date, months and days beyond the calendar
    carrying over, and the record is excluded exactly when that date is a
    valid time value before the start or after the end of the range. *)
Theorem date_filter_reads_three_integers
    (localTZA : Z -> Z) (f : Dashboard.filters) (deal : JS.record)
    (s start stop : string) :
  JS.orElse (JS.get deal "Market Date") (JS.get deal "Market Date (Date)")
  = JS.VStr s ->
  Dashboard.dateRange f = Some (start, stop) ->
  (Properties.readableDate s = None ->
   Dashboard.dateExcluded localTZA f deal = false)
  /\ (forall y m d, Properties.readableDate s = Some (y, m, d) ->
      Dashboard.dateExcluded localTZA f deal
      = match JSDate.fromFields localTZA (Some y) (Some (m - 1)) (Some d) with
        | Some t =>
            Properties.outsideDates t (JSDate.parse start) (JSDate.parse stop)
        | None => false
        end).
Proof.
  intros Hs Hr. unfold Dashboard.dateExcluded, Properties.readableDate.
  rewrite Hs, Hr.
  destruct (JS.truthy (JS.VStr s)) eqn:Ht.
  - destruct (JS.split "/"%char s) as [| p0 [| p1 [| p2 [| p3 r]]]];
      try (split; [reflexivity | discriminate]).
    unfold JSDate.fromParts.
    destruct (JS.parseInt p2) as [y |], (JS.parseInt p0) as [m |],
             (JS.parseInt p1) as [d |]; simpl;
      (split; [try reflexivity; discriminate |]);
      intros y' m' d' E; try discriminate.
    injection E as <- <- <-. reflexivity.
  - split; [reflexivity |].
    simpl in Ht. apply negb_false_iff, String.eqb_eq in Ht. subst s.
    discriminate.
Qed.

Lemma date_filter_reads_three_integers_witness :
  Dashboard.dateExcluded Fixtures.utc
    (Fixtures.withDateRange "2024-01-01" "2024-01-10") Fixtures.dealNoMonth
  = false
  /\ Dashboard.dateExcluded Fixtures.utc
       (Fixtures.withDateRange "2024-01-01" "2024-01-10") Fixtures.dealJan5
     = false.
Proof.
  split.
  - apply (proj1 (date_filter_reads_three_integers Fixtures.utc
                    (Fixtures.withDateRange "2024-01-01" "2024-01-10")
                    Fixtures.dealNoMonth "Q1/5/2024" "2024-01-01" "2024-01-10"
                    eq_refl eq_refl)).
    reflexivity.
  - rewrite (proj2 (date_filter_reads_three_integers Fixtures.utc
                      (Fixtures.withDateRange "2024-01-01" "2024-01-10")
                      Fixtures.dealJan5 "1/5/2024" "2024-01-01" "2024-01-10"
                      eq_refl eq_refl) 2024 1 5 eq_refl).
    reflexivity.
Defined.

(** C3 as stated fails: ["13/40/2024"] is read as month 13, day 40 of
    2024, which the [Date] constructor carries over to 9 February 2025;
    that date is after 10 January 2024, so the record is excluded. *)
Lemma month_13_day_40_is_excluded :
  Properties.readableDate "13/40/2024" = Some (2024, 13, 40)
  /\ JSDate.fromParts Fixtures.utc "13" "40" "2024"
     = JSDate.fromParts Fixtures.utc "2" "9" "2025"
  /\ Dashboard.dateExcluded Fixtures.utc
       (Fixtures.withDateRange "2024-01-01" "2024-01-10")
       Fixtures.dealMonth13 = true
  /\ Dashboard.dealPasses Fixtures.utc
       (Fixtures.withDateRange "2024-01-01" "2024-01-10")
       Fixtures.dealMonth13 = Some false.
Proof. repeat split; vm_compute; reflexivity. Qed.

(* ===================================================================== *)
(** * Sorting                                                             *)
(* ===================================================================== *)

(** ** The stable sort *)

Section StableSort.

Context {A : Type}.
Variable comparefn : A -> A -> float.

Local Abbreviation after := (Properties.sortsAfterBy comparefn).

Lemma insertSorted_perm (x : A) (l : list A) :
  Permutation (Dashboard.insertSorted comparefn x l) (x :: l).
Proof.
  induction l as [| y r IH]; simpl; [reflexivity |].
  destruct (PrimFloat.ltb 0 (comparefn x y)); [| reflexivity].
  rewrite IH. apply perm_swap.
Qed.

Lemma arraySort_perm (l : list A) :
  Permutation (Dashboard.arraySort comparefn l) l.
Proof.
  induction l as [| x r IH]; simpl; [reflexivity |].
  rewrite insertSorted_perm. now apply perm_skip.
Qed.

(** Stability: entries none of which sorts after a later one stay where
    they are. *)
Lemma arraySort_keeps_order (l : list A) :
  (forall x y, In x l -> In y l -> after x y = false) ->
  Dashboard.arraySort comparefn l = l.
Proof.
  induction l as [| x r IH]; intros H; simpl; [reflexivity |].
  rewrite IH by (intros a b Ha Hb; apply H; now right).
  destruct r as [| y r']; simpl; [reflexivity |].
  fold (after x y). rewrite H; [reflexivity | now left | right; now left].
Qed.

(** On entries that the comparator orders strictly and transitively the
    sort puts every entry before the entries that sort after it. *)
Lemma insertSorted_sorted (x : A) (s : list A) :
  (forall a b c, In a (x :: s) -> In b (x :: s) -> In c (x :: s) ->
                 after a b = true -> after b c = true -> after a c = true) ->
  (forall y, In y s -> after x y = true \/ after y x = true) ->
  StronglySorted (fun a b => after b a = true) s ->
  StronglySorted (fun a b => after b a = true)
                 (Dashboard.insertSorted comparefn x s).
Proof.
  intros Htrans Hties Hs.
  induction s as [| y r IH]; simpl.
  - constructor; constructor.
  - apply StronglySorted_inv in Hs. destruct Hs as [Hr Hy].
    fold (after x y). destruct (after x y) eqn:E.
    + constructor.
      * apply IH; [ | | exact Hr].
        -- intros a b c Ha Hb Hc. apply Htrans; simpl in *; tauto.
        -- intros z Hz. apply Hties. now right.
      * apply List.Forall_forall. intros z Hz.
        apply (Permutation_in _ (insertSorted_perm x r)) in Hz.
        destruct Hz as [<- | Hz]; [exact E |].
        rewrite List.Forall_forall in Hy. now apply Hy.
    + assert (Hyx : after y x = true).
      { destruct (Hties y (or_introl eq_refl)); congruence. }
      constructor; [now constructor |].
      constructor; [exact Hyx |].
      apply List.Forall_forall. intros z Hz.
      rewrite List.Forall_forall in Hy.
      apply (Htrans z y x); simpl; auto.
Qed.

Lemma noTies_cons (x : A) (r : list A) :
  Properties.noTies after (x :: r) = true ->
  (forall y, In y r -> after x y = true \/ after y x = true)
  /\ Properties.noTies after r = true.
Proof.
  simpl. rewrite andb_true_iff, List.forallb_forall. intros [H1 H2].
  split; [| exact H2]. intros y Hy. apply orb_true_iff. now apply H1.
Qed.

Lemma transitiveOn_spec (l : list A) :
  Properties.transitiveOn after l = true ->
  forall a b c, In a l -> In b l -> In c l ->
                after a b = true -> after b c = true -> after a c = true.
Proof.
  unfold Properties.transitiveOn. rewrite List.forallb_forall.
  intros H a b c Ha Hb Hc Hab Hbc.
  specialize (H a Ha). rewrite List.forallb_forall in H.
  specialize (H b Hb). rewrite List.forallb_forall in H.
  specialize (H c Hc). now rewrite Hab, Hbc in H.
Qed.

Lemma arraySort_sorted (l : list A) :
  (forall a b c, In a l -> In b l -> In c l ->
                 after a b = true -> after b c = true -> after a c = true) ->
  Properties.noTies after l = true ->
  StronglySorted (fun a b => after b a = true)
                 (Dashboard.arraySort comparefn l).
Proof.
  induction l as [| x r IH]; intros Htrans Hties; simpl; [constructor |].
  apply noTies_cons in Hties. destruct Hties as [Hx Hr].
  assert (Hin : forall y, In y (Dashboard.arraySort comparefn r) -> In y r).
  { intros y. apply Permutation_in, arraySort_perm. }
  apply insertSorted_sorted.
  - intros a b c Ha Hb Hc. apply Htrans.
    + destruct Ha as [<- | Ha]; [now left | right; auto].
    + destruct Hb as [<- | Hb]; [now left | right; auto].
    + destruct Hc as [<- | Hc]; [now left | right; auto].
  - intros y Hy. apply Hx. auto.
  - apply IH; [| exact Hr].
    intros a b c Ha Hb Hc. apply Htrans; now right.
Qed.

End StableSort.

Section SortedLists.

Context {A : Type}.
Variable R : A -> A -> Prop.

Lemma StronglySorted_snoc (s : list A) (x : A) :
  StronglySorted R s -> Forall (fun y => R y x) s ->
  StronglySorted R (s ++ [x]).
Proof.
  induction 1 as [| a s Hs IH Ha]; intros Hx; simpl.
  - constructor; constructor.
  - apply List.Forall_cons_iff in Hx. destruct Hx as [Hax Hx].
    constructor; [now apply IH |].
    apply List.Forall_app. split; [exact Ha | now constructor].
Qed.

Lemma StronglySorted_rev (s : list A) :
  StronglySorted (fun a b => R b a) s -> StronglySorted R (rev s).
Proof.
  induction 1 as [| a s Hs IH Ha]; simpl; [constructor |].
  apply StronglySorted_snoc; [exact IH |].
  apply List.Forall_forall. intros y Hy. apply in_rev in Hy.
  rewrite List.Forall_forall in Ha. now apply Ha.
Qed.

(** Two strictly sorted arrangements of the same entries coincide. *)
Lemma sorted_perm_unique (s1 s2 : list A) :
  (forall a b, R a b -> R b a -> False) ->
  Permutation s1 s2 -> StronglySorted R s1 -> StronglySorted R s2 ->
  s1 = s2.
Proof.
  intros Hasym. revert s2.
  induction s1 as [| a s1 IH]; intros s2 Hp H1 H2.
  - apply Permutation_nil in Hp. now subst.
  - destruct s2 as [| b s2].
    + apply Permutation_sym, Permutation_nil in Hp. discriminate.
    + apply StronglySorted_inv in H1. destruct H1 as [H1 Ha].
      apply StronglySorted_inv in H2. destruct H2 as [H2 Hb].
      rewrite List.Forall_forall in Ha, Hb.
      assert (a = b) as <-.
      { assert (Hin : In a (b :: s2))
          by (apply (Permutation_in _ Hp); now left).
        destruct Hin as [-> | Hin]; [reflexivity |].
        assert (Hin' : In b (a :: s1))
          by (apply (Permutation_in _ (Permutation_sym Hp)); now left).
        destruct Hin' as [-> | Hin']; [reflexivity |].
        destruct (Hasym a b); auto. }
      f_equal. apply IH; [| exact H1 | exact H2].
      now apply Permutation_cons_inv in Hp.
Qed.

End SortedLists.

Lemma StronglySorted_weaken {A : Type} (R R' : A -> A -> Prop) (s : list A) :
  (forall a b, R a b -> R' a b) -> StronglySorted R s -> StronglySorted R' s.
Proof.
  intros H. induction 1 as [| a s Hs IH Ha]; constructor; [exact IH |].
  eapply List.Forall_impl; [| exact Ha]. intros b. apply H.
Qed.

Lemma noTies_converse {A : Type} (after after' : A -> A -> bool) (l : list A) :
  (forall x y, after' x y = after y x) ->
  Properties.noTies after l = true -> Properties.noTies after' l = true.
Proof.
  intros H. induction l as [| x r IH]; simpl; [reflexivity |].
  rewrite !andb_true_iff, !List.forallb_forall. intros [H1 H2].
  split; [| now apply IH].
  intros y Hy. rewrite !H, orb_comm. now apply H1.
Qed.

(** ** The comparator of the dashboard *)

Section ComparatorFacts.

Import JS Dashboard.

Variable localTZA : Z -> Z.

Lemma lt_asym (a b : JS.value) : lt a b = true -> lt b a = false.
Proof.
  unfold lt.
  destruct a, b; try apply NumberFacts.ltb_asym.
  unfold String.ltb. rewrite (String.compare_antisym s0 s).
  now destruct (String.compare s s0).
Qed.

Lemma compareAsDates_swap (k : string) (valA valB : JS.value) :
  compareAsDates localTZA {| key := k; direction := desc |} valA valB
  = compareAsDates localTZA {| key := k; direction := asc |} valB valA.
Proof.
  unfold compareAsDates. simpl.
  destruct (includes (toLowerCase k) "date"), (truthy valA), (truthy valB);
    try reflexivity. simpl.
  destruct (split "/"%char (ToString valA)) as [| a0 [| a1 [| a2 [| a3 ra]]]],
           (split "/"%char (ToString valB)) as [| b0 [| b1 [| b2 [| b3 rb]]]];
    try reflexivity.
  now destruct (JSDate.fromParts localTZA a0 a1 a2),
               (JSDate.fromParts localTZA b0 b1 b2).
Qed.

(** Sorting descending is sorting ascending with the operands of the
    comparator exchanged. *)
Lemma compareDeals_desc (k : string) (a b : record) :
  compareDeals localTZA {| key := k; direction := desc |} a b
  = compareDeals localTZA {| key := k; direction := asc |} b a.
Proof.
  unfold compareDeals. cbn [key direction].
  destruct (String.eqb k ""); [reflexivity |].
  rewrite compareAsDates_swap.
  destruct (compareAsDates _ _ _ _); [reflexivity |].
  set (numA := parseFloat _). set (numB := parseFloat _).
  destruct (isNaN numA), (isNaN numB); simpl; try reflexivity;
    unfold gt;
    destruct (lt (get a k) (get b k)) eqn:E1,
             (lt (get b k) (get a k)) eqn:E2;
    try reflexivity;
    apply lt_asym in E1; congruence.
Qed.

Lemma compareAsDates_asc_shape (k : string) (valA valB : JS.value) :
  (exists x y : float,
      compareAsDates localTZA {| key := k; direction := asc |} valA valB
      = Some (x - y)%float
      /\ compareAsDates localTZA {| key := k; direction := asc |} valB valA
         = Some (y - x)%float)
  \/ (compareAsDates localTZA {| key := k; direction := asc |} valA valB
      = None
      /\ compareAsDates localTZA {| key := k; direction := asc |} valB valA
         = None).
Proof.
  unfold compareAsDates. simpl.
  destruct (includes (toLowerCase k) "date"), (truthy valA), (truthy valB);
    try (right; split; reflexivity). simpl.
  destruct (split "/"%char (ToString valA)) as [| a0 [| a1 [| a2 [| a3 ra]]]],
           (split "/"%char (ToString valB)) as [| b0 [| b1 [| b2 [| b3 rb]]]];
    try (right; split; reflexivity).
  destruct (JSDate.fromParts localTZA a0 a1 a2) as [dateA |],
           (JSDate.fromParts localTZA b0 b1 b2) as [dateB |];
    try (right; split; reflexivity).
  left. exists (Z2F dateA), (Z2F dateB). split; reflexivity.
Qed.

(** The shapes a pair of ascending comparisons can take: a difference
    and the opposite difference, or the constants of the fallback. *)
Lemma compareDeals_asc_shape (k : string) (a b : record) :
  (exists x y : float,
      compareDeals localTZA {| key := k; direction := asc |} a b
      = (x - y)%float
      /\ compareDeals localTZA {| key := k; direction := asc |} b a
         = (y - x)%float)
  \/ (compareDeals localTZA {| key := k; direction := asc |} a b = 0%float
      /\ compareDeals localTZA {| key := k; direction := asc |} b a
         = 0%float)
  \/ (compareDeals localTZA {| key := k; direction := asc |} a b
      = (-1)%float
      /\ compareDeals localTZA {| key := k; direction := asc |} b a
         = 1%float)
  \/ (compareDeals localTZA {| key := k; direction := asc |} a b = 1%float
      /\ compareDeals localTZA {| key := k; direction := asc |} b a
         = (-1)%float).
Proof.
  unfold compareDeals. cbn [key direction].
  destruct (String.eqb k ""); [right; left; split; reflexivity |].
  destruct (compareAsDates_asc_shape k (get a k) (get b k))
    as [(x & y & -> & ->) | [-> ->]].
  { left. now exists x, y. }
  set (numA := parseFloat (stripNonNumeric (ToString (get a k)))).
  set (numB := parseFloat (stripNonNumeric (ToString (get b k)))).
  destruct (isNaN numA), (isNaN numB); simpl;
    try (left; exists numA, numB; split; reflexivity);
    unfold gt;
    destruct (lt (get a k) (get b k)) eqn:E1,
             (lt (get b k) (get a k)) eqn:E2;
    try (apply lt_asym in E1; congruence);
    tauto.
Qed.

(** Exchanging the operands exchanges "sorts after" and "sorts
    before". *)
Lemma compareDeals_asc_sign (k : string) (a b : record) :
  PrimFloat.ltb 0 (compareDeals localTZA {| key := k; direction := asc |} b a)
  = PrimFloat.ltb (compareDeals localTZA {| key := k; direction := asc |} a b)
                  0.
Proof.
  destruct (compareDeals_asc_shape k a b)
    as [(x & y & -> & ->) | [[-> ->] | [[-> ->] | [-> ->]]]];
    try reflexivity.
  apply NumberFacts.sub_sign_swap.
Qed.

(** X10.  Direction flips the sign of the comparison; a tie is a tie in both
    directions. *)
Lemma compareDeals_direction_flips_sign (k : string) (a b : record) :
  PrimFloat.ltb 0 (compareDeals localTZA {| key := k; direction := desc |} a b)
  = PrimFloat.ltb (compareDeals localTZA {| key := k; direction := asc |} a b)
                  0
  /\ PrimFloat.ltb
       (compareDeals localTZA {| key := k; direction := desc |} a b) 0
     = PrimFloat.ltb 0
         (compareDeals localTZA {| key := k; direction := asc |} a b).
Proof.
  rewrite compareDeals_desc. split.
  - apply compareDeals_asc_sign.
  - symmetry. apply compareDeals_asc_sign.
Qed.

Lemma sortsAfter_desc (k : string) (a b : record) :
  Properties.sortsAfter localTZA {| key := k; direction := desc |} a b
  = Properties.sortsAfter localTZA {| key := k; direction := asc |} b a.
Proof.
  unfold Properties.sortsAfter, Properties.sortsAfterBy.
  now rewrite compareDeals_desc.
Qed.

Lemma sortsAfter_asym (k : string) (a b : record) :
  Properties.sortsAfter localTZA {| key := k; direction := asc |} a b = true ->
  Properties.sortsAfter localTZA {| key := k; direction := asc |} b a = true ->
  False.
Proof.
  unfold Properties.sortsAfter, Properties.sortsAfterBy.
  rewrite (compareDeals_asc_sign k a b).
  intros H1 H2.
  pose proof (NumberFacts.sign_exclusive
                (compareDeals localTZA {| key := k; direction := asc |} a b))
    as H.
  rewrite H1, H2 in H. discriminate.
Qed.

End ComparatorFacts.

(** C6.  With an empty sort key the comparator answers 0 for every pair,
    and the stable sort returns the records in their original order. *)
Theorem sort_without_key_is_identity
    (localTZA : Z -> Z) (d : Dashboard.sortDirection) (deals : list JS.record) :
  Dashboard.sortedDeals localTZA
    {| Dashboard.key := ""; Dashboard.direction := d |} deals
  = deals.
Proof.
  unfold Dashboard.sortedDeals. apply arraySort_keeps_order.
  intros x y _ _. reflexivity.
Qed.

(** C4 (as amended).  When no two records of the list tie under the sort
    key and the ascending comparison is transitive on the list, sorting
    descending yields exactly the reverse of sorting ascending. *)
Theorem descending_reverses_ascending_without_ties
    (localTZA : Z -> Z) (k : string) (deals : list JS.record) :
  Properties.noTies
    (Properties.sortsAfter localTZA
       {| Dashboard.key := k; Dashboard.direction := Dashboard.asc |})
    deals = true ->
  Properties.transitiveOn
    (Properties.sortsAfter localTZA
       {| Dashboard.key := k; Dashboard.direction := Dashboard.asc |})
    deals = true ->
  Dashboard.sortedDeals localTZA
    {| Dashboard.key := k; Dashboard.direction := Dashboard.desc |} deals
  = rev (Dashboard.sortedDeals localTZA
           {| Dashboard.key := k; Dashboard.direction := Dashboard.asc |}
           deals).
Proof.
  intros Hties Htrans.
  set (up := {| Dashboard.key := k; Dashboard.direction := Dashboard.asc |})
    in *.
  set (down := {| Dashboard.key := k;
                  Dashboard.direction := Dashboard.desc |}).
  pose proof (transitiveOn_spec _ _ Htrans) as Ht. cbv beta in Ht.
  fold (Properties.sortsAfter localTZA up) in Ht.
  unfold Dashboard.sortedDeals.
  apply (sorted_perm_unique
           (fun a b => Properties.sortsAfter localTZA up a b = true)).
  - intros a b. apply sortsAfter_asym.
  - rewrite <- Permutation_rev, !arraySort_perm. reflexivity.
  - apply (StronglySorted_weaken
             (fun a b => Properties.sortsAfter localTZA down b a = true)).
    { intros a b. unfold down. now rewrite sortsAfter_desc. }
    apply arraySort_sorted.
    + intros a b c Ha Hb Hc.
      change (Properties.sortsAfter localTZA down a b = true ->
              Properties.sortsAfter localTZA down b c = true ->
              Properties.sortsAfter localTZA down a c = true).
      unfold down. rewrite !sortsAfter_desc. intros Hab Hbc.
      now apply (Ht c b a).
    + apply (noTies_converse (Properties.sortsAfter localTZA up));
        [| exact Hties].
      intros x y. apply sortsAfter_desc.
  - apply StronglySorted_rev.
    apply (arraySort_sorted (Dashboard.compareDeals localTZA up));
      [exact Ht | exact Hties].
Qed.

Lemma descending_reverses_ascending_without_ties_witness :
  Fixtures.names
    (Dashboard.sortedDeals Fixtures.utc (Fixtures.byRevenue Dashboard.desc)
       [Fixtures.dealLarge; Fixtures.dealSmall; Fixtures.dealMedium])
  = [JS.VStr "Large"; JS.VStr "Medium"; JS.VStr "Small"].
Proof.
  unfold Fixtures.byRevenue.
  rewrite (descending_reverses_ascending_without_ties Fixtures.utc "Revenue"
             [Fixtures.dealLarge; Fixtures.dealSmall; Fixtures.dealMedium]);
    reflexivity.
Defined.

(** Transitivity is a real condition: the comparator mixes three
    orderings (dates, numbers, text), and here it puts Early before Late
    (as dates), Late before Serial and Serial before Early (as the numbers
    112025, 115000 and 122024), with no tie. *)
Lemma comparison_can_cycle :
  Properties.noTies
    (Properties.sortsAfter Fixtures.utc Fixtures.byMarketDate)
    [Fixtures.dealEarly; Fixtures.dealLate; Fixtures.dealSerial] = true
  /\ Properties.transitiveOn
       (Properties.sortsAfter Fixtures.utc Fixtures.byMarketDate)
       [Fixtures.dealEarly; Fixtures.dealLate; Fixtures.dealSerial] = false
  /\ Properties.sortsAfter Fixtures.utc Fixtures.byMarketDate
       Fixtures.dealLate Fixtures.dealEarly = true
  /\ Properties.sortsAfter Fixtures.utc Fixtures.byMarketDate
       Fixtures.dealSerial Fixtures.dealLate = true
  /\ Properties.sortsAfter Fixtures.utc Fixtures.byMarketDate
       Fixtures.dealEarly Fixtures.dealSerial = true.
Proof. repeat split; vm_compute; reflexivity. Qed.

(** C4 as stated fails: two deals with the same revenue keep their
    original order in both directions, so the descending result is not the
    reverse of the ascending one. *)
Lemma tied_deals_are_not_reversed :
  Fixtures.names
    (Dashboard.sortedDeals Fixtures.utc (Fixtures.byRevenue Dashboard.asc)
       [Fixtures.dealTwin1; Fixtures.dealTwin2])
  = [JS.VStr "Twin 1"; JS.VStr "Twin 2"]
  /\ Fixtures.names
       (Dashboard.sortedDeals Fixtures.utc (Fixtures.byRevenue Dashboard.desc)
          [Fixtures.dealTwin1; Fixtures.dealTwin2])
     = [JS.VStr "Twin 1"; JS.VStr "Twin 2"]
  /\ Dashboard.sortedDeals Fixtures.utc (Fixtures.byRevenue Dashboard.desc)
       [Fixtures.dealTwin1; Fixtures.dealTwin2]
     <> rev (Dashboard.sortedDeals Fixtures.utc
               (Fixtures.byRevenue Dashboard.asc)
               [Fixtures.dealTwin1; Fixtures.dealTwin2]).
Proof.
  split; [reflexivity |]. split; [reflexivity |].
  intros H. apply (f_equal Fixtures.names) in H.
  vm_compute in H. discriminate.
Qed.

(* ===================================================================== *)
(** * Aggregation                                                         *)
(* ===================================================================== *)

(** ** Summary statistics *)

Section SummaryFacts.

Import JS Dashboard.

Lemma orElse_zeroFilled (field : string) (deal : record) :
  orElse (get (Properties.zeroFilled field deal) field) (VNum 0)
  = orElse (get deal field) (VNum 0).
Proof.
  unfold Properties.zeroFilled.
  destruct (truthy (get deal field)) eqn:E; [reflexivity |].
  unfold orElse at 2. rewrite E.
  unfold get. now rewrite lookup_insert_eq.
Qed.

Lemma fold_zeroFilled (field : string) (deals : list record) (acc : JS.value) :
  fold_left (fun sum deal => add sum (orElse (get deal field) (VNum 0)))
            (map (Properties.zeroFilled field) deals) acc
  = fold_left (fun sum deal => add sum (orElse (get deal field) (VNum 0)))
              deals acc.
Proof.
  revert acc. induction deals as [| d r IH]; intros acc; simpl;
    [reflexivity |].
  now rewrite orElse_zeroFilled, IH.
Qed.

(** Filling the missing cells with 0 leaves the total unchanged. *)
Lemma total_zeroFilled (field : string) (deals : list record) :
  total field (map (Properties.zeroFilled field) deals) = total field deals.
Proof. apply fold_zeroFilled. Qed.






End SummaryFacts.




(** ** Chart data *)

Section ChartFacts.

Import JS Dashboard.

Lemma not_inherited_not_proto (k : string) :
  inherited k = false -> String.eqb k "__proto__" = false.
Proof.
  intros H. destruct (String.eqb k "__proto__") eqn:E; [| reflexivity].
  apply String.eqb_eq in E. subst k. discriminate.
Qed.






Lemma filter_split_perm {A : Type} (f : A -> bool) (l : list A) :
  Permutation (List.filter f l ++ List.filter (fun x => negb (f x)) l) l.
Proof.
  induction l as [| x r IH]; simpl; [reflexivity |].
  destruct (f x); simpl.
  - now apply perm_skip.
  - rewrite <- Permutation_middle. now apply perm_skip.
Qed.

Lemma entries_perm (c : counts) : Permutation (entries c) c.
Proof.
  unfold entries. rewrite arraySort_perm. apply filter_split_perm.
Qed.


Lemma chartData_perm (field : string) (d : record) (ds : list record) :
  Permutation
    (chartData field (d :: ds))
    (map (fun e => {| name := fst e;
                      value := snd e;
                      percentage := percentOf (snd e) (length (d :: ds)) |})
         (countBy field (d :: ds))).
Proof.
  unfold chartData. rewrite arraySort_perm.
  apply Permutation_map, entries_perm.
Qed.


End ChartFacts.



(** The condition on the grouped values is a real one: the [counts]
    object inherits a member called [constructor], so a record whose
    vertical is that word is counted as text, not as 1, and its percentage
    is [NaN]. *)
Lemma inherited_name_is_not_counted :
  Properties.plainKeys "Primary Supply Vertical" [Fixtures.dealConstructor]
  = false
  /\ Dashboard.verticalChartData [Fixtures.dealConstructor]
     = [{| Dashboard.name := "constructor";
           Dashboard.value := Dashboard.Junk;
           Dashboard.percentage := PrimFloat.nan |}].
Proof. split; vm_compute; reflexivity. Qed.


(* ===================================================================== *)
(** * The predicates inside the whole filter, and the scenarios of the
      specification                                                       *)
(* ===================================================================== *)

Section WholeFilter.

Import JS Dashboard.

Variable localTZA : Z -> Z.

(** A record outside any of the three ranges is dropped by the filter. *)
Lemma range_filters_drop (f : filters) (deal : record) :
  outOfRange (get deal "Revenue") (revenueRange f) = true
  \/ outOfRange (get deal "EBITDA") (ebitdaRange f) = true
  \/ outOfRange (get deal "Total Pursuits") (pursuitsRange f) = true ->
  dealPasses localTZA f deal = Some false.
Proof. apply out_of_range_drops. Qed.

(** A record that the broker, flag, status or date predicate excludes is
    not kept. *)
Lemma excluded_deals_drop (f : filters) (deal : record) :
  brokerExcluded f deal = true
  \/ flagsExcluded f deal = true
  \/ statusExcluded f deal = Some true
  \/ dateExcluded localTZA f deal = true ->
  dealPasses localTZA f deal <> Some true.
Proof.
  intros H Hp. apply dealPasses_true_iff in Hp. intuition congruence.
Qed.

(** The filter keeps a sublist of its input, in order. *)
Lemma filteredDeals_keeps_only_input (f : filters)
    (deals shown : list record) (deal : record) :
  filteredDeals localTZA f deals = Some shown ->
  In deal shown ->
  In deal deals /\ dealPasses localTZA f deal = Some true.
Proof.
  unfold filteredDeals. intros H Hin.
  rewrite (arrayFilter_Some _ _ _ H) in Hin. apply filter_In in Hin.
  destruct Hin as [Hin Hp]. split; [exact Hin |].
  now destruct (dealPasses localTZA f deal) as [[|] |].
Qed.

(** Records that tie pairwise keep their order, whatever the direction. *)
Lemma tied_deals_keep_their_order (cfg : sortConfig) (deals : list record) :
  (forall a b, In a deals -> In b deals ->
               Properties.sortsAfter localTZA cfg a b = false) ->
  sortedDeals localTZA cfg deals = deals.
Proof. intros H. unfold sortedDeals. now apply arraySort_keeps_order. Qed.

End WholeFilter.

(** In every time zone whose offset from UTC is at most a day the record
    dated ["13/40/2024"] is excluded by the range 1 to 10 January 2024. *)
Lemma month_13_day_40_is_excluded_in_every_zone (offset : Z) :
  Z.abs offset <= JSDate.msPerDay ->
  Dashboard.dateExcluded (fun _ => offset)
    (Fixtures.withDateRange "2024-01-01" "2024-01-10") Fixtures.dealMonth13
  = true.
Proof.
  intros H. unfold JSDate.msPerDay in H.
  assert (Hd : JSDate.fromParts (fun _ => offset) "13" "40" "2024"
               = JSDate.TimeClip (1739059200000 - offset)) by reflexivity.
  assert (Ht : JSDate.TimeClip (1739059200000 - offset)
               = Some (1739059200000 - offset)).
  { unfold JSDate.TimeClip.
    destruct (Z.leb_spec (Z.abs (1739059200000 - offset)) 8640000000000000);
      [reflexivity | lia]. }
  change (Dashboard.dateExcluded (fun _ => offset)
            (Fixtures.withDateRange "2024-01-01" "2024-01-10")
            Fixtures.dealMonth13)
    with (match JSDate.fromParts (fun _ => offset) "13" "40" "2024" with
          | Some t =>
              JSDate.before (Some t) (Some 1704067200000)
              || JSDate.before (Some 1704844800000) (Some t)
          | None => false
          end).
  rewrite Hd, Ht. simpl.
  apply orb_true_iff. right. apply Z.ltb_lt. lia.
Qed.

(** Scenario A: of two records with revenue 1,000,000 and 3,000,000 only
    the second passes the range 2,000,000 to 5,000,000. *)
Example scenario_A :
  Dashboard.filteredDeals Fixtures.utc
    (Fixtures.withRevenueRange 2000000 5000000)
    [Fixtures.dealSmall; Fixtures.dealLarge]
  = Some [Fixtures.dealLarge].
Proof. vm_compute. reflexivity. Qed.

(** Scenario E: six Retail and four Industrial records group into Retail
    at 60% and Industrial at 40%, the larger group first. *)
Example scenario_E :
  Dashboard.verticalChartData
    [Fixtures.dealIndustrial; Fixtures.dealRetail; Fixtures.dealRetail;
     Fixtures.dealIndustrial; Fixtures.dealRetail; Fixtures.dealRetail;
     Fixtures.dealIndustrial; Fixtures.dealRetail; Fixtures.dealRetail;
     Fixtures.dealIndustrial]
  = [{| Dashboard.name := "Retail";
        Dashboard.value := Dashboard.Tally 6;
        Dashboard.percentage := 60 |};
     {| Dashboard.name := "Industrial";
        Dashboard.value := Dashboard.Tally 4;
        Dashboard.percentage := 40 |}].
Proof. vm_compute. reflexivity. Qed.

(* ===================================================================== *)
(** * More facts about numbers and values                                 *)
(* ===================================================================== *)

Module OrderFacts.

Import JS.

Lemma SFltb_trans (a b c : spec_float) :
  SFltb a b = true -> SFltb b c = true -> SFltb a c = true.
Proof.
  unfold SFltb, SFcompare.
  destruct a as [sa | sa | | sa ma ea], b as [sb | sb | | sb mb eb],
           c as [sc | sc | | sc mc ec];
    try discriminate;
    try (destruct sa; discriminate);
    try (destruct sb; discriminate);
    try (destruct sa, sb; discriminate);
    try (destruct sa, sb, sc; (discriminate || reflexivity)).
  all: try (destruct sa, sb, sc; try discriminate; try reflexivity).
  all: change (Pos.compare_cont Eq ma mb) with (Pos.compare ma mb);
       change (Pos.compare_cont Eq mb mc) with (Pos.compare mb mc);
       change (Pos.compare_cont Eq ma mc) with (Pos.compare ma mc).
  all: destruct (Z.compare_spec ea eb), (Z.compare_spec eb ec),
         (Z.compare_spec ea ec); try discriminate; try reflexivity;
       try lia.
  all: destruct (Pos.compare_spec ma mb), (Pos.compare_spec mb mc),
         (Pos.compare_spec ma mc); simpl; try discriminate; try reflexivity;
       try lia.
Qed.

(** [<] on numbers is transitive and irreflexive. *)
Lemma ltb_trans (x y z : float) :
  PrimFloat.ltb x y = true -> PrimFloat.ltb y z = true ->
  PrimFloat.ltb x z = true.
Proof. rewrite !FloatAxioms.ltb_spec. apply SFltb_trans. Qed.

Lemma ltb_irrefl (x : float) : PrimFloat.ltb x x = false.
Proof.
  destruct (PrimFloat.ltb x x) eqn:E; [| reflexivity].
  now rewrite (NumberFacts.ltb_asym x x E) in E.
Qed.

(** The two zeros compare alike. *)
Lemma ltb_zero_like_r (x y : float) (s : bool) :
  Prim2SF x = S754_zero s -> PrimFloat.ltb y x = PrimFloat.ltb y 0.
Proof.
  intros H. rewrite !FloatAxioms.ltb_spec, H, NumberFacts.Prim2SF_zero.
  unfold SFltb. now destruct (Prim2SF y) as [sy | sy | | sy my ey], s.
Qed.

Lemma ltb_zero_like_l (x y : float) (s : bool) :
  Prim2SF x = S754_zero s -> PrimFloat.ltb x y = PrimFloat.ltb 0 y.
Proof.
  intros H. rewrite !FloatAxioms.ltb_spec, H, NumberFacts.Prim2SF_zero.
  unfold SFltb. now destruct (Prim2SF y) as [sy | sy | | sy my ey], s.
Qed.

Lemma eqb_zero (x : float) :
  PrimFloat.eqb x 0 = true -> exists s, Prim2SF x = S754_zero s.
Proof.
  rewrite FloatAxioms.eqb_spec, NumberFacts.Prim2SF_zero. unfold SFeqb.
  destruct (Prim2SF x) as [s | s | | s m e]; simpl;
    try discriminate; try (destruct s; discriminate).
  intros _. now exists s.
Qed.

(** Numbers that are [==] are both zero or both not. *)
Lemma eqb_same_zero (x y : float) :
  PrimFloat.eqb x y = true -> PrimFloat.eqb x 0 = PrimFloat.eqb y 0.
Proof.
  rewrite !FloatAxioms.eqb_spec, NumberFacts.Prim2SF_zero. unfold SFeqb.
  destruct (Prim2SF x) as [sx | sx | | sx mx ex],
           (Prim2SF y) as [sy | sy | | sy my ey]; simpl;
    try discriminate; try reflexivity;
    try (destruct sx; discriminate);
    try (destruct sy; discriminate);
    try (destruct sx, sy; discriminate || reflexivity).
Qed.

Lemma eqb_not_nan (x y : float) :
  PrimFloat.eqb x y = true -> isNaN x = false /\ isNaN y = false.
Proof.
  intros H.
  split; apply not_true_iff_false; intros Hn;
    apply NumberFacts.isNaN_spec in Hn;
    rewrite FloatAxioms.eqb_spec, Hn in H; unfold SFeqb in H;
    [| destruct (Prim2SF x)]; discriminate.
Qed.

Lemma sameValueZero_refl (v : value) : sameValueZero v v = true.
Proof.
  destruct v as [| | b | n | s]; simpl; try reflexivity.
  - now destruct b.
  - unfold isNaN. now destruct (PrimFloat.eqb n n).
  - apply String.eqb_refl.
Qed.

Lemma strictEq_sameValueZero (a b : value) :
  strictEq a b = true -> sameValueZero a b = true.
Proof.
  destruct a, b; simpl; try congruence. intros ->. reflexivity.
Qed.

(** Values that [includes] identifies are both truthy or both falsy. *)
Lemma sameValueZero_truthy (a b : value) :
  sameValueZero a b = true -> truthy a = truthy b.
Proof.
  destruct a as [| | x | x | s], b as [| | y | y | t]; simpl;
    try discriminate; try reflexivity.
  - intros H. now apply Bool.eqb_prop in H.
  - intros H. apply orb_true_iff in H. destruct H as [H | H].
    + destruct (eqb_not_nan x y H) as [-> ->].
      now rewrite (eqb_same_zero x y H).
    + apply andb_true_iff in H. destruct H as [-> ->].
      now rewrite !orb_true_r.
  - intros H. apply String.eqb_eq in H. now subst.
Qed.

(** [Math.max] is never below one of its arguments. *)
Lemma maxStep_dominates (h x : float) :
  PrimFloat.ltb (maxStep h x) x = false
  /\ forall y, PrimFloat.ltb h y = false ->
               PrimFloat.ltb (maxStep h x) y = false.
Proof.
  unfold maxStep, isPosZero, isNegZero.
  destruct (Prim2SF x) as [[|] | sx | | sx mx ex] eqn:Ex;
    destruct (Prim2SF h) as [[|] | sh | | sh mh eh] eqn:Eh; cbv iota;
    cbn [andb];
    try (destruct (PrimFloat.ltb h x) eqn:E;
         [ split; [apply ltb_irrefl |];
           intros y Hy; apply not_true_iff_false; intros Hxy;
           rewrite (ltb_trans h x y E Hxy) in Hy; discriminate
         | split; [exact E | auto] ]).
  split; [apply ltb_irrefl |].
  intros y Hy. rewrite (ltb_zero_like_l x y false Ex).
  now rewrite <- (ltb_zero_like_l h y true Eh).
Qed.

Lemma fold_maxStep_dominates (xs : list float) (h : float) :
  (forall y, PrimFloat.ltb h y = false ->
             PrimFloat.ltb (fold_left maxStep xs h) y = false)
  /\ forall x, In x xs -> PrimFloat.ltb (fold_left maxStep xs h) x = false.
Proof.
  revert h. induction xs as [| a r IH]; intros h; simpl.
  - split; [auto | contradiction].
  - destruct (IH (maxStep h a)) as [IH1 IH2].
    destruct (maxStep_dominates h a) as [Ha Hh]. split.
    + intros y Hy. apply IH1. now apply Hh.
    + intros x [<- | Hx]; [now apply IH1 | now apply IH2].
Qed.

Lemma mathMax_dominates (xs : list float) (x : float) :
  In x xs -> PrimFloat.ltb (mathMax xs) x = false.
Proof.
  intros Hx. unfold mathMax. destruct (existsb isNaN xs).
  - now apply NumberFacts.ltb_nan_l.
  - now apply fold_maxStep_dominates.
Qed.

(** A falsy cell reads as [NaN] or as a zero. *)
Lemma falsy_number (v : value) :
  truthy v = false ->
  isNaN (ToNumber v) = true \/ exists s, Prim2SF (ToNumber v) = S754_zero s.
Proof.
  destruct v as [| | b | n | s]; simpl.
  - now left.
  - right. now exists false.
  - destruct b; [discriminate |]. right. now exists false.
  - rewrite negb_false_iff, orb_true_iff. intros [H | H]; [right | now left].
    now apply eqb_zero.
  - rewrite negb_false_iff, String.eqb_eq. intros ->. right. now exists false.
Qed.

End OrderFacts.

(* ===================================================================== *)
(** * Loading data: range bounds and filter options                       *)
(* ===================================================================== *)

(** X1.  The upper bound a range is given when data arrives hides no record of
    that data: with the range [lo, maxField], a record is outside the
    range exactly when its cell reads below [lo]. *)
Theorem loaded_upper_bound_hides_nothing
    (field : string) (dealsData : list JS.record) (lo : float)
    (deal : JS.record) :
  In deal dealsData ->
  Dashboard.outOfRange (JS.get deal field)
                       (Some (lo, Dashboard.maxField field dealsData))
  = PrimFloat.ltb (JS.ToNumber (JS.get deal field)) lo.
Proof.
  intros Hin. rewrite outOfRange_numeric.
  assert (Hmax : PrimFloat.ltb (Dashboard.maxField field dealsData)
                   (JS.ToNumber (JS.orElse (JS.get deal field) (JS.VNum 0)))
                 = false).
  { apply OrderFacts.mathMax_dominates.
    apply (in_map (fun d => JS.ToNumber (JS.orElse (JS.get d field) (JS.VNum 0)))).
    exact Hin. }
  unfold JS.orElse in Hmax.
  destruct (JS.truthy (JS.get deal field)) eqn:Et.
  - now rewrite Hmax, orb_false_r.
  - destruct (OrderFacts.falsy_number _ Et) as [Hn | [s Hs]].
    + now rewrite (NumberFacts.ltb_nan_r _ _ Hn), orb_false_r.
    + rewrite (OrderFacts.ltb_zero_like_r _ _ s Hs). simpl in Hmax.
      now rewrite Hmax, orb_false_r.
Qed.

Lemma loaded_upper_bound_hides_nothing_witness :
  Dashboard.outOfRange (JS.get Fixtures.dealLarge "Revenue")
    (Some (0%float,
           Dashboard.maxField "Revenue"
             [Fixtures.dealSmall; Fixtures.dealLarge; Fixtures.dealMedium]))
  = false.
Proof.
  rewrite (loaded_upper_bound_hides_nothing "Revenue"
             [Fixtures.dealSmall; Fixtures.dealLarge; Fixtures.dealMedium]
             0%float Fixtures.dealLarge);
    [reflexivity | right; left; reflexivity].
Defined.

Section OptionFacts.

Import JS.

Lemma eqb_negZero_l (x y : float) :
  isNegZero x = true -> PrimFloat.eqb x y = PrimFloat.eqb 0 y.
Proof.
  unfold isNegZero. intros H. rewrite !FloatAxioms.eqb_spec.
  change (Prim2SF 0) with (S754_zero false).
  destruct (Prim2SF x) as [[|] | | |]; try discriminate.
  now destruct (Prim2SF y).
Qed.

Lemma eqb_negZero_r (x y : float) :
  isNegZero x = true -> PrimFloat.eqb y x = PrimFloat.eqb y 0.
Proof.
  unfold isNegZero. intros H. rewrite !FloatAxioms.eqb_spec.
  change (Prim2SF 0) with (S754_zero false).
  destruct (Prim2SF x) as [[|] | | |]; try discriminate.
  now destruct (Prim2SF y).
Qed.

Lemma isNaN_negZero (x : float) : isNegZero x = true -> isNaN x = false.
Proof.
  intros H. unfold isNaN.
  now rewrite (eqb_negZero_l x x H), (eqb_negZero_r x 0 H).
Qed.

Lemma sameValueZero_setEntry_l (a b : JS.value) :
  sameValueZero (setEntry a) b = sameValueZero a b.
Proof.
  destruct a as [| | c | x | t]; try reflexivity. simpl.
  destruct (isNegZero x) eqn:E; [| reflexivity].
  destruct b as [| | c | y | t]; try reflexivity. simpl.
  now rewrite (eqb_negZero_l x y E), (isNaN_negZero x E).
Qed.

Lemma sameValueZero_setEntry_r (a b : JS.value) :
  sameValueZero a (setEntry b) = sameValueZero a b.
Proof.
  destruct b as [| | c | y | t]; try reflexivity. simpl.
  destruct (isNegZero y) eqn:E; [| reflexivity].
  destruct a as [| | c | x | t]; try reflexivity. simpl.
  now rewrite (eqb_negZero_r y x E), (isNaN_negZero y E), !andb_false_r.
Qed.

Lemma setEntry_truthy (v : JS.value) :
  truthy (setEntry v) = true -> setEntry v = v.
Proof.
  destruct v as [| | c | x | t]; try reflexivity. simpl.
  destruct (isNegZero x); [discriminate | reflexivity].
Qed.

Lemma distinctFrom_subset (seen l : list JS.value) (v : JS.value) :
  In v (distinctFrom seen l) -> exists w, In w l /\ v = setEntry w.
Proof.
  revert seen. induction l as [| a r IH]; intros seen; simpl; [tauto |].
  destruct (arrayIncludes seen a); simpl.
  - intros H. destruct (IH seen H) as (w & Hw & E). exists w. tauto.
  - intros [H | H].
    + exists a. split; [now left | now symmetry].
    + destruct (IH _ H) as (w & Hw & E). exists w. tauto.
Qed.

Lemma distinctFrom_covers (seen l : list JS.value) (v : JS.value) :
  In v l ->
  arrayIncludes seen v = true \/ arrayIncludes (distinctFrom seen l) v = true.
Proof.
  revert seen. induction l as [| a r IH]; intros seen; simpl; [tauto |].
  intros [-> | Hv].
  - destruct (arrayIncludes seen v) eqn:E; [now left | right].
    simpl. now rewrite sameValueZero_setEntry_l, OrderFacts.sameValueZero_refl.
  - destruct (arrayIncludes seen a) eqn:E.
    + now apply IH.
    + destruct (IH (setEntry a :: seen) Hv) as [H | H].
      * simpl in H. apply orb_true_iff in H. destruct H as [H | H].
        -- right. simpl. now rewrite H.
        -- now left.
      * right. simpl. now rewrite H, orb_true_r.
Qed.

Lemma distinctFrom_apart (seen l : list JS.value) :
  ForallOrdPairs (fun a b => sameValueZero a b = false) (distinctFrom seen l)
  /\ forall s o, In s seen -> In o (distinctFrom seen l) ->
                 sameValueZero s o = false.
Proof.
  revert seen. induction l as [| a r IH]; intros seen; simpl.
  - split; [constructor | contradiction].
  - destruct (arrayIncludes seen a) eqn:E; [apply IH |].
    destruct (IH (setEntry a :: seen)) as [IH1 IH2]. split.
    + constructor; [| exact IH1].
      apply List.Forall_forall. intros o Ho. apply IH2; [now left | exact Ho].
    + intros s o Hs [<- | Ho].
      * rewrite sameValueZero_setEntry_r.
        unfold arrayIncludes in E.
        apply not_true_iff_false. intros Hso.
        apply not_true_iff_false in E. apply E.
        apply existsb_exists. now exists s.
      * apply IH2; [now right | exact Ho].
Qed.

Lemma filter_apart {A : Type} (R : A -> A -> Prop) (f : A -> bool)
    (l : list A) :
  ForallOrdPairs R l -> ForallOrdPairs R (List.filter f l).
Proof.
  induction 1 as [| a l Ha Hl IH]; simpl; [constructor |].
  destruct (f a); [| exact IH].
  constructor; [| exact IH].
  apply List.Forall_forall. intros b Hb. apply filter_In in Hb.
  rewrite List.Forall_forall in Ha. now apply Ha.
Qed.

Lemma optionsOf_truthy (cellOf : JS.record -> JS.value)
    (dealsData : list JS.record) (o : JS.value) :
  In o (Dashboard.optionsOf cellOf dealsData) -> JS.truthy o = true.
Proof.
  unfold Dashboard.optionsOf. intros Ho. now apply filter_In in Ho.
Qed.

Lemma optionsOf_covers (cellOf : JS.record -> JS.value)
    (dealsData : list JS.record) (d : JS.record) :
  In d dealsData -> JS.truthy (cellOf d) = true ->
  JS.arrayIncludes (Dashboard.optionsOf cellOf dealsData) (cellOf d) = true.
Proof.
  intros Hd Ht. unfold Dashboard.optionsOf, distinct.
  destruct (distinctFrom_covers [] (map cellOf dealsData) (cellOf d)
              (in_map cellOf _ _ Hd)) as [H | H]; [discriminate |].
  unfold JS.arrayIncludes in *. apply existsb_exists in H.
  destruct H as (o & Ho & Hso). apply existsb_exists. exists o.
  split; [| exact Hso]. apply filter_In. split; [exact Ho |].
  now rewrite (OrderFacts.sameValueZero_truthy o (cellOf d) Hso).
Qed.

End OptionFacts.

(** X2.  The options offered for a column are the distinct non-empty cells of
    that column: every option is truthy and is the cell of some record,
    every truthy cell is matched by an option, and no two options are the
    same value. *)
Theorem options_are_the_distinct_cells
    (cellOf : JS.record -> JS.value) (dealsData : list JS.record) :
  Forall (fun o => JS.truthy o = true) (Dashboard.optionsOf cellOf dealsData)
  /\ (forall o, In o (Dashboard.optionsOf cellOf dealsData) ->
                exists d, In d dealsData /\ cellOf d = o)
  /\ (forall d, In d dealsData -> JS.truthy (cellOf d) = true ->
                JS.arrayIncludes (Dashboard.optionsOf cellOf dealsData)
                                 (cellOf d) = true)
  /\ ForallOrdPairs (fun a b => JS.sameValueZero a b = false)
                    (Dashboard.optionsOf cellOf dealsData).
Proof.
  unfold Dashboard.optionsOf, JS.distinct. repeat split.
  - apply List.Forall_forall. intros o Ho.
    now apply (optionsOf_truthy cellOf dealsData).
  - intros o Ho. pose proof (optionsOf_truthy cellOf dealsData o Ho) as Ht.
    apply filter_In in Ho. destruct Ho as [Ho _].
    apply distinctFrom_subset in Ho. destruct Ho as (w & Hw & ->).
    rewrite (setEntry_truthy w Ht). apply in_map_iff in Hw.
    destruct Hw as (d & Hd & Hin). now exists d.
  - intros d Hd Ht. now apply optionsOf_covers.
  - apply filter_apart. apply distinctFrom_apart.
Qed.

(** X3.  Once some options of a column are ticked, a record whose cell in that
    column is empty (falsy) is dropped: the options are all truthy and
    membership is tested with [includes]. *)
Theorem ticked_options_drop_empty_cells
    (field : string) (dealsData : list JS.record)
    (allowed : list JS.value) (v : JS.value) :
  allowed <> [] ->
  incl allowed (Dashboard.fieldOptions field dealsData) ->
  JS.truthy v = false ->
  Dashboard.notListed allowed v = true.
Proof.
  intros Hne Hincl Hv. unfold Dashboard.notListed.
  destruct allowed as [| a r]; [congruence |].
  apply negb_true_iff, not_true_iff_false. intros H.
  unfold JS.arrayIncludes in H. apply existsb_exists in H.
  destruct H as (o & Ho & Hso).
  apply OrderFacts.sameValueZero_truthy in Hso. rewrite Hv in Hso.
  pose proof (optionsOf_truthy _ dealsData o (Hincl o Ho)) as Ht.
  congruence.
Qed.

(** X4.  Ticking every option of a column keeps every loaded record whose cell
    in that column is filled. *)
Theorem every_option_ticked_keeps_filled_cells
    (field : string) (dealsData : list JS.record) (deal : JS.record) :
  In deal dealsData ->
  JS.truthy (JS.get deal field) = true ->
  Dashboard.notListed (Dashboard.fieldOptions field dealsData)
                      (JS.get deal field) = false.
Proof.
  intros Hin Ht. unfold Dashboard.notListed, Dashboard.fieldOptions.
  rewrite (optionsOf_covers (fun d => JS.get d field) dealsData deal Hin Ht).
  now destruct (Dashboard.optionsOf _ _).
Qed.

Lemma every_option_ticked_keeps_filled_cells_witness :
  Dashboard.notListed
    (Dashboard.fieldOptions "Primary Supply Vertical"
       [Fixtures.dealRetail; Fixtures.dealNoVertical; Fixtures.dealIndustrial])
    (JS.get Fixtures.dealIndustrial "Primary Supply Vertical") = false.
Proof.
  apply (every_option_ticked_keeps_filled_cells "Primary Supply Vertical"
           [Fixtures.dealRetail; Fixtures.dealNoVertical;
            Fixtures.dealIndustrial] Fixtures.dealIndustrial).
  - right; right; left; reflexivity.
  - reflexivity.
Defined.

Lemma ticked_options_drop_empty_cells_witness :
  Dashboard.notListed [JS.VStr "Retail"]
    (JS.get Fixtures.dealNoVertical "Primary Supply Vertical") = true.
Proof.
  apply (ticked_options_drop_empty_cells "Primary Supply Vertical"
           [Fixtures.dealRetail; Fixtures.dealNoVertical;
            Fixtures.dealIndustrial] [JS.VStr "Retail"]).
  - discriminate.
  - intros o [<- | []]. vm_compute. left. reflexivity.
  - reflexivity.
Defined.

(* ===================================================================== *)
(** * The deal-intent type filter                                         *)
(* ===================================================================== *)

Section TextFacts.

Import JS.

Lemma append_cons (b : ascii) (t post : string) :
  (String b t ++ post)%string = String b (t ++ post).
Proof. reflexivity. Qed.

Lemma append_nil (t : string) : ("" ++ t)%string = t.
Proof. reflexivity. Qed.

Lemma prefix_spec (t s : string) :
  String.prefix t s = true <-> exists post, s = (t ++ post)%string.
Proof.
  revert s. induction t as [| c t IH]; intros s; simpl.
  - split; [intros _; now exists s | intros _; now destruct s].
  - destruct s as [| b s]; simpl.
    + split; [discriminate | intros [post H]; discriminate].
    + destruct (ascii_dec c b) as [-> | Hne].
      * rewrite IH.
        split; intros [post H]; exists post; rewrite append_cons in *;
          congruence.
      * split; [discriminate |].
        intros [post H]; rewrite append_cons in H; congruence.
Qed.

(** [includes] finds exactly the contiguous substrings. *)
Lemma includes_spec (s t : string) :
  includes s t = true
  <-> exists pre post, s = (pre ++ t ++ post)%string.
Proof.
  induction s as [| c r IH]; cbn [includes].
  - destruct (String.prefix t "") eqn:E.
    + split; [intros _ | reflexivity].
      apply prefix_spec in E. destruct E as [post E].
      exists "", post. now rewrite append_nil.
    + split; [discriminate |]. intros (pre & post & H).
      destruct pre; [| discriminate]. rewrite append_nil in H.
      assert (String.prefix t "" = true) by (apply prefix_spec; now exists post).
      congruence.
  - destruct (String.prefix t (String c r)) eqn:E.
    + split; [intros _ | reflexivity].
      apply prefix_spec in E. destruct E as [post E].
      exists "", post. now rewrite append_nil.
    + rewrite IH. split.
      * intros (pre & post & ->). exists (String c pre), post.
        now rewrite append_cons.
      * intros (pre & post & H). destruct pre as [| c' pre].
        -- rewrite append_nil in H.
           assert (String.prefix t (String c r) = true)
             by (apply prefix_spec; now exists post).
           congruence.
        -- rewrite append_cons in H. injection H as _ ->.
           now exists pre, post.
Qed.

Lemma toLowerCase_nonempty (t : string) : toLowerCase t = "" -> t = "".
Proof. now destruct t. Qed.

Lemma append_empty (a b : string) : (a ++ b)%string = "" -> a = "" /\ b = "".
Proof. destruct a; [rewrite append_nil; tauto | discriminate]. Qed.

Lemma arraySome_total {A : Type} (p : A -> option bool) (l : list A) :
  (forall v, In v l -> p v <> None) ->
  arraySome p l
  = Some (existsb (fun v => match p v with
                            | Some true => true
                            | _ => false
                            end) l).
Proof.
  induction l as [| x r IH]; intros H; simpl; [reflexivity |].
  destruct (p x) as [[|] |] eqn:E.
  - reflexivity.
  - apply IH. intros v Hv. apply H. now right.
  - destruct (H x (or_introl eq_refl) E).
Qed.

Lemma typeMatches_text (deal : record) (t : string) :
  Dashboard.typeMatches deal (VStr t)
  = Some (includes
            (toLowerCase
               (ToString (orElse (get deal "Deal Intent") (VStr ""))))
            (toLowerCase t)).
Proof. reflexivity. Qed.

Lemma typeMatches_None (deal : record) (v : JS.value) :
  Dashboard.typeMatches deal v = None <-> Properties.isText v = false.
Proof.
  unfold Dashboard.typeMatches. destruct v; simpl; split; congruence.
Qed.

Lemma typeMatches_false (deal : record) (v : JS.value) :
  Dashboard.typeMatches deal v = Some false
  <-> exists t,
        v = VStr t
        /\ ~ exists pre post,
              toLowerCase
                (ToString (orElse (get deal "Deal Intent") (VStr "")))
              = (pre ++ toLowerCase t ++ post)%string.
Proof.
  destruct v as [| | b | n | t];
    try (split; [discriminate | intros (t' & H & _); discriminate]).
  rewrite typeMatches_text. split.
  - intros H. exists t. split; [reflexivity |]. intros Hin.
    apply includes_spec in Hin. congruence.
  - intros (t' & H & Hno). injection H as <-. f_equal.
    apply not_true_iff_false. intros Hin. apply Hno.
    now apply includes_spec.
Qed.

End TextFacts.

(** X5.  The type filter looks for each ticked type inside the record's Deal
    Intent text, ignoring case.  When every ticked type is text, a record
    passes exactly when no type is ticked or the lower-cased text contains
    a lower-cased ticked type as a contiguous piece, and is dropped
    otherwise; hence an empty type among the ticked ones lets every record
    pass, and a record without a Deal Intent is dropped by every other
    non-empty choice.  A ticked type that is not text raises a
    [TypeError] as soon as it is compared: the test raises exactly when
    such a value is ticked and no text ticked before it is contained in
    the record's text. *)
Theorem type_filter_looks_inside_the_text
    (f : Dashboard.filters) (deal : JS.record) :
  let text :=
    JS.toLowerCase
      (JS.ToString (JS.orElse (JS.get deal "Deal Intent") (JS.VStr ""))) in
  (forallb Properties.isText (Dashboard.dealIntentTypes f) = true ->
   (Dashboard.typeExcluded f deal = Some false
    <-> Dashboard.dealIntentTypes f = []
        \/ exists t pre post,
             In (JS.VStr t) (Dashboard.dealIntentTypes f)
             /\ text = (pre ++ JS.toLowerCase t ++ post)%string)
   /\ (Dashboard.typeExcluded f deal = Some true
       \/ Dashboard.typeExcluded f deal = Some false)
   /\ (In (JS.VStr "") (Dashboard.dealIntentTypes f) ->
       Dashboard.typeExcluded f deal = Some false)
   /\ (JS.truthy (JS.get deal "Deal Intent") = false ->
       Dashboard.dealIntentTypes f <> [] ->
       ~ In (JS.VStr "") (Dashboard.dealIntentTypes f) ->
       Dashboard.typeExcluded f deal = Some true))
  /\ (Dashboard.typeExcluded f deal = None
      <-> exists before v after,
            Dashboard.dealIntentTypes f = (before ++ v :: after)%list
            /\ Properties.isText v = false
            /\ forall u, In u before ->
                  exists t, u = JS.VStr t
                            /\ ~ exists pre post,
                                  text
                                  = (pre ++ JS.toLowerCase t ++ post)%string).
Proof.
  intros text. split.
  - intros Htext. rewrite List.forallb_forall in Htext.
    assert (Hval : Dashboard.dealIntentTypes f <> [] ->
              Dashboard.typeExcluded f deal
              = Some (negb (existsb
                              (fun v => match Dashboard.typeMatches deal v with
                                        | Some true => true
                                        | _ => false
                                        end)
                              (Dashboard.dealIntentTypes f)))).
    { intros Hne. unfold Dashboard.typeExcluded.
      destruct (Dashboard.dealIntentTypes f) as [| t0 ts] eqn:E;
        [congruence |].
      rewrite arraySome_total; [reflexivity |].
      intros v Hv Hnone. apply typeMatches_None in Hnone.
      rewrite (Htext v Hv) in Hnone. discriminate. }
    assert (Hmain : Dashboard.typeExcluded f deal = Some false
              <-> Dashboard.dealIntentTypes f = []
                  \/ exists t pre post,
                       In (JS.VStr t) (Dashboard.dealIntentTypes f)
                       /\ text = (pre ++ JS.toLowerCase t ++ post)%string).
    { destruct (Dashboard.dealIntentTypes f) as [| t0 ts] eqn:E.
      - unfold Dashboard.typeExcluded. rewrite E.
        split; [now left | reflexivity].
      - rewrite Hval by discriminate. split.
        + intros H. destruct (existsb _ (t0 :: ts)) eqn:Hq; [| discriminate].
          apply existsb_exists in Hq. destruct Hq as (v & Hv & Hm).
          right. specialize (Htext v Hv).
          destruct v as [| | b | n | t]; try discriminate.
          rewrite typeMatches_text in Hm. fold text in Hm.
          destruct (JS.includes text (JS.toLowerCase t)) eqn:Hi;
            [| discriminate].
          apply includes_spec in Hi. destruct Hi as (pre & post & Hi).
          now exists t, pre, post.
        + intros [H | (t & pre & post & Ht & Hinc)]; [discriminate |].
          f_equal. apply negb_false_iff. apply existsb_exists.
          exists (JS.VStr t). split; [exact Ht |].
          rewrite typeMatches_text. fold text.
          replace (JS.includes text (JS.toLowerCase t)) with true;
            [reflexivity |].
          symmetry. apply includes_spec. now exists pre, post. }
    assert (Hboth : Dashboard.typeExcluded f deal = Some true
                    \/ Dashboard.typeExcluded f deal = Some false).
    { destruct (Dashboard.dealIntentTypes f) as [| t0 ts] eqn:E.
      - right. unfold Dashboard.typeExcluded. now rewrite E.
      - rewrite Hval by discriminate. destruct (existsb _ _); simpl; tauto. }
    split; [exact Hmain |]. split; [exact Hboth |]. split.
    + intros Hin. apply Hmain. right. exists "", "", text.
      split; [exact Hin | reflexivity].
    + intros Hfalsy Hne Hno. destruct Hboth as [H | Hx]; [exact H |].
      exfalso. apply Hmain in Hx.
      destruct Hx as [Hx | (t & pre & post & Ht & Hinc)]; [contradiction |].
      subst text. unfold JS.orElse in Hinc. rewrite Hfalsy in Hinc.
      change (JS.toLowerCase (JS.ToString (JS.VStr ""))) with "" in Hinc.
      symmetry in Hinc. apply append_empty in Hinc. destruct Hinc as [_ Hinc].
      apply append_empty in Hinc. destruct Hinc as [Hinc _].
      apply toLowerCase_nonempty in Hinc. subst t. contradiction.
  - unfold Dashboard.typeExcluded.
    destruct (Dashboard.dealIntentTypes f) as [| t0 ts] eqn:E.
    + split; [discriminate |].
      intros (pre & v & post & H & _). now destruct pre.
    + rewrite <- E. clear E.
      assert (Hopt : forall o : option bool,
                option_map negb o = None <-> o = None)
        by (intros [b |]; simpl; split; congruence).
      rewrite Hopt, (arraySome_stops _ _ None) by discriminate.
      split; intros (pre & v & post & Hl & H1 & H2); exists pre, v, post.
      * split; [exact Hl |].
        split; [exact (proj1 (typeMatches_None deal v) H2) |].
        intros u Hu. rewrite List.Forall_forall in H1.
        exact (proj1 (typeMatches_false deal u) (H1 u Hu)).
      * split; [exact Hl |]. split.
        -- apply List.Forall_forall. intros u Hu.
           exact (proj2 (typeMatches_false deal u) (H2 u Hu)).
        -- exact (proj2 (typeMatches_None deal v) H1).
Qed.

Lemma type_filter_looks_inside_the_text_witness :
  Dashboard.typeExcluded (Fixtures.withTypeOptions [JS.VStr "Sell"])
                         Fixtures.dealSellSide = Some false
  /\ Dashboard.typeExcluded
       (Fixtures.withTypeOptions [JS.VStr "Sell"; JS.VBool true])
       Fixtures.dealCapitalRaise = None.
Proof.
  split.
  - apply (proj1 (proj1 (type_filter_looks_inside_the_text
                           (Fixtures.withTypeOptions [JS.VStr "Sell"])
                           Fixtures.dealSellSide) eq_refl)).
    right. exists "Sell", "", "-side".
    split; [left; reflexivity | reflexivity].
  - apply (proj2 (type_filter_looks_inside_the_text
                    (Fixtures.withTypeOptions [JS.VStr "Sell"; JS.VBool true])
                    Fixtures.dealCapitalRaise)).
    exists [JS.VStr "Sell"], (JS.VBool true), [].
    split; [reflexivity |]. split; [reflexivity |].
    intros u [<- | []]. exists "Sell". split; [reflexivity |].
    intros (pre & post & H).
    assert (Hi : JS.includes
                   (JS.toLowerCase
                      (JS.ToString
                         (JS.orElse (JS.get Fixtures.dealCapitalRaise
                                            "Deal Intent") (JS.VStr ""))))
                   (JS.toLowerCase "Sell") = true)
      by (apply includes_spec; now exists pre, post).
    vm_compute in Hi. discriminate.
Defined.

(* ===================================================================== *)
(** * The date range and the host's time zone                             *)
(* ===================================================================== *)

Section CalendarFacts.

Import JS.

Lemma daysFromCivil_add (y m d : Z) :
  JSDate.daysFromCivil y m 1 + d - 1 = JSDate.daysFromCivil y m d.
Proof. unfold JSDate.daysFromCivil. lia. Qed.

(** For a month of the calendar [MakeDay] carries nothing over. *)
Lemma MakeDay_calendar (y m d : Z) :
  1 <= m <= 12 -> JSDate.MakeDay y (m - 1) d = JSDate.daysFromCivil y m d.
Proof.
  intros Hm. unfold JSDate.MakeDay.
  replace ((m - 1) / 12) with 0 by (symmetry; apply Z.div_small; lia).
  rewrite (Z.mod_small (m - 1) 12) by lia.
  replace (y + 0) with y by lia. replace (m - 1 + 1) with m by lia.
  apply daysFromCivil_add.
Qed.

Lemma daysFromCivil_bound (y m d : Z) :
  100 <= y <= 9999 -> 1 <= m <= 12 -> 1 <= d <= 31 ->
  -700000 <= JSDate.daysFromCivil y m d <= 3000000.
Proof.
  intros Hy Hm Hd. unfold JSDate.daysFromCivil.
  destruct (m <=? 2) eqn:E1, (2 <? m) eqn:E2;
    Z.to_euclidean_division_equations; lia.
Qed.

(** The [Date] built from a calendar date of the years 100 to 9999 is its
    local midnight. *)
Lemma fromFields_calendar (localTZA : Z -> Z) (y m d : Z) :
  100 <= y <= 9999 -> 1 <= m <= 12 -> 1 <= d <= 31 ->
  Z.abs (localTZA (Properties.utcMidnight y m d)) <= JSDate.msPerDay ->
  JSDate.fromFields localTZA (Some y) (Some (m - 1)) (Some d)
  = Some (Properties.utcMidnight y m d
          - localTZA (Properties.utcMidnight y m d)).
Proof.
  intros Hy Hm Hd Hz. unfold JSDate.fromFields.
  replace ((0 <=? y) && (y <=? 99)) with false
    by (symmetry; apply andb_false_iff; right; apply Z.leb_gt; lia).
  rewrite MakeDay_calendar by exact Hm.
  unfold JSDate.UTC. fold (Properties.utcMidnight y m d).
  unfold JSDate.TimeClip.
  pose proof (daysFromCivil_bound y m d Hy Hm Hd) as Hb.
  replace (Z.abs _ <=? 8640000000000000) with true; [reflexivity |].
  symmetry. apply Z.leb_le.
  unfold Properties.utcMidnight, JSDate.msPerDay in *. lia.
Qed.

Lemma dateExcluded_readable (localTZA : Z -> Z) (f : Dashboard.filters)
    (deal : record) (s start stop : string) (y m d : Z) :
  orElse (get deal "Market Date") (get deal "Market Date (Date)") = VStr s ->
  Dashboard.dateRange f = Some (start, stop) ->
  Properties.readableDate s = Some (y, m, d) ->
  Dashboard.dateExcluded localTZA f deal
  = match JSDate.fromFields localTZA (Some y) (Some (m - 1)) (Some d) with
    | Some t =>
        Properties.outsideDates t (JSDate.parse start) (JSDate.parse stop)
    | None => false
    end.
Proof.
  intros Hs Hr. unfold Dashboard.dateExcluded, Properties.readableDate.
  rewrite Hs, Hr.
  destruct (truthy (VStr s)) eqn:Ht.
  - destruct (split "/"%char s) as [| p0 [| p1 [| p2 [| p3 r]]]];
      try discriminate.
    unfold JSDate.fromParts.
    destruct (parseInt p2) as [y' |], (parseInt p0) as [m' |],
             (parseInt p1) as [d' |]; simpl; intros E; try discriminate.
    injection E as <- <- <-. reflexivity.
  - simpl in Ht. apply negb_false_iff, String.eqb_eq in Ht. subst s.
    discriminate.
Qed.

End CalendarFacts.

(** X6.  A deal's date is read as midnight of that day in the host's time
    zone, the two ends of the range as midnight UTC.  For a calendar date
    of the years 100 to 9999 the record is excluded exactly when its local
    midnight lies outside the range; so a deal dated on the last day of the
    range is excluded on a host behind UTC, and a deal dated on the first
    day is excluded on a host ahead of UTC. *)
Theorem boundary_days_depend_on_the_time_zone
    (localTZA : Z -> Z) (f : Dashboard.filters) (deal : JS.record)
    (s start stop : string) (y m d : Z) :
  JS.orElse (JS.get deal "Market Date") (JS.get deal "Market Date (Date)")
  = JS.VStr s ->
  Dashboard.dateRange f = Some (start, stop) ->
  Properties.readableDate s = Some (y, m, d) ->
  100 <= y <= 9999 -> 1 <= m <= 12 -> 1 <= d <= 31 ->
  Z.abs (localTZA (Properties.utcMidnight y m d)) <= JSDate.msPerDay ->
  Dashboard.dateExcluded localTZA f deal
  = Properties.outsideDates
      (Properties.utcMidnight y m d - localTZA (Properties.utcMidnight y m d))
      (JSDate.parse start) (JSDate.parse stop)
  /\ (JSDate.parse stop = Some (Properties.utcMidnight y m d) ->
      localTZA (Properties.utcMidnight y m d) < 0 ->
      Dashboard.dateExcluded localTZA f deal = true)
  /\ (JSDate.parse start = Some (Properties.utcMidnight y m d) ->
      0 < localTZA (Properties.utcMidnight y m d) ->
      Dashboard.dateExcluded localTZA f deal = true).
Proof.
  intros Hs Hr Hd Hy Hm Hday Hz.
  rewrite (dateExcluded_readable localTZA f deal s start stop y m d Hs Hr Hd).
  rewrite (fromFields_calendar localTZA y m d Hy Hm Hday Hz).
  split; [reflexivity |]. unfold Properties.outsideDates. split.
  - intros -> Hneg. apply orb_true_iff. right. simpl. apply Z.ltb_lt. lia.
  - intros -> Hpos. apply orb_true_iff. left. simpl. apply Z.ltb_lt. lia.
Qed.

Lemma boundary_days_depend_on_the_time_zone_witness :
  Dashboard.dateExcluded Fixtures.fiveHoursBehind
    (Fixtures.withDateRange "2024-01-01" "2024-01-10") Fixtures.dealJan10
  = true.
Proof.
  apply (proj1 (proj2
           (boundary_days_depend_on_the_time_zone Fixtures.fiveHoursBehind
              (Fixtures.withDateRange "2024-01-01" "2024-01-10")
              Fixtures.dealJan10 "1/10/2024" "2024-01-01" "2024-01-10"
              2024 1 10 eq_refl eq_refl eq_refl
              ltac:(lia) ltac:(lia) ltac:(lia) ltac:(vm_compute; discriminate))));
    [reflexivity | reflexivity].
Defined.

(* ===================================================================== *)
(** * The sorted table                                                    *)
(* ===================================================================== *)

(** X7.  The filter produces no list exactly when its callback raises on
    some loaded record.  Otherwise the table shows exactly the records for
    which the callback returns [true], each as often as it was loaded:
    sorting only rearranges the filtered list. *)
Theorem table_shows_exactly_the_passing_deals
    (localTZA : Z -> Z) (f : Dashboard.filters) (cfg : Dashboard.sortConfig)
    (deals : list JS.record) :
  (Dashboard.filteredDeals localTZA f deals = None
   <-> exists deal,
         In deal deals /\ Dashboard.dealPasses localTZA f deal = None)
  /\ forall shown,
       Dashboard.filteredDeals localTZA f deals = Some shown ->
       Permutation
         (Dashboard.sortedDeals localTZA cfg shown)
         (List.filter (Properties.keeps localTZA f) deals)
       /\ forall deal,
            In deal (Dashboard.sortedDeals localTZA cfg shown)
            <-> In deal deals
                /\ Dashboard.dealPasses localTZA f deal = Some true.
Proof.
  split; [apply arrayFilter_None |]. intros shown Hshown.
  apply arrayFilter_Some in Hshown.
  assert (H : Permutation
                (Dashboard.sortedDeals localTZA cfg shown)
                (List.filter (Properties.keeps localTZA f) deals)).
  { subst shown. unfold Dashboard.sortedDeals. apply arraySort_perm. }
  split; [exact H |]. intros deal.
  assert (Hk : Properties.keeps localTZA f deal = true
               <-> Dashboard.dealPasses localTZA f deal = Some true).
  { unfold Properties.keeps.
    destruct (Dashboard.dealPasses localTZA f deal) as [[|] |];
      split; congruence. }
  rewrite <- Hk, <- filter_In. split.
  - apply Permutation_in. exact H.
  - apply Permutation_in. symmetry. exact H.
Qed.

Lemma table_shows_exactly_the_passing_deals_witness :
  Permutation
    (Dashboard.sortedDeals Fixtures.utc (Fixtures.byRevenue Dashboard.desc)
       [Fixtures.dealLarge])
    (List.filter
       (Properties.keeps Fixtures.utc
          (Fixtures.withRevenueRange 2000000 5000000))
       [Fixtures.dealSmall; Fixtures.dealLarge]).
Proof.
  apply (proj1 (proj2 (table_shows_exactly_the_passing_deals Fixtures.utc
                         (Fixtures.withRevenueRange 2000000 5000000)
                         (Fixtures.byRevenue Dashboard.desc)
                         [Fixtures.dealSmall; Fixtures.dealLarge])
                  [Fixtures.dealLarge]
                  ltac:(vm_compute; reflexivity))).
Defined.

Section WeakOrderSort.

Context {A : Type}.
Variable comparefn : A -> A -> float.

Local Abbreviation after := (Properties.sortsAfterBy comparefn).

Hypothesis after_asym :
  forall a b, after a b = true -> after b a = true -> False.

Lemma comparableOn_spec (l : list A) :
  Properties.comparableOn after l = true ->
  forall a b c, In a l -> In b l -> In c l ->
                after a c = true -> after a b = true \/ after b c = true.
Proof.
  unfold Properties.comparableOn. rewrite List.forallb_forall.
  intros H a b c Ha Hb Hc Hac.
  specialize (H a Ha). rewrite List.forallb_forall in H.
  specialize (H b Hb). rewrite List.forallb_forall in H.
  specialize (H c Hc). rewrite Hac in H. simpl in H.
  now apply orb_true_iff.
Qed.

Lemma insertSorted_ordered (x : A) (s : list A) :
  (forall a b c, In a (x :: s) -> In b (x :: s) -> In c (x :: s) ->
                 after a c = true -> after a b = true \/ after b c = true) ->
  StronglySorted (fun a b => after a b = false) s ->
  StronglySorted (fun a b => after a b = false)
                 (Dashboard.insertSorted comparefn x s).
Proof.
  intros Hcmp Hs. induction s as [| y r IH]; simpl.
  - constructor; constructor.
  - apply StronglySorted_inv in Hs. destruct Hs as [Hr Hy].
    rewrite List.Forall_forall in Hy.
    fold (after x y). destruct (after x y) eqn:E.
    + constructor.
      * apply IH; [| exact Hr].
        intros a b c Ha Hb Hc. apply Hcmp; simpl in *; tauto.
      * apply List.Forall_forall. intros z Hz.
        apply (Permutation_in _ (insertSorted_perm comparefn x r)) in Hz.
        destruct Hz as [<- | Hz]; [| now apply Hy].
        apply not_true_iff_false. intros Hyx. exact (after_asym x y E Hyx).
    + constructor; [constructor; [exact Hr | now apply List.Forall_forall] |].
      constructor; [exact E |].
      apply List.Forall_forall. intros z Hz.
      apply not_true_iff_false. intros Hxz.
      destruct (Hcmp x y z) as [H | H]; simpl; auto.
      * congruence.
      * rewrite (Hy z Hz) in H. discriminate.
Qed.

Lemma arraySort_ordered (l : list A) :
  Properties.comparableOn after l = true ->
  StronglySorted (fun a b => after a b = false)
                 (Dashboard.arraySort comparefn l).
Proof.
  intros Hc. pose proof (comparableOn_spec l Hc) as Hcmp. clear Hc.
  induction l as [| x r IH]; simpl; [constructor |].
  assert (Hin : forall y, In y (Dashboard.arraySort comparefn r) -> In y r).
  { intros y. apply Permutation_in, arraySort_perm. }
  assert (Hin' : forall y, In y (x :: Dashboard.arraySort comparefn r) ->
                           In y (x :: r)).
  { intros y [<- | Hy]; [now left | right; auto]. }
  apply insertSorted_ordered.
  - intros a b c Ha Hb Hc. apply Hcmp; auto.
  - apply IH. intros a b c Ha Hb Hc. apply Hcmp; now right.
Qed.

End WeakOrderSort.

Lemma sortsAfter_asym_any (localTZA : Z -> Z) (cfg : Dashboard.sortConfig)
    (a b : JS.record) :
  Properties.sortsAfter localTZA cfg a b = true ->
  Properties.sortsAfter localTZA cfg b a = true -> False.
Proof.
  destruct cfg as [k [|]].
  - apply sortsAfter_asym.
  - rewrite !sortsAfter_desc. intros H1 H2.
    exact (sortsAfter_asym localTZA k b a H1 H2).
Qed.

(** X8.  Whenever the comparison is consistent on the list (ties are
    transitive), the sorted table is in order, in either direction: no row
    is followed, anywhere below it, by a row the comparison puts before
    it.  Rows may tie. *)
Theorem sorted_table_is_in_order
    (localTZA : Z -> Z) (cfg : Dashboard.sortConfig)
    (deals : list JS.record) :
  Properties.comparableOn (Properties.sortsAfter localTZA cfg) deals = true ->
  StronglySorted
    (fun above below => Properties.sortsAfter localTZA cfg above below = false)
    (Dashboard.sortedDeals localTZA cfg deals).
Proof.
  intros H. unfold Dashboard.sortedDeals.
  apply (arraySort_ordered (Dashboard.compareDeals localTZA cfg)).
  - intros a b. apply sortsAfter_asym_any.
  - exact H.
Qed.

Lemma sorted_table_is_in_order_witness :
  StronglySorted
    (fun above below =>
       Properties.sortsAfter Fixtures.utc (Fixtures.byRevenue Dashboard.desc)
                             above below = false)
    (Dashboard.sortedDeals Fixtures.utc (Fixtures.byRevenue Dashboard.desc)
       [Fixtures.dealSmall; Fixtures.dealTwin1; Fixtures.dealLarge;
        Fixtures.dealTwin2]).
Proof.
  apply (sorted_table_is_in_order Fixtures.utc
           (Fixtures.byRevenue Dashboard.desc)
           [Fixtures.dealSmall; Fixtures.dealTwin1; Fixtures.dealLarge;
            Fixtures.dealTwin2]).
  vm_compute. reflexivity.
Defined.

(** X11.  A click on a column header sorts by that column: ascending when the
    table was sorted by another column (or by this one, descending), and
    each further click on the same header flips the direction. *)
Theorem header_clicks_alternate_direction
    (cfg : Dashboard.sortConfig) (k : string) :
  Dashboard.key (Dashboard.handleSort cfg k) = k
  /\ (Dashboard.key cfg <> k ->
      Dashboard.direction (Dashboard.handleSort cfg k) = Dashboard.asc)
  /\ Dashboard.handleSort (Dashboard.handleSort cfg k) k
     = {| Dashboard.key := k;
          Dashboard.direction :=
            Properties.flipped
              (Dashboard.direction (Dashboard.handleSort cfg k)) |}
  /\ Dashboard.handleSort
       (Dashboard.handleSort (Dashboard.handleSort cfg k) k) k
     = Dashboard.handleSort cfg k.
Proof.
  unfold Dashboard.handleSort. simpl. rewrite !String.eqb_refl. simpl.
  repeat split.
  - intros Hne. apply String.eqb_neq in Hne. now rewrite Hne.
  - now destruct (_ && _).
  - now destruct (_ && _).
Qed.

(* ===================================================================== *)
(** * Selecting rows                                                      *)
(* ===================================================================== *)

Section SelectionFacts.

Import JS Dashboard.

Lemma truthy_strictEq_refl (v : JS.value) :
  truthy v = true -> strictEq v v = true.
Proof.
  destruct v as [| | b | n | s]; simpl; try discriminate.
  - intros _. now destruct b.
  - unfold isNaN. intros H. apply negb_true_iff, orb_false_iff in H.
    destruct H as [_ H]. now apply negb_false_iff in H.
  - intros _. apply String.eqb_refl.
Qed.

Lemma filter_none_match {B : Type} (p : B -> bool) (l : list B) :
  existsb p l = false -> List.filter (fun x => negb (p x)) l = l.
Proof.
  induction l as [| x r IH]; simpl; [reflexivity |].
  intros H. apply orb_false_iff in H. destruct H as [Hx Hr].
  rewrite Hx. simpl. f_equal. now apply IH.
Qed.

Lemma isSelected_after_removal (prev : list record) (deal : record) :
  isSelected
    (List.filter (fun d => negb (strictEq (dealId d) (dealId deal))) prev)
    deal = false.
Proof.
  unfold isSelected. apply not_true_iff_false. intros H.
  apply existsb_exists in H. destruct H as (d & Hd & Hid).
  apply filter_In in Hd. destruct Hd as [_ Hd]. now rewrite Hid in Hd.
Qed.

Lemma toggle_flips_isSelected (prev : list record) (deal : record) :
  strictEq (dealId deal) (dealId deal) = true ->
  isSelected (toggleDealSelection prev deal) deal
  = negb (isSelected prev deal).
Proof.
  intros Hid. unfold toggleDealSelection.
  destruct (isSelected prev deal) eqn:E; simpl.
  - apply isSelected_after_removal.
  - unfold isSelected. rewrite existsb_app. simpl. rewrite Hid.
    now rewrite orb_true_r.
Qed.

Lemma toggle_keeps_distinct (prev : list record) (deal : record) :
  Properties.distinctIds prev ->
  Properties.distinctIds (toggleDealSelection prev deal).
Proof.
  unfold Properties.distinctIds, toggleDealSelection. intros H.
  destruct (isSelected prev deal) eqn:E.
  - now apply filter_apart.
  - unfold isSelected in E.
    assert (Hall : forall d, In d prev ->
                             strictEq (dealId d) (dealId deal) = false).
    { intros d Hd. apply not_true_iff_false. intros Hx.
      apply not_true_iff_false in E. apply E.
      apply existsb_exists. now exists d. }
    clear E. induction H as [| a l Ha Hl IH]; simpl.
    + constructor; constructor.
    + constructor.
      * apply List.Forall_app. split; [exact Ha |].
        constructor; [| constructor]. apply Hall. now left.
      * apply IH. intros d Hd. apply Hall. now right.
Qed.

Lemma selectionAfter_snoc (events : list selectionEvent)
    (e : selectionEvent) :
  selectionAfter (events ++ [e]) = selectionStep (selectionAfter events) e.
Proof. unfold selectionAfter. now rewrite fold_left_app. Qed.

Lemma toggle_members (prev : list record) (deal d : record) :
  In d (toggleDealSelection prev deal) -> In d prev \/ d = deal.
Proof.
  unfold toggleDealSelection. destruct (isSelected prev deal).
  - intros H. apply filter_In in H. tauto.
  - intros H. apply in_app_or in H. simpl in H. intuition.
Qed.

Lemma selectionAfter_members (events : list selectionEvent) (d : record) :
  In d (selectionAfter events) -> In (Toggled d) events.
Proof.
  induction events as [| e events IH] using rev_ind; [contradiction |].
  rewrite selectionAfter_snoc. intros H. apply in_or_app.
  destruct e as [deal |]; simpl in H; [| contradiction].
  apply toggle_members in H. destruct H as [H | ->].
  - left. now apply IH.
  - right. now left.
Qed.

Lemma selectionAfter_distinct (events : list selectionEvent) :
  Properties.distinctIds (selectionAfter events).
Proof.
  induction events as [| e events IH] using rev_ind.
  - constructor.
  - rewrite selectionAfter_snoc. destruct e as [deal |]; simpl.
    + now apply toggle_keeps_distinct.
    + constructor.
Qed.

End SelectionFacts.

(** X12.  Ticking a row's box selects the deal and ticking it again deselects
    it: for a deal whose identifier is not [NaN], toggling flips whether
    the deal counts as selected, leaves the deals with other identifiers
    as they are, and toggling an unselected deal twice restores the
    selection. *)
Theorem toggling_selects_then_deselects
    (prev : list JS.record) (deal : JS.record) :
  JS.strictEq (Dashboard.dealId deal) (Dashboard.dealId deal) = true ->
  Dashboard.isSelected (Dashboard.toggleDealSelection prev deal) deal
  = negb (Dashboard.isSelected prev deal)
  /\ (forall other,
        JS.strictEq (Dashboard.dealId other) (Dashboard.dealId deal) = false ->
        (In other (Dashboard.toggleDealSelection prev deal) <-> In other prev))
  /\ (Dashboard.isSelected prev deal = false ->
      Dashboard.toggleDealSelection
        (Dashboard.toggleDealSelection prev deal) deal = prev).
Proof.
  intros Hid. split; [now apply toggle_flips_isSelected |]. split.
  - intros other Hother. unfold Dashboard.toggleDealSelection.
    destruct (Dashboard.isSelected prev deal).
    + rewrite filter_In, Hother. simpl. tauto.
    + rewrite in_app_iff. simpl. split; [| tauto].
      intros [H | [<- | []]]; [exact H | congruence].
  - intros Hsel.
    pose proof (toggle_flips_isSelected prev deal Hid) as Hflip.
    rewrite Hsel in Hflip. simpl in Hflip.
    unfold Dashboard.toggleDealSelection at 1. rewrite Hflip.
    unfold Dashboard.toggleDealSelection. rewrite Hsel.
    rewrite List.filter_app. simpl. rewrite Hid. simpl. rewrite app_nil_r.
    now apply filter_none_match.
Qed.

Lemma toggling_selects_then_deselects_witness :
  Dashboard.toggleDealSelection
    (Dashboard.toggleDealSelection [Fixtures.dealWithId "a0X1" "Oak"]
       (Fixtures.dealWithId "a0X2" "Elm"))
    (Fixtures.dealWithId "a0X2" "Elm")
  = [Fixtures.dealWithId "a0X1" "Oak"].
Proof.
  apply (proj2 (proj2
           (toggling_selects_then_deselects
              [Fixtures.dealWithId "a0X1" "Oak"]
              (Fixtures.dealWithId "a0X2" "Elm") eq_refl))).
  reflexivity.
Defined.

(** X13.  Whatever rows are ticked and whenever the selection is cleared, the
    selection never holds two deals with the same identifier. *)
Theorem selection_never_holds_an_identifier_twice
    (events : list Dashboard.selectionEvent) :
  Properties.distinctIds (Dashboard.selectionAfter events).
Proof. apply selectionAfter_distinct. Qed.

(** X14.  A row of a deal that has an identifier shows its box ticked exactly
    when the deal counts as selected, so ticking the box flips it. *)
Theorem row_box_follows_the_selection
    (selectedDeals : list JS.record) (deal : JS.record) (index : nat) :
  JS.truthy (Dashboard.dealId deal) = true ->
  Dashboard.rowIsSelected selectedDeals deal index
  = Dashboard.isSelected selectedDeals deal
  /\ Dashboard.rowIsSelected
       (Dashboard.toggleDealSelection selectedDeals deal) deal index
     = negb (Dashboard.rowIsSelected selectedDeals deal index).
Proof.
  intros Ht.
  assert (H : forall l, Dashboard.rowIsSelected l deal index
                        = Dashboard.isSelected l deal).
  { intros l. unfold Dashboard.rowIsSelected, Dashboard.rowId, JS.orElse.
    now rewrite Ht. }
  split; [apply H |]. rewrite !H.
  apply toggle_flips_isSelected. now apply truthy_strictEq_refl.
Qed.

Lemma row_box_follows_the_selection_witness :
  Dashboard.rowIsSelected
    (Dashboard.toggleDealSelection [] (Fixtures.dealWithId "a0X1" "Oak"))
    (Fixtures.dealWithId "a0X1" "Oak") 4
  = negb (Dashboard.rowIsSelected [] (Fixtures.dealWithId "a0X1" "Oak") 4).
Proof.
  exact (proj2 (row_box_follows_the_selection []
                  (Fixtures.dealWithId "a0X1" "Oak") 4 eq_refl)).
Defined.

(** X15.  In a sheet without identifier columns the selection cannot be used:
    however the rows are ticked, no row shows its box ticked, and the
    selection holds at most one deal, since all deals share the missing
    identifier. *)
Theorem rows_without_identifier_never_show_ticked
    (events : list Dashboard.selectionEvent) (deal : JS.record)
    (index : nat) :
  (forall d, In (Dashboard.Toggled d) events ->
             Dashboard.dealId d = JS.VUndefined) ->
  Dashboard.dealId deal = JS.VUndefined ->
  Dashboard.rowIsSelected (Dashboard.selectionAfter events) deal index = false
  /\ (length (Dashboard.selectionAfter events) <= 1)%nat.
Proof.
  intros Hall Hdeal.
  assert (Hsel : forall d, In d (Dashboard.selectionAfter events) ->
                           Dashboard.dealId d = JS.VUndefined).
  { intros d Hd. apply Hall. now apply selectionAfter_members. }
  split.
  - unfold Dashboard.rowIsSelected, Dashboard.rowId. rewrite Hdeal. simpl.
    apply not_true_iff_false. intros H. apply existsb_exists in H.
    destruct H as (d & Hd & Hid). rewrite (Hsel d Hd) in Hid. discriminate.
  - pose proof (selectionAfter_distinct events) as Hdist.
    destruct (Dashboard.selectionAfter events) as [| a [| b r]];
      simpl; try lia.
    inversion Hdist as [| ? ? Ha _]; subst.
    rewrite List.Forall_forall in Ha. specialize (Ha b (or_introl eq_refl)).
    rewrite (Hsel a), (Hsel b) in Ha by (simpl; tauto). discriminate.
Qed.

Lemma rows_without_identifier_never_show_ticked_witness :
  Dashboard.rowIsSelected
    (Dashboard.selectionAfter
       [Dashboard.Toggled Fixtures.dealNoId;
        Dashboard.Toggled Fixtures.dealNoIntent;
        Dashboard.Toggled Fixtures.dealNoId])
    Fixtures.dealNoId 0 = false
  /\ (length
        (Dashboard.selectionAfter
           [Dashboard.Toggled Fixtures.dealNoId;
            Dashboard.Toggled Fixtures.dealNoIntent;
            Dashboard.Toggled Fixtures.dealNoId]) <= 1)%nat.
Proof.
  apply (rows_without_identifier_never_show_ticked
           [Dashboard.Toggled Fixtures.dealNoId;
            Dashboard.Toggled Fixtures.dealNoIntent;
            Dashboard.Toggled Fixtures.dealNoId]
           Fixtures.dealNoId 0).
  - intros d [H | [H | [H | []]]]; injection H as <-; reflexivity.
  - reflexivity.
Defined.

(* ===================================================================== *)
(** * Table cells and the check-box lists                                 *)
(* ===================================================================== *)

(** X16.  A cell of the table fails to render exactly when the record holds
    [null] in that column (an empty cell of the sheet): every other
    value, and a missing column, which shows as a dash, is displayed. *)
Theorem only_a_null_cell_fails_to_render (col : string) (deal : JS.record) :
  (Dashboard.renderCell col deal = None <-> JS.get deal col = JS.VNull)
  /\ (JS.get deal col = JS.VUndefined ->
      Dashboard.renderCell col deal = Some (Dashboard.TextView "-" true)).
Proof.
  unfold Dashboard.renderCell. split.
  - destruct (JS.get deal col) as [| | b | n | s] eqn:E; simpl;
      rewrite ?andb_false_r;
      repeat match goal with
             | |- context [if ?c && ?t then _ else _] =>
                 destruct (c && t)
             end;
      split; intros H; try discriminate; reflexivity.
  - intros ->. simpl. now rewrite !andb_false_r.
Qed.

Section CheckBoxFacts.

Import JS Dashboard.

Lemma sameValueZero_strictEq (v x : JS.value) :
  truthy x = true -> sameValueZero v x = strictEq v x.
Proof.
  destruct v as [| | b | n | s], x as [| | c | m | t]; simpl;
    try reflexivity.
  intros H. apply negb_true_iff, orb_false_iff in H. destruct H as [_ H].
  now rewrite H, andb_false_r, orb_false_r.
Qed.

Lemma arrayIncludes_strictEq (l : list JS.value) (x : JS.value) :
  truthy x = true ->
  arrayIncludes l x = existsb (fun v => strictEq v x) l.
Proof.
  intros H. unfold arrayIncludes. induction l as [| v r IH]; simpl;
    [reflexivity |].
  now rewrite IH, (sameValueZero_strictEq v x H).
Qed.

End CheckBoxFacts.

(** X17.  Ticking an option puts it into the list and unticking takes it out:
    after a tick the box shows ticked, after an untick it shows unticked,
    and a tick followed by an untick restores a list that did not hold the
    option. *)
Theorem ticking_then_unticking_an_option
    (l : list JS.value) (x : JS.value) :
  JS.truthy x = true ->
  JS.arrayIncludes (Dashboard.toggleListed true l x) x = true
  /\ JS.arrayIncludes (Dashboard.toggleListed false l x) x = false
  /\ (JS.arrayIncludes l x = false ->
      Dashboard.toggleListed false (Dashboard.toggleListed true l x) x = l).
Proof.
  intros Hx. pose proof (truthy_strictEq_refl x Hx) as Hrefl.
  unfold Dashboard.toggleListed. repeat split.
  - rewrite (arrayIncludes_strictEq _ x Hx), existsb_app. simpl.
    now rewrite Hrefl, orb_true_r.
  - rewrite (arrayIncludes_strictEq _ x Hx).
    apply not_true_iff_false. intros H. apply existsb_exists in H.
    destruct H as (v & Hv & Hvx). apply filter_In in Hv.
    destruct Hv as [_ Hv]. now rewrite Hvx in Hv.
  - rewrite (arrayIncludes_strictEq _ x Hx). intros Hnot.
    rewrite List.filter_app. simpl. rewrite Hrefl. simpl.
    rewrite app_nil_r. now apply filter_none_match.
Qed.

Lemma ticking_then_unticking_an_option_witness :
  Dashboard.toggleListed false
    (Dashboard.toggleListed true [JS.VStr "Retail"] (JS.VStr "Industrial"))
    (JS.VStr "Industrial")
  = [JS.VStr "Retail"].
Proof.
  apply (proj2 (proj2 (ticking_then_unticking_an_option
                         [JS.VStr "Retail"] (JS.VStr "Industrial") eq_refl))).
  reflexivity.
Defined.

(* ===================================================================== *)
(** * What the bars of a chart count                                      *)
(* ===================================================================== *)

Section BarFacts.

Import JS Dashboard.

Lemma lookupOwn_setOwn_same (k : string) (t : tally) (c : counts) :
  lookupOwn k (setOwn k t c) = Some t.
Proof.
  induction c as [| [k' t'] r IH]; simpl.
  - now rewrite String.eqb_refl.
  - destruct (String.eqb k k') eqn:E; simpl.
    + now rewrite String.eqb_refl.
    + now rewrite E.
Qed.

Lemma lookupOwn_setOwn_other (k k' : string) (t : tally) (c : counts) :
  k' <> k -> lookupOwn k' (setOwn k t c) = lookupOwn k' c.
Proof.
  intros Hne. apply String.eqb_neq in Hne.
  induction c as [| [k0 t0] r IH]; simpl.
  - now rewrite Hne.
  - destruct (String.eqb k k0) eqn:E; simpl.
    + apply String.eqb_eq in E. subst k0. now rewrite Hne.
    + now rewrite IH.
Qed.

Lemma lookupOwn_None (k : string) (c : counts) :
  lookupOwn k c = None <-> ~ In k (map fst c).
Proof.
  induction c as [| [k' t'] r IH]; simpl; [tauto |].
  destruct (String.eqb k k') eqn:E.
  - apply String.eqb_eq in E. subst k'. split; [discriminate | tauto].
  - apply String.eqb_neq in E. rewrite IH. split; [| tauto].
    intros H [H' | H']; [congruence | tauto].
Qed.

Lemma keys_setOwn (k : string) (t : tally) (c : counts) :
  map fst (setOwn k t c)
  = match lookupOwn k c with
    | Some _ => map fst c
    | None => (map fst c ++ [k])%list
    end.
Proof.
  induction c as [| [k' t'] r IH]; simpl; [reflexivity |].
  destruct (String.eqb k k') eqn:E; simpl.
  - apply String.eqb_eq in E. now subst k'.
  - rewrite IH. now destruct (lookupOwn k r).
Qed.

Lemma lookupOwn_In (k : string) (t : tally) (c : counts) :
  List.NoDup (map fst c) -> (In (k, t) c <-> lookupOwn k c = Some t).
Proof.
  induction c as [| [k' t'] r IH]; simpl; intros Hnd.
  - split; [contradiction | discriminate].
  - apply List.NoDup_cons_iff in Hnd. destruct Hnd as [Hk' Hnd].
    destruct (String.eqb k k') eqn:E.
    + apply String.eqb_eq in E. subst k'. split.
      * intros [H | H]; [congruence |].
        destruct Hk'. apply in_map_iff. now exists (k, t).
      * intros H. left. congruence.
    + apply String.eqb_neq in E. rewrite <- (IH Hnd). split; [| tauto].
      intros [H | H]; [congruence | exact H].
Qed.

Lemma occurrences_snoc (field k : string) (done : list record) (d : record) :
  Properties.occurrences field k (done ++ [d])
  = (Properties.occurrences field k done
     + if truthy (get d field) && String.eqb (ToString (get d field)) k
       then 1 else 0)%nat.
Proof.
  unfold Properties.occurrences. rewrite List.filter_app, length_app. simpl.
  now destruct (_ && _).
Qed.

Lemma bump_counts (field : string) (done : list record) (d : record)
    (c : counts) :
  truthy (get d field) = true ->
  inherited (ToString (get d field)) = false ->
  List.NoDup (map fst c) ->
  (forall k, lookupOwn k c
             = match Properties.occurrences field k done with
               | O => None
               | S n => Some (Tally (S n))
               end) ->
  List.NoDup (map fst (bump c (ToString (get d field))))
  /\ forall k, lookupOwn k (bump c (ToString (get d field)))
               = match Properties.occurrences field k (done ++ [d]) with
                 | O => None
                 | S n => Some (Tally (S n))
                 end.
Proof.
  intros Ht Hk Hnd Hc. unfold bump.
  rewrite (not_inherited_not_proto _ Hk). split.
  - rewrite keys_setOwn.
    destruct (lookupOwn (ToString (get d field)) c) eqn:E; [exact Hnd |].
    apply lookupOwn_None in E.
    apply (Permutation_NoDup (l := ToString (get d field) :: map fst c)).
    + apply Permutation_cons_append.
    + now constructor.
  - intros k. rewrite occurrences_snoc, Ht. simpl.
    destruct (String.eqb (ToString (get d field)) k) eqn:E.
    + apply String.eqb_eq in E. subst k. rewrite lookupOwn_setOwn_same.
      unfold nextTally. rewrite Hc, Hk.
      destruct (Properties.occurrences field _ done) as [| n]; simpl.
      * reflexivity.
      * do 3 f_equal. lia.
    + apply String.eqb_neq in E.
      rewrite lookupOwn_setOwn_other by congruence.
      rewrite Hc, Nat.add_0_r. reflexivity.
Qed.

Lemma countBy_counts_from (field : string) (deals done : list record)
    (c : counts) :
  Properties.plainKeys field deals = true ->
  List.NoDup (map fst c) ->
  (forall k, lookupOwn k c
             = match Properties.occurrences field k done with
               | O => None
               | S n => Some (Tally (S n))
               end) ->
  let c' :=
    fold_left (fun c deal =>
                 let v := get deal field in
                 if truthy v then bump c (ToString v) else c)
              deals c in
  List.NoDup (map fst c')
  /\ forall k, lookupOwn k c'
               = match Properties.occurrences field k (done ++ deals) with
                 | O => None
                 | S n => Some (Tally (S n))
                 end.
Proof.
  revert done c. induction deals as [| d r IH]; intros done c Hp Hnd Hc; simpl.
  - rewrite app_nil_r. now split.
  - unfold Properties.plainKeys in Hp. simpl in Hp.
    apply andb_true_iff in Hp. destruct Hp as [Hd Hr].
    replace (done ++ d :: r)%list with ((done ++ [d]) ++ r)%list
      by now rewrite <- app_assoc.
    destruct (truthy (get d field)) eqn:E; simpl in Hd.
    + apply negb_true_iff in Hd.
      destruct (bump_counts field done d c E Hd Hnd Hc) as [H1 H2].
      now apply IH.
    + apply IH; [exact Hr | exact Hnd |].
      intros k. rewrite occurrences_snoc, E. simpl.
      now rewrite Nat.add_0_r.
Qed.

Lemma countBy_counts (field : string) (deals : list record) :
  Properties.plainKeys field deals = true ->
  List.NoDup (map fst (countBy field deals))
  /\ forall k, lookupOwn k (countBy field deals)
               = match Properties.occurrences field k deals with
                 | O => None
                 | S n => Some (Tally (S n))
                 end.
Proof.
  intros Hp.
  apply (countBy_counts_from field deals [] [] Hp); [constructor |].
  intros k. reflexivity.
Qed.

End BarFacts.

(** X18.  Each bar of a chart counts the filtered records that read as its
    name. *)
Theorem each_bar_counts_the_records_of_its_name
    (field : string) (filtered : list JS.record) :
  Properties.plainKeys field filtered = true ->
  List.NoDup (map Dashboard.name (Dashboard.chartData field filtered))
  /\ (forall g, In g (Dashboard.chartData field filtered) ->
        Dashboard.value g
        = Dashboard.Tally
            (Properties.occurrences field (Dashboard.name g) filtered)
        /\ (0 < Properties.occurrences field (Dashboard.name g) filtered)%nat)
  /\ (forall k, (0 < Properties.occurrences field k filtered)%nat ->
        exists g, In g (Dashboard.chartData field filtered)
                  /\ Dashboard.name g = k).
Proof.
  intros Hp. destruct (countBy_counts field filtered Hp) as [Hnd Hc].
  destruct filtered as [| d ds].
  - simpl. split; [constructor |]. split; [contradiction |].
    intros k H. unfold Properties.occurrences in H. simpl in H. lia.
  - pose proof (chartData_perm field d ds) as Hperm.
    set (mk := fun e : string * Dashboard.tally =>
                 {| Dashboard.name := fst e;
                    Dashboard.value := snd e;
                    Dashboard.percentage :=
                      Dashboard.percentOf (snd e) (length (d :: ds)) |})
      in Hperm.
    split; [| split].
    + apply (Permutation_NoDup
               (l := map fst (Dashboard.countBy field (d :: ds)))); [| exact Hnd].
      symmetry. rewrite Hperm, map_map. reflexivity.
    + intros g Hg. apply (Permutation_in _ Hperm) in Hg.
      apply in_map_iff in Hg. destruct Hg as ([k t] & <- & He). simpl.
      apply (lookupOwn_In k t _ Hnd) in He. rewrite Hc in He.
      destruct (Properties.occurrences field k (d :: ds)) as [| n];
        [discriminate |].
      injection He as <-. split; [reflexivity | lia].
    + intros k Hk. specialize (Hc k).
      destruct (Properties.occurrences field k (d :: ds)) as [| n] eqn:E;
        [lia |].
      apply (lookupOwn_In k _ _ Hnd) in Hc.
      exists (mk (k, Dashboard.Tally (S n))). split; [| reflexivity].
      apply (Permutation_in _ (Permutation_sym Hperm)).
      apply in_map_iff. now exists (k, Dashboard.Tally (S n)).
Qed.

Lemma each_bar_counts_the_records_of_its_name_witness :
  exists g,
    In g (Dashboard.chartData "Primary Supply Vertical"
            [Fixtures.dealRetail; Fixtures.dealNoVertical;
             Fixtures.dealIndustrial; Fixtures.dealRetail])
    /\ Dashboard.name g = "Retail".
Proof.
  apply (proj2 (proj2 (each_bar_counts_the_records_of_its_name
                  "Primary Supply Vertical"
                  [Fixtures.dealRetail; Fixtures.dealNoVertical;
                   Fixtures.dealIndustrial; Fixtures.dealRetail] eq_refl))).
  vm_compute. lia.
Defined.

(* ===================================================================== *)
(** * The simplified variant beside the full dashboard                    *)
(* ===================================================================== *)

Section VariantFacts.

Import JS.

Lemma simplified_dealPasses (localTZA : Z -> Z)
    (f : SimplifiedDashboard.filters) (d : record) :
  Properties.isTrueText (get d "SmartShare Enabled?") = false ->
  Dashboard.dealPasses localTZA (SimplifiedDashboard.asFullFilters f) d
  = Some (SimplifiedDashboard.dealPasses f d).
Proof.
  intros Htext.
  unfold SimplifiedDashboard.dealPasses, Dashboard.dealPasses,
    Dashboard.brokerExcluded, Dashboard.flagsExcluded,
    Dashboard.statusExcluded, Dashboard.typeExcluded, Dashboard.dateExcluded,
    Dashboard.outOfRange, Dashboard.notListed.
  simpl. rewrite flagEnabled_split, Htext, orb_false_r.
  destruct (SimplifiedDashboard.ebitdaRange f) as [lo hi]. simpl.
  destruct (SimplifiedDashboard.verticals f) as [| v vs];
    [| destruct (negb (arrayIncludes (v :: vs) _))];
    (destruct (lt (get d "EBITDA") (VNum lo) || _); [reflexivity |]);
    try reflexivity;
    destruct (SimplifiedDashboard.includeSmartshareEnabled f) as [[|] |];
    simpl; try reflexivity;
    now destruct (SimplifiedDashboard.smartshareEnabled _).
Qed.

Lemma arrayFilter_total {A : Type} (p : A -> option bool) (q : A -> bool)
    (l : list A) :
  (forall x, In x l -> p x = Some (q x)) ->
  arrayFilter p l = Some (List.filter q l).
Proof.
  induction l as [| x r IH]; intros H; simpl; [reflexivity |].
  rewrite (H x (or_introl eq_refl)), IH by (intros y Hy; apply H; now right).
  now destruct (q x).
Qed.

End VariantFacts.

(** X19.  On a sheet whose SmartShare column holds no text that reads ["TRUE"],
    the simplified variant shows what the full dashboard shows under the
    same vertical, EBITDA and SmartShare filters: the same deals, the same
    vertical groups with the same counts and percentages (the full
    dashboard orders them by count), the same number of deals and the same
    average EBITDA. *)
Theorem simplified_variant_shows_the_same
    (localTZA : Z -> Z) (f : SimplifiedDashboard.filters)
    (deals : list JS.record) :
  (forall d, In d deals ->
             Properties.isTrueText (JS.get d "SmartShare Enabled?") = false) ->
  Dashboard.filteredDeals localTZA (SimplifiedDashboard.asFullFilters f)
                          deals
  = Some (SimplifiedDashboard.filteredDeals f deals)
  /\ Permutation
       (SimplifiedDashboard.verticalChartData
          (SimplifiedDashboard.filteredDeals f deals))
       (Dashboard.verticalChartData
          (SimplifiedDashboard.filteredDeals f deals))
  /\ option_map Properties.countAndAvgEBITDA'
       (SimplifiedDashboard.summaryStats
          (SimplifiedDashboard.filteredDeals f deals))
     = option_map Properties.countAndAvgEBITDA
         (Dashboard.summaryStats (SimplifiedDashboard.filteredDeals f deals)).
Proof.
  intros Hall. split; [| split].
  - unfold SimplifiedDashboard.filteredDeals, Dashboard.filteredDeals.
    apply arrayFilter_total. intros d Hd.
    apply simplified_dealPasses. now apply Hall.
  - generalize (SimplifiedDashboard.filteredDeals f deals). intros shown.
    unfold SimplifiedDashboard.verticalChartData, Dashboard.verticalChartData.
    destruct shown as [| d ds]; [reflexivity |].
    symmetry. unfold Dashboard.chartData. apply arraySort_perm.
  - now destruct (SimplifiedDashboard.filteredDeals f deals).
Qed.

Lemma simplified_variant_shows_the_same_witness :
  Dashboard.filteredDeals Fixtures.utc
    (SimplifiedDashboard.asFullFilters Fixtures.retailOnly)
    [Fixtures.dealRetailShared; Fixtures.dealIndustrial;
     Fixtures.dealRetailUnshared]
  = Some (SimplifiedDashboard.filteredDeals Fixtures.retailOnly
            [Fixtures.dealRetailShared; Fixtures.dealIndustrial;
             Fixtures.dealRetailUnshared]).
Proof.
  refine (proj1 (simplified_variant_shows_the_same Fixtures.utc
                   Fixtures.retailOnly
                   [Fixtures.dealRetailShared; Fixtures.dealIndustrial;
                    Fixtures.dealRetailUnshared] _)).
  intros d [<- | [<- | [<- | []]]]; reflexivity.
Defined.

(** X20.  Reloading the page keeps only part of the simplified variant's
    filters: the SmartShare choice survives; of the verticals only the
    first survives, as text; the EBITDA maximum is back at 40,000,000; and
    a minimum that is not above 0 is back at 0. *)
Theorem reload_keeps_part_of_the_filters (f : SimplifiedDashboard.filters) :
  SimplifiedDashboard.includeSmartshareEnabled
    (SimplifiedDashboard.readParams SimplifiedDashboard.initialFilters
       (SimplifiedDashboard.writeParams f))
  = SimplifiedDashboard.includeSmartshareEnabled f
  /\ SimplifiedDashboard.verticals
       (SimplifiedDashboard.readParams SimplifiedDashboard.initialFilters
          (SimplifiedDashboard.writeParams f))
     = match SimplifiedDashboard.verticals f with
       | v :: _ =>
           if String.eqb (JS.ToString v) "" then []
           else [JS.VStr (JS.ToString v)]
       | [] => []
       end
  /\ snd (SimplifiedDashboard.ebitdaRange
            (SimplifiedDashboard.readParams SimplifiedDashboard.initialFilters
               (SimplifiedDashboard.writeParams f)))
     = 40000000%float
  /\ (PrimFloat.ltb 0 (fst (SimplifiedDashboard.ebitdaRange f)) = false ->
      fst (SimplifiedDashboard.ebitdaRange
             (SimplifiedDashboard.readParams
                SimplifiedDashboard.initialFilters
                (SimplifiedDashboard.writeParams f)))
      = 0%float).
Proof.
  unfold SimplifiedDashboard.readParams, SimplifiedDashboard.writeParams.
  cbn [SimplifiedDashboard.vertical SimplifiedDashboard.minEBITDA
       SimplifiedDashboard.smartshare].
  destruct f as [vs [lo hi] ss]. cbn [SimplifiedDashboard.verticals
    SimplifiedDashboard.ebitdaRange
    SimplifiedDashboard.includeSmartshareEnabled fst snd].
  repeat split.
  - destruct ss as [[|] |]; cbn; rewrite ?orb_true_r; try reflexivity.
    now destruct (_ || _).
  - destruct vs as [| v vs]; cbn.
    + now destruct (_ || _).
    + destruct (String.eqb (JS.ToString v) ""); cbn; [| reflexivity].
      now destruct (_ || _).
  - destruct (_ || _); [| reflexivity].
    destruct (PrimFloat.ltb 0 lo); cbn; [| reflexivity].
    now destruct (negb _).
  - intros ->. now destruct (_ || _).
Qed.

(* ===================================================================== *)
(** * The copied table                                                    *)
(* ===================================================================== *)

Section CopyFacts.

Import JS Dashboard.

Lemma chars_app (a b : string) :
  chars (a ++ b) = (chars a ++ chars b)%list.
Proof.
  unfold chars. induction a as [| c a IH]; [reflexivity |].
  rewrite append_cons. simpl. now rewrite IH.
Qed.

Lemma ofChars_chars (s : string) : ofChars (chars s) = s.
Proof. apply string_of_list_ascii_of_string. Qed.

Lemma splitChars_plain (sep : ascii) (cs rest cur : list ascii) :
  existsb (fun c => Ascii.eqb c sep) cs = false ->
  splitChars sep (cs ++ rest) cur = splitChars sep rest (rev cs ++ cur).
Proof.
  revert cur. induction cs as [| c cs IH]; intros cur H; [reflexivity |].
  simpl in H. apply orb_false_iff in H. destruct H as [Hc Hcs].
  simpl. rewrite Hc, (IH _ Hcs). now rewrite <- app_assoc.
Qed.

Lemma split_plain (sep : ascii) (s : string) :
  existsb (fun c => Ascii.eqb c sep) (chars s) = false ->
  split sep s = [s].
Proof.
  intros H. unfold split.
  rewrite <- (app_nil_r (chars s)), (splitChars_plain sep _ [] [] H).
  simpl. now rewrite app_nil_r, rev_involutive, ofChars_chars.
Qed.

(** Splitting a joined list at the separator gives the texts back, as long
    as no text holds the separator. *)
Lemma split_join (sep : ascii) (l : list JS.value) :
  l <> [] ->
  forallb (fun v => negb (existsb (fun c => Ascii.eqb c sep)
                                  (chars (joinText v)))) l = true ->
  split sep (join (String sep "") l) = map joinText l.
Proof.
  induction l as [| x r IH]; [congruence |]. intros _ H.
  simpl in H. apply andb_true_iff in H. destruct H as [Hx Hr].
  apply negb_true_iff in Hx.
  destruct r as [| y r]; [now apply split_plain |].
  change (join (String sep "") (x :: y :: r))
    with (joinText x ++ String sep "" ++ join (String sep "") (y :: r)).
  unfold split. rewrite chars_app, append_cons, append_nil.
  change (chars (String sep (join (String sep "") (y :: r))))
    with (sep :: chars (join (String sep "") (y :: r))).
  rewrite (splitChars_plain sep _ _ [] Hx). simpl.
  rewrite Ascii.eqb_refl, app_nil_r, rev_involutive, ofChars_chars.
  f_equal. apply IH; [discriminate | exact Hr].
Qed.

Lemma join_free (c : ascii) (sep : string) (l : list JS.value) :
  existsb (fun a => Ascii.eqb a c) (chars sep) = false ->
  forallb (fun v => negb (existsb (fun a => Ascii.eqb a c)
                                  (chars (joinText v)))) l = true ->
  existsb (fun a => Ascii.eqb a c) (chars (join sep l)) = false.
Proof.
  intros Hsep. induction l as [| x r IH]; [reflexivity |]. intros H.
  simpl in H. apply andb_true_iff in H. destruct H as [Hx Hr].
  apply negb_true_iff in Hx. destruct r as [| y r]; [exact Hx |].
  change (join sep (x :: y :: r))
    with (joinText x ++ sep ++ join sep (y :: r)).
  rewrite !chars_app, !existsb_app, Hx, Hsep. simpl. now apply IH.
Qed.

Lemma plainCells_split (cells : list JS.value) :
  Properties.plainCells cells = true ->
  forallb (fun v => negb (existsb (fun c => Ascii.eqb c (ascii_of_nat 9))
                                  (chars (joinText v)))) cells = true
  /\ forallb (fun v => negb (existsb (fun c => Ascii.eqb c (ascii_of_nat 10))
                                     (chars (joinText v)))) cells = true.
Proof.
  unfold Properties.plainCells. induction cells as [| v r IH]; simpl;
    [now split |].
  rewrite !andb_true_iff. intros [Hv Hr]. destruct (IH Hr) as [H1 H2].
  apply negb_true_iff in Hv.
  assert (Hboth : existsb (fun c => Ascii.eqb c (ascii_of_nat 9))
                          (chars (joinText v)) = false
                  /\ existsb (fun c => Ascii.eqb c (ascii_of_nat 10))
                             (chars (joinText v)) = false).
  { clear -Hv. induction (chars (joinText v)) as [| c cs IHc]; simpl in *;
      [now split |].
    apply orb_false_iff in Hv. destruct Hv as [Hc Hcs].
    apply orb_false_iff in Hc. destruct Hc as [Hc1 Hc2].
    destruct (IHc Hcs) as [H1 H2]. now rewrite Hc1, Hc2, H1, H2. }
  destruct Hboth as [Hb1 Hb2]. now rewrite Hb1, Hb2, H1, H2.
Qed.

End CopyFacts.

(** X21.  The copied text is a table again when split at line breaks and tabs:
    the header row, then one row of four cells for each selected deal, in
    order, a missing name or identifier giving an empty cell; this as long
    as no name or identifier holds a tab or a line break.  Nothing is
    copied for an empty selection. *)
Theorem copied_text_splits_back_into_the_table
    (selectedDeals : list JS.record) :
  selectedDeals <> [] ->
  (forall deal, In deal selectedDeals ->
                Properties.plainCells (Dashboard.tsvCells deal) = true) ->
  exists text,
    Dashboard.tsvContent selectedDeals = Some text
    /\ map (JS.split (ascii_of_nat 9)) (JS.split (ascii_of_nat 10) text)
       = map (map JS.joinText)
             (Dashboard.tsvHeaders :: map Dashboard.tsvCells selectedDeals).
Proof.
  intros Hne Hplain. unfold Dashboard.tsvContent.
  destruct selectedDeals as [| d ds] eqn:E; [congruence |]. rewrite <- E.
  assert (Hplain' : forall deal, In deal selectedDeals ->
            Properties.plainCells (Dashboard.tsvCells deal) = true)
    by now rewrite E.
  clear E Hne Hplain. eexists. split; [reflexivity |].
  rewrite <- (map_map Dashboard.tsvCells
                (fun cells => JS.VStr (JS.join Dashboard.tab cells))).
  change (JS.VStr (JS.join Dashboard.tab Dashboard.tsvHeaders)
          :: map (fun cells => JS.VStr (JS.join Dashboard.tab cells))
                 (map Dashboard.tsvCells selectedDeals))
    with (map (fun cells => JS.VStr (JS.join Dashboard.tab cells))
              (Dashboard.tsvHeaders :: map Dashboard.tsvCells selectedDeals)).
  assert (Hrows : forall cells,
             In cells (Dashboard.tsvHeaders
                       :: map Dashboard.tsvCells selectedDeals) ->
             cells <> [] /\ Properties.plainCells cells = true).
  { intros cells [<- | H]; [split; [discriminate | reflexivity] |].
    apply in_map_iff in H. destruct H as (deal & <- & Hd).
    split; [discriminate | now apply Hplain']. }
  assert (Hsome : Dashboard.tsvHeaders
                  :: map Dashboard.tsvCells selectedDeals <> [])
    by discriminate.
  revert Hrows Hsome.
  generalize (Dashboard.tsvHeaders :: map Dashboard.tsvCells selectedDeals).
  intros rows Hrows Hsome.
  change Dashboard.newline with (String (ascii_of_nat 10) "").
  rewrite split_join.
  - rewrite !map_map. apply map_ext_in. intros cells Hc.
    destruct (Hrows cells Hc) as [Hne Hp].
    apply plainCells_split in Hp. destruct Hp as [Htab _].
    change (JS.joinText (JS.VStr (JS.join Dashboard.tab cells)))
      with (JS.join (String (ascii_of_nat 9) "") cells).
    now apply split_join.
  - now destruct rows.
  - apply List.forallb_forall. intros v Hv. apply in_map_iff in Hv.
    destruct Hv as (cells & <- & Hc). destruct (Hrows cells Hc) as [_ Hp].
    apply plainCells_split in Hp. destruct Hp as [_ Hnl].
    apply negb_true_iff.
    change (JS.joinText (JS.VStr (JS.join Dashboard.tab cells)))
      with (JS.join Dashboard.tab cells).
    now apply join_free.
Qed.

Lemma copied_text_splits_back_into_the_table_witness :
  exists text,
    Dashboard.tsvContent [Fixtures.dealComplete; Fixtures.dealNoId]
    = Some text
    /\ map (JS.split (ascii_of_nat 9)) (JS.split (ascii_of_nat 10) text)
       = [["Deal"; "Revenue ($M)"; "EBITDA ($M)"; "ID"];
          ["Ash"; "12.5"; "3.0"; "a0X7"];
          ["Nameless"; "N/A"; "N/A"; ""]].
Proof.
  destruct (copied_text_splits_back_into_the_table
              [Fixtures.dealComplete; Fixtures.dealNoId])
    as (text & Htext & Hsplit).
  - discriminate.
  - intros deal [<- | [<- | []]]; vm_compute; reflexivity.
  - exists text. split; [exact Htext |]. rewrite Hsplit.
    vm_compute. reflexivity.
Defined.

(* ===================================================================== *)
(** * Stability of the sort                                               *)
(* ===================================================================== *)

Section Stability.

Context {A : Type}.
Variable comparefn : A -> A -> float.

Local Abbreviation after := (Properties.sortsAfterBy comparefn).

Lemma insertSorted_keeps_order (x a b : A) (s : list A) :
  Properties.appearsBefore a b s ->
  Properties.appearsBefore a b (Dashboard.insertSorted comparefn x s).
Proof.
  induction s as [| y r IH]; simpl; [contradiction |].
  intros H. destruct (PrimFloat.ltb 0 (comparefn x y)); simpl.
  - destruct H as [[-> Hb] | H].
    + left. split; [reflexivity |].
      apply (Permutation_in _
               (Permutation_sym (insertSorted_perm comparefn x r))).
      now right.
    + right. now apply IH.
  - right. exact H.
Qed.

Lemma insertSorted_stops_early (x z : A) (s : list A) :
  In z s -> after x z = false ->
  Properties.appearsBefore x z (Dashboard.insertSorted comparefn x s).
Proof.
  intros Hz Hxz. induction s as [| y r IH]; simpl; [contradiction |].
  fold (after x y). destruct (after x y) eqn:E; simpl.
  - right. apply IH. destruct Hz as [-> | Hz]; [congruence | exact Hz].
  - left. split; [reflexivity | exact Hz].
Qed.

Lemma arraySort_stable (a b : A) (l : list A) :
  Properties.appearsBefore a b l -> after a b = false ->
  Properties.appearsBefore a b (Dashboard.arraySort comparefn l).
Proof.
  intros H Hab. induction l as [| x r IH]; simpl; [contradiction |].
  destruct H as [[-> Hb] | H].
  - apply insertSorted_stops_early; [| exact Hab].
    apply (Permutation_in _ (Permutation_sym (arraySort_perm comparefn r))).
    exact Hb.
  - apply insertSorted_keeps_order. now apply IH.
Qed.

End Stability.

(** X9.  The sort is stable.  For every column and direction on which the
    comparison is consistent (ties are transitive on the list), a record
    that stands before another in the filtered list still stands before it
    in the table, unless the comparison puts it after that record.
    Records that tie therefore keep their order. *)
Theorem sort_keeps_the_order_of_ties
    (localTZA : Z -> Z) (cfg : Dashboard.sortConfig)
    (filtered : list JS.record) (a b : JS.record) :
  Properties.comparableOn (Properties.sortsAfter localTZA cfg) filtered
  = true ->
  Properties.appearsBefore a b filtered ->
  Properties.sortsAfter localTZA cfg a b = false ->
  Properties.appearsBefore a b (Dashboard.sortedDeals localTZA cfg filtered).
Proof.
  intros _ H Hab. unfold Dashboard.sortedDeals. now apply arraySort_stable.
Qed.

Lemma sort_keeps_the_order_of_ties_witness :
  Properties.appearsBefore Fixtures.dealTwin2 Fixtures.dealTwin1
    (Dashboard.sortedDeals Fixtures.utc (Fixtures.byRevenue Dashboard.desc)
       [Fixtures.dealSmall; Fixtures.dealTwin2; Fixtures.dealLarge;
        Fixtures.dealTwin1]).
Proof.
  apply (sort_keeps_the_order_of_ties Fixtures.utc
           (Fixtures.byRevenue Dashboard.desc)
           [Fixtures.dealSmall; Fixtures.dealTwin2; Fixtures.dealLarge;
            Fixtures.dealTwin1] Fixtures.dealTwin2 Fixtures.dealTwin1).
  - vm_compute. reflexivity.
  - right. left. split; [reflexivity |]. right. left. reflexivity.
  - vm_compute. reflexivity.
Defined.
